(** * Search page, report dialog and chart of the AI universal search module

    A shallow embedding of the OWL components that run a search, turn its
    results into a report and shape them into chart series:

    - [ReportVisualization] ([getChartData], [_aggregateValues],
      [getSampleData]; in module [Rendering] its [getChartConfig],
      [renderChart] and life cycle),
    - [ReportDialog] (field inspection, default selections, the dialog's
      event handlers and [onConfirm]), and
    - [SearchPage] (the search, the favorites and the reports, each request
      with the callbacks it is given; module [PageRuns] lets the requests
      end in any order).

    The components are written in JavaScript and inspect payloads of unknown
    shape, so the embedding works on a universe of JavaScript values
    (module [JS]) with the language's own conversions: [typeof], truthiness,
    [String(v)], [parseFloat], loose and strict equality, property lookup and
    key enumeration order.  Numbers are IEEE 754 binary64 values, as in the
    language. *)

From Stdlib Require Import ZArith NArith Nnat List String Ascii Bool Lia.
From Stdlib Require Import Permutation Sorted.
From Stdlib Require Import DecimalString.
From Stdlib Require Import Floats.PrimFloat Floats.SpecFloat Floats.FloatOps.
Import ListNotations.

Open Scope string_scope.
Open Scope list_scope.

(** ** Characters and strings

    A JavaScript string is a sequence of UTF-16 code units; the embedding
    represents the code units below 256, which is all the components' own
    string tests (digits, [T], space, underscore, [_info], [log]) look at. *)

Module Str.

Definition code (c : ascii) : nat := nat_of_ascii c.

Definition isDigit (c : ascii) : bool :=
  (48 <=? code c)%nat && (code c <=? 57)%nat.

Definition isLower (c : ascii) : bool :=
  (97 <=? code c)%nat && (code c <=? 122)%nat.

Definition isUpper (c : ascii) : bool :=
  (65 <=? code c)%nat && (code c <=? 90)%nat.

(** The class [\w] of a regular expression: letters, digits, underscore. *)
Definition isWord (c : ascii) : bool :=
  isDigit c || isLower c || isUpper c || (code c =? 95)%nat.

(** White space and line terminators, as [trim] and the numeric
    conversions skip them. *)
Definition isSpace (c : ascii) : bool :=
  let n := code c in
  ((9 <=? n)%nat && (n <=? 13)%nat) || (n =? 32)%nat || (n =? 160)%nat.

Definition toUpper (c : ascii) : ascii :=
  if isLower c then ascii_of_nat (code c - 32) else c.

Definition digitVal (c : ascii) : Z := Z.of_nat (code c - 48).

Fixpoint trimStart (s : string) : string :=
  match s with
  | String c r => if isSpace c then trimStart r else s
  | EmptyString => EmptyString
  end.

Fixpoint rev_acc (s acc : string) : string :=
  match s with
  | String c r => rev_acc r (String c acc)
  | EmptyString => acc
  end.

Definition rev (s : string) : string := rev_acc s EmptyString.

Definition trimEnd (s : string) : string := rev (trimStart (rev s)).

Definition trim (s : string) : string := trimEnd (trimStart s).

(** [s.split(c)[0]]: the part of [s] before the first [c]. *)
Fixpoint before (c : ascii) (s : string) : string :=
  match s with
  | String d r => if Ascii.eqb d c then EmptyString else String d (before c r)
  | EmptyString => EmptyString
  end.

(** [s.includes(t)]. *)
Fixpoint includes (t s : string) : bool :=
  String.prefix t s ||
  match s with
  | String _ r => includes t r
  | EmptyString => false
  end.

(** [s.endsWith(t)]. *)
Definition endsWith (t s : string) : bool := String.prefix (rev t) (rev s).

(** [s.replace(/_/g, ' ').replace(/\b\w/g, l => l.toUpperCase())]:
    underscores become spaces, then the first character of every run of
    word characters is upper-cased. *)
Fixpoint underscoresToSpaces (s : string) : string :=
  match s with
  | String c r =>
      String (if (code c =? 95)%nat then " "%char else c) (underscoresToSpaces r)
  | EmptyString => EmptyString
  end.

Fixpoint capitalizeWords (prevWord : bool) (s : string) : string :=
  match s with
  | String c r =>
      String (if isWord c && negb prevWord then toUpper c else c)
             (capitalizeWords (isWord c) r)
  | EmptyString => EmptyString
  end.

Definition titleCase (s : string) : string :=
  capitalizeWords false (underscoresToSpaces s).

(** [/^\d{4}-\d{2}-\d{2}/.test(s)]. *)
Definition isoDatePrefix (s : string) : bool :=
  match s with
  | String y1 (String y2 (String y3 (String y4 (String h1
      (String m1 (String m2 (String h2 (String d1 (String d2 _))))))))) =>
      isDigit y1 && isDigit y2 && isDigit y3 && isDigit y4 &&
      Ascii.eqb h1 "-" && isDigit m1 && isDigit m2 &&
      Ascii.eqb h2 "-" && isDigit d1 && isDigit d2
  | _ => false
  end.

(** Decimal numeral of a non-negative integer. *)
Definition ofN (n : N) : string := NilZero.string_of_uint (N.to_uint n).
Definition ofNat (n : nat) : string := ofN (N.of_nat n).

End Str.

(** ** Numbers

    The Number type is binary64.  Arithmetic is the kernel's primitive
    floating-point arithmetic; conversions from and to decimal text are
    computed on exact integers and rounded once, to nearest even. *)

Module Num.

Definition number := float.

Definition NaN : number := nan.

(** The Number nearest to an integer. *)
Definition ofZ (z : Z) : number :=
  SF2Prim (binary_normalize prec emax z 0 false).

Definition ofNat (n : nat) : number := ofZ (Z.of_nat n).

Fixpoint digitCount (fuel : nat) (m : Z) : Z :=
  match fuel with
  | O => 0
  | S f => if (m <? 10)%Z then 1 else (1 + digitCount f (m / 10))%Z
  end.

(** Number of decimal digits of [m > 0]. *)
Definition digits10 (m : Z) : Z := digitCount (S (Z.to_nat (Z.log2 m))) m.

(** The Number nearest to [(-1)^neg * m * 10^e], for [m >= 0].  Values
    beyond the range of the format are cut off before any power of ten is
    computed: at least [10^309] is infinite and below [10^-325] is zero. *)
Definition ofDecimal (neg : bool) (m e : Z) : number :=
  match m with
  | Zpos p =>
      let d := digits10 m in
      if (309 <? d + e)%Z then (if neg then neg_infinity else infinity)
      else if (d + e <? -325)%Z then (if neg then neg_zero else zero)
      else
        match e with
        | Zneg k =>
            SF2Prim (SFdiv prec emax (S754_finite neg p 0)
                                     (S754_finite false (10 ^ k)%positive 0))
        | _ =>
            SF2Prim (binary_normalize prec emax
                       (if neg then - (m * 10 ^ e) else m * 10 ^ e)%Z 0 false)
        end
  | _ => if neg then neg_zero else zero
  end.

(** *** Reading a decimal literal *)

(** Reads a maximal run of digits: the digits as an integer, how many
    there were, and the rest of the text. *)
Fixpoint readDigits (acc : Z) (n : nat) (s : string) : Z * nat * string :=
  match s with
  | String c r =>
      if Str.isDigit c then readDigits (10 * acc + Str.digitVal c)%Z (S n) r
      else (acc, n, s)
  | EmptyString => (acc, n, s)
  end.

Definition readSign (s : string) : bool * string :=
  match s with
  | String "-" r => (true, r)
  | String "+" r => (false, r)
  | _ => (false, s)
  end.

(** An exponent part [e], [e+] or [e-] followed by at least one digit;
    otherwise nothing is consumed. *)
Definition readExponent (s : string) : Z * string :=
  match s with
  | String c r =>
      if Ascii.eqb c "e" || Ascii.eqb c "E" then
        let '(neg, r1) := readSign r in
        let '(x, n, r2) := readDigits 0 0 r1 in
        match n with
        | O => (0%Z, s)
        | _ => ((if neg then - x else x)%Z, r2)
        end
      else (0%Z, s)
  | EmptyString => (0%Z, s)
  end.

(** The longest prefix of [s] that is a signed decimal literal
    ([Infinity], or digits with an optional fraction and exponent), with
    what follows it; [None] when no prefix is one. *)
Definition readDecimal (s : string) : option (number * string) :=
  let '(neg, s1) := readSign s in
  if String.prefix "Infinity" s1 then
    Some (if neg then neg_infinity else infinity,
          String.substring 8 (String.length s1 - 8) s1)
  else
    let '(ip, ni, s2) := readDigits 0 0 s1 in
    let '(m, nf, s3) :=
      match s2 with
      | String "." r =>
          let '(m, nf, r') := readDigits ip 0 r in
          match ni, nf with
          | O, O => (ip, O, s2)
          | _, _ => (m, nf, r')
          end
      | _ => (ip, O, s2)
      end in
    match ni, nf with
    | O, O => None
    | _, _ =>
        let '(x, s4) := readExponent s3 in
        Some (ofDecimal neg m (x - Z.of_nat nf), s4)
    end.

(** [parseFloat] of a string. *)
Definition parseFloat (s : string) : number :=
  match readDecimal (Str.trimStart s) with
  | Some (x, _) => x
  | None => NaN
  end.

(** Digits in a radix of 2, 8 or 16, for the literals [0b], [0o], [0x]. *)
Definition radixDigit (radix : Z) (c : ascii) : option Z :=
  let n := Str.code c in
  let v := if Str.isDigit c then Some (Z.of_nat (n - 48))
           else if ((97 <=? n) && (n <=? 102))%nat then Some (Z.of_nat (n - 87))
           else if ((65 <=? n) && (n <=? 70))%nat then Some (Z.of_nat (n - 55))
           else None in
  match v with
  | Some d => if (d <? radix)%Z then Some d else None
  | None => None
  end.

Fixpoint readRadix (radix acc : Z) (s : string) : option Z :=
  match s with
  | String c r =>
      match radixDigit radix c with
      | Some d => readRadix radix (radix * acc + d)%Z r
      | None => None
      end
  | EmptyString => Some acc
  end.

Definition radixOf (c : ascii) : option Z :=
  if Ascii.eqb c "x" || Ascii.eqb c "X" then Some 16%Z
  else if Ascii.eqb c "o" || Ascii.eqb c "O" then Some 8%Z
  else if Ascii.eqb c "b" || Ascii.eqb c "B" then Some 2%Z
  else None.

(** The conversion of a string to a number ([Number(s)], as loose equality
    applies it): the whole trimmed text must be a numeric literal, and the
    empty text is 0. *)
Definition ofString (s : string) : number :=
  let t := Str.trim s in
  match t with
  | EmptyString => zero
  | String "0" (String c (String d r)) =>
      match radixOf c with
      | Some radix =>
          match readRadix radix 0 (String d r) with
          | Some z => ofZ z
          | None => NaN
          end
      | None =>
          match readDecimal t with
          | Some (x, EmptyString) => x
          | _ => NaN
          end
      end
  | _ =>
      match readDecimal t with
      | Some (x, EmptyString) => x
      | _ => NaN
      end
  end.

(** *** Writing a number

    [String(x)] is the shortest decimal numeral that reads back as [x];
    among several of that length, the one nearest to [x]. *)

(** Whether [n / d >= 10^k], for positive [n] and [d]. *)
Definition geqPow10 (n d k : Z) : bool :=
  match k with
  | Zneg p => (d <=? n * 10 ^ Zpos p)%Z
  | _ => (d * 10 ^ k <=? n)%Z
  end.

(** Moves an estimate [k] to the [k] with [10^(k-1) <= n/d < 10^k]. *)
Fixpoint magnitude (fuel : nat) (n d k : Z) : Z :=
  match fuel with
  | O => k
  | S f =>
      if negb (geqPow10 n d (k - 1)) then magnitude f n d (k - 1)
      else if geqPow10 n d k then magnitude f n d (k + 1)
      else k
  end.

(** The digits [s] (an integer of [k] digits) and the position [n] of the
    decimal point such that [s * 10^(n-k)] reads back as [x], tried for
    [k] from [k] upwards; [x] is the positive finite number [num / den],
    and [n] is its magnitude. *)
Fixpoint shortest (fuel : nat) (x : number) (num den n k : Z) : Z * Z * Z :=
  let scaled := match (k - n)%Z with
                | Zneg p => (num, den * 10 ^ Zpos p)%Z
                | e => (num * 10 ^ e, den)%Z
                end in
  let lo := (fst scaled / snd scaled)%Z in
  let r := (fst scaled mod snd scaled)%Z in
  let hi := (lo + 1)%Z in
  let okLo := ((10 ^ (k - 1) <=? lo)%Z && (ofDecimal false lo (n - k) =? x)%float)%bool in
  let okHi := (ofDecimal false hi (n - k) =? x)%float in
  let pick (s : Z) := if (s =? 10 ^ k)%Z then (1%Z, 1%Z, (n + 1)%Z) else (s, k, n) in
  match fuel with
  | O => pick lo
  | S f =>
      if okLo && okHi then
        match (2 * r ?= snd scaled)%Z with
        | Lt => pick lo
        | Gt => pick hi
        | Eq => if Z.even lo then pick lo else pick hi
        end
      else if okLo then pick lo
      else if okHi then pick hi
      else shortest f x num den n (k + 1)
  end.

Definition digitsOf (s : Z) : string := Str.ofN (Z.to_N s).

Fixpoint zeros (n : nat) : string :=
  match n with
  | O => EmptyString
  | S m => String "0" (zeros m)
  end.

(** Lays out the digits [s] ([k] of them) with the decimal point at [n]. *)
Definition layout (s k n : Z) : string :=
  let ds := digitsOf s in
  if ((k <=? n) && (n <=? 21))%Z then
    (ds ++ zeros (Z.to_nat (n - k)))%string
  else if ((0 <? n) && (n <=? 21))%Z then
    (String.substring 0 (Z.to_nat n) ds ++ "." ++
     String.substring (Z.to_nat n) (Z.to_nat (k - n)) ds)%string
  else if ((-6 <? n) && (n <=? 0))%Z then
    ("0." ++ zeros (Z.to_nat (- n)) ++ ds)%string
  else
    let e := (n - 1)%Z in
    let ex := ((if (e <? 0)%Z then "-" else "+") ++ digitsOf (Z.abs e))%string in
    if (k =? 1)%Z then (ds ++ "e" ++ ex)%string
    else (String.substring 0 1 ds ++ "." ++
          String.substring 1 (Z.to_nat (k - 1)) ds ++ "e" ++ ex)%string.

Definition toString (x : number) : string :=
  match Prim2SF x with
  | S754_nan => "NaN"
  | S754_zero _ => "0"
  | S754_infinity neg => if neg then "-Infinity" else "Infinity"
  | S754_finite neg m e =>
      let num := match e with Zneg _ => Zpos m | _ => (Zpos m * 2 ^ e)%Z end in
      let den := match e with Zneg p => (2 ^ Zpos p)%Z | _ => 1%Z end in
      let est := ((Z.log2 num - Z.log2 den) * 30103 / 100000 + 1)%Z in
      let n := magnitude 8 num den est in
      let '(s, k, n') := shortest 17 (abs x) num den n 1 in
      ((if neg then "-" else "") ++ layout s k n')%string
  end.

End Num.

(** ** JavaScript values

    Objects, arrays, dates and functions are references: each carries the
    address [loc] that identifies it, and two such values are the same object
    exactly when their addresses agree.  An object is represented with its
    own enumerable properties, in creation order.  A [Date] is represented
    by its time value, the text [String(d)] gives and the text
    [d.toISOString()] gives ([None] for an invalid date, where the method
    raises a [RangeError]).  A function is opaque: the components never call
    a function found in a payload, they only ask whether one is there.

    An object is a plain object: what it does not hold itself it inherits
    from [Object.prototype], and it redefines neither [toString] nor
    [valueOf].  Of an array and of a string the elements and the length are
    represented; what these, and numbers, booleans, dates and functions,
    inherit from their own prototypes is not, so a record of the payload
    whose fields are read by name is taken to be an object. *)

Module JS.

Definition loc := nat.

#[warnings="-register-all"]
Inductive value : Type :=
| VUndefined
| VNull
| VBool (b : bool)
| VNum (x : Num.number)
| VStr (s : string)
| VArr (l : loc) (elems : list value)
| VObj (l : loc) (props : list (string * value))
| VDate (l : loc) (time : Num.number) (text : string) (iso : option string)
| VFun (l : loc) (text : string).

(** Outcomes of an evaluation that does not return normally: the two
    exceptions the language raises on the components' paths, and a call of
    an opaque function, which the embedding does not follow. *)
Inductive exn : Type := TypeError | RangeError | OpaqueCall.

Inductive result (A : Type) : Type :=
| Ok (a : A)
| Throw (e : exn).

Arguments Ok {A} a.
Arguments Throw {A} e.

Definition bind {A B : Type} (c : result A) (k : A -> result B) : result B :=
  match c with
  | Ok a => k a
  | Throw e => Throw e
  end.

Notation "'let*' x ':=' c 'in' k" := (bind c (fun x => k))
  (at level 10, x pattern, c at level 100, k at level 200).

(** [typeof v]. *)
Definition typeOf (v : value) : string :=
  match v with
  | VUndefined => "undefined"
  | VNull => "object"
  | VBool _ => "boolean"
  | VNum _ => "number"
  | VStr _ => "string"
  | VArr _ _ | VObj _ _ | VDate _ _ _ _ => "object"
  | VFun _ _ => "function"
  end.

(** Truthiness, as [if (v)], [!v], [v && w] and [v || w] test it. *)
Definition truthy (v : value) : bool :=
  match v with
  | VUndefined | VNull => false
  | VBool b => b
  | VNum x => negb (is_zero x || is_nan x)
  | VStr s => negb (String.eqb s "")
  | _ => true
  end.

Definition or (v w : value) : value := if truthy v then v else w.

Definition isArray (v : value) : bool :=
  match v with VArr _ _ => true | _ => false end.

Definition instanceofDate (v : value) : bool :=
  match v with VDate _ _ _ _ => true | _ => false end.

Definition isNullish (v : value) : bool :=
  match v with VUndefined | VNull => true | _ => false end.

(** [String(v)], which is also what a template literal and a property key
    make of [v]. *)
Fixpoint toStr (v : value) : string :=
  match v with
  | VUndefined => "undefined"
  | VNull => "null"
  | VBool b => if b then "true" else "false"
  | VNum x => Num.toString x
  | VStr s => s
  | VArr _ xs =>
      (fix join (l : list value) : string :=
         match l with
         | [] => ""
         | x :: r =>
             ((match x with VUndefined | VNull => "" | _ => toStr x end) ++
              (match r with [] => "" | _ => "," ++ join r end))%string
         end) xs
  | VObj _ _ => "[object Object]"
  | VDate _ _ text _ => text
  | VFun _ text => text
  end.

(** The conversion to a number that comparison and arithmetic apply. *)
Definition toNumber (v : value) : Num.number :=
  match v with
  | VUndefined => Num.NaN
  | VNull => zero
  | VBool b => if b then one else zero
  | VNum x => x
  | VDate _ time _ _ => time
  | _ => Num.ofString (toStr v)
  end.

(** [parseFloat(v)]: the argument is converted to a string first. *)
Definition parseFloat (v : value) : Num.number := Num.parseFloat (toStr v).

(** [isNaN(x)] on a number. *)
Definition isNaN (x : Num.number) : bool := is_nan x.

(** [x || 0] on a number. *)
Definition orZero (x : Num.number) : Num.number :=
  if is_zero x || is_nan x then zero else x.

(** [v > 0]. *)
Definition gtZero (v : value) : bool := (zero <? toNumber v)%float.

Definition isObject (v : value) : bool :=
  match v with
  | VArr _ _ | VObj _ _ | VDate _ _ _ _ | VFun _ _ => true
  | _ => false
  end.

Definition address (v : value) : option loc :=
  match v with
  | VArr l _ | VObj l _ | VDate l _ _ _ | VFun l _ => Some l
  | _ => None
  end.

(** [v === w]. *)
Definition strictEq (v w : value) : bool :=
  match v, w with
  | VUndefined, VUndefined | VNull, VNull => true
  | VBool a, VBool b => Bool.eqb a b
  | VNum x, VNum y => (x =? y)%float
  | VStr s, VStr t => String.eqb s t
  | _, _ =>
      match address v, address w with
      | Some l, Some m => Nat.eqb l m
      | _, _ => false
      end
  end.

(** The equality of [Set] and [Array.prototype.includes]: strict
    equality, except that [NaN] equals itself. *)
Definition sameValueZero (v w : value) : bool :=
  match v, w with
  | VNum x, VNum y => (x =? y)%float || (is_nan x && is_nan y)
  | _, _ => strictEq v w
  end.

(** [v == w]: strict equality between values of one type; [null] and
    [undefined] equal each other and nothing else; an object against a
    primitive is converted to its string; two strings compare as strings
    and every other pair of primitives as numbers. *)
Definition looseEq (v w : value) : bool :=
  if isObject v && isObject w then strictEq v w
  else if isNullish v || isNullish w then isNullish v && isNullish w
  else
    let p := if isObject v then VStr (toStr v) else v in
    let q := if isObject w then VStr (toStr w) else w in
    match p, q with
    | VStr s, VStr t => String.eqb s t
    | _, _ => (toNumber p =? toNumber q)%float
    end.

(** *** Properties *)

Fixpoint lookup {A : Type} (k : string) (props : list (string * A)) : option A :=
  match props with
  | [] => None
  | (k', x) :: r => if String.eqb k k' then Some x else lookup k r
  end.

(** [props[k] = x] on an object used as a map: an existing property is
    overwritten in place, a new one is created last. *)
Fixpoint setProp {A : Type} (k : string) (x : A) (props : list (string * A))
  : list (string * A) :=
  match props with
  | [] => [(k, x)]
  | (k', y) :: r =>
      if String.eqb k k' then (k, x) :: r else (k', y) :: setProp k x r
  end.

(** An array index: the canonical numeral of an integer below [2^32 - 1]. *)
Definition indexOf (k : string) : option nat :=
  let '(z, n, rest) := Num.readDigits 0 0 k in
  if String.eqb rest "" && negb (Nat.eqb n 0) &&
     String.eqb (Str.ofN (Z.to_N z)) k && (z <? 4294967295)%Z
  then Some (Z.to_nat z) else None.

Definition isIndexKey (k : string) : bool :=
  match indexOf k with Some _ => true | None => false end.

Fixpoint insertIndex (i : nat) (l : list nat) : list nat :=
  match l with
  | [] => [i]
  | j :: r => if (i <=? j)%nat then i :: l else j :: insertIndex i r
  end.

(** The order in which [Object.keys], [Object.entries] and [for ... in]
    visit the properties of an object: array indices first, ascending,
    then the other names in creation order. *)
Definition keysOf {A : Type} (props : list (string * A)) : list string :=
  let ks := map fst props in
  let idx := fold_right (fun k acc => match indexOf k with
                                      | Some i => insertIndex i acc
                                      | None => acc
                                      end) [] ks in
  map Str.ofNat idx ++ filter (fun k => negb (isIndexKey k)) ks.

Definition charAt (i : nat) (s : string) : value :=
  match String.get i s with
  | Some c => VStr (String c EmptyString)
  | None => VUndefined
  end.

(** The value of the property [k] of an object, [undefined] when it has
    none. *)
Definition field {A : Type} (dflt : A) (k : string) (props : list (string * A)) : A :=
  match lookup k props with
  | Some x => x
  | None => dflt
  end.

(** *** Inherited members

    The members of [Object.prototype]: functions, but for [__proto__],
    which gives [Object.prototype] itself.  They are not enumerable.  The
    built-in objects are kept from [objectPrototype] on, and a built-in
    function prints as V8 prints it. *)
Definition objectPrototype : loc := 900.

Definition objectMembers : list string :=
  [ "constructor"; "__defineGetter__"; "__defineSetter__"; "hasOwnProperty";
    "__lookupGetter__"; "__lookupSetter__"; "isPrototypeOf";
    "propertyIsEnumerable"; "toString"; "valueOf"; "toLocaleString" ].

Fixpoint position (k : string) (names : list string) : option nat :=
  match names with
  | [] => None
  | n :: r => if String.eqb k n then Some 0 else option_map S (position k r)
  end.

(** What a plain object gives under a name it has no property of. *)
Definition inherited (k : string) : value :=
  if String.eqb k "__proto__" then VObj objectPrototype []
  else match position k objectMembers with
       | Some i =>
           VFun (objectPrototype + 1 + i)
                ("function " ++
                 (if String.eqb k "constructor" then "Object" else k) ++
                 "() { [native code] }")
       | None => VUndefined
       end.

(** [obj[k] = x] on a plain object created by the component, for an [x]
    that is not an object: a property is overwritten or created, but for
    the name [__proto__], which is the accessor of [Object.prototype]; what
    is assigned through it is dropped. *)
Definition assign {A : Type} (k : string) (x : A) (props : list (string * A))
  : list (string * A) :=
  if String.eqb k "__proto__" then props else setProp k x props.

(** What [v[k]] gives when [v] is neither [undefined] nor [null]: a
    property of an object, its own or an inherited one; an element or the
    length of an array or of a string; else [undefined]. *)
Definition read (v : value) (k : string) : value :=
  match v with
  | VStr s =>
      if String.eqb k "length" then VNum (Num.ofNat (String.length s))
      else match indexOf k with
           | Some i => charAt i s
           | None => VUndefined
           end
  | VArr _ xs =>
      if String.eqb k "length" then VNum (Num.ofNat (List.length xs))
      else match indexOf k with
           | Some i => nth i xs VUndefined
           | None => VUndefined
           end
  | VObj _ props => field (inherited k) k props
  | _ => VUndefined
  end.

(** [v[k]] and [v.k]; reading a property of [undefined] or [null] raises
    a [TypeError]. *)
Definition get (v : value) (k : string) : result value :=
  if isNullish v then Throw TypeError else Ok (read v k).

(** The length of an array or of a string is the number of its elements,
    so the tests [v.length > 0] and [!v.length] are decided on the elements;
    any other value is asked for its [length] property. *)
Definition lengthPositive (v : value) : bool :=
  match v with
  | VArr _ xs => match xs with [] => false | _ :: _ => true end
  | VStr s => negb (String.eqb s "")
  | _ => gtZero (read v "length")
  end.

Definition lengthTruthy (v : value) : bool :=
  match v with
  | VArr _ xs => match xs with [] => false | _ :: _ => true end
  | VStr s => negb (String.eqb s "")
  | _ => truthy (read v "length")
  end.

(** [v.length > 0]; the length of [undefined] or [null] raises a
    [TypeError]. *)
Definition hasElements (v : value) : result bool :=
  if isNullish v then Throw TypeError else Ok (lengthPositive v).

(** [v[w]]: the key is converted to a string. *)
Definition getAt (v w : value) : result value := get v (toStr w).

(** [Object.entries(v)], in the order in which [for (const k in v)] visits
    the properties too; [undefined] and [null] raise a [TypeError]. *)
Definition entries (v : value) : result (list (string * value)) :=
  match v with
  | VUndefined | VNull => Throw TypeError
  | VObj _ props =>
      Ok (map (fun k => (k, field VUndefined k props)) (keysOf props))
  | VArr _ xs => Ok (combine (map Str.ofNat (seq 0 (List.length xs))) xs)
  | VStr s =>
      Ok (map (fun i => (Str.ofNat i, charAt i s)) (seq 0 (String.length s)))
  | _ => Ok []
  end.

(** *** Arrays *)

(** The receiver of a call [v.name(...)] of an array method: the elements
    of an array; anything else has no such method, unless it is an object
    that carries a function of its own under that name. *)
Definition arrayFor (name : string) (v : value) : result (list value) :=
  match v with
  | VArr _ xs => Ok xs
  | VObj _ props =>
      match lookup name props with
      | Some (VFun _ _) => Throw OpaqueCall
      | _ => Throw TypeError
      end
  | _ => Throw TypeError
  end.

Fixpoint mapM {A B : Type} (f : A -> result B) (l : list A) : result (list B) :=
  match l with
  | [] => Ok []
  | x :: r => let* y := f x in let* ys := mapM f r in Ok (y :: ys)
  end.

(** [xs.find(f)]: the first element [f] accepts, [undefined] if none. *)
Fixpoint findM (f : value -> result bool) (l : list value) : result value :=
  match l with
  | [] => Ok VUndefined
  | x :: r => let* b := f x in if b then Ok x else findM f r
  end.

Fixpoint filterM (f : value -> result bool) (l : list value)
  : result (list value) :=
  match l with
  | [] => Ok []
  | x :: r =>
      let* b := f x in
      let* ys := filterM f r in
      Ok (if b then x :: ys else ys)
  end.

(** [[...new Set(xs)]]: the first occurrence of every value, in order;
    a [Set] holds [-0] as [+0]. *)
Definition setAdd (seen : list value) (x : value) : list value :=
  let x' := match x with
            | VNum y => if is_zero y then VNum zero else x
            | _ => x
            end in
  if existsb (sameValueZero x') seen then seen else seen ++ [x'].

Definition setOf (xs : list value) : list value := fold_left setAdd xs [].

(** A stable sort by a comparison function, as [Array.prototype.sort]
    with a consistent comparator: [cmp a b] tells whether [a] may stay
    before [b]. *)
Fixpoint insertSorted {A : Type} (leq : A -> A -> bool) (x : A) (l : list A)
  : list A :=
  match l with
  | [] => [x]
  | y :: r => if leq x y then x :: l else y :: insertSorted leq x r
  end.

Definition sortBy {A : Type} (leq : A -> A -> bool) (l : list A) : list A :=
  fold_right (insertSorted leq) [] l.

(** [keys.sort()] on strings: ascending by code units. *)
Definition sortStrings (l : list string) : list string := sortBy String.leb l.

End JS.

Import JS.

(** [s.replace(pat, rep)] with a string pattern: the first occurrence. *)
Fixpoint replaceFirst (pat rep s : string) : string :=
  if String.prefix pat s then
    (rep ++ String.substring (String.length pat)
                             (String.length s - String.length pat) s)%string
  else match s with
       | String c r => String c (replaceFirst pat rep r)
       | EmptyString => EmptyString
       end.

(** The receiver of a call [v.name(...)] of a string method. *)
Definition stringFor (name : string) (v : value) : result string :=
  match v with
  | VStr s => Ok s
  | VObj _ props =>
      match lookup name props with
      | Some (VFun _ _) => Throw OpaqueCall
      | _ => Throw TypeError
      end
  | _ => Throw TypeError
  end.

(** * The report visualization component *)

Module ReportVisualization.

(** What the component reads besides its props: [JSON.parse] ([None]
    where it raises a [SyntaxError]) and the [color_scheme] cookie. *)
Record Env : Type := {
  parseJSON : string -> option value;
  colorScheme : value
}.

(** [this.props.report], as far as [getChartData] reads it. *)
Record Report : Type := {
  visualization_type : value;
  config : value;
  data : value
}.

(** An array in the returned structure is either built by the component
    or taken from the payload as it is. *)
Inductive jsarray : Type :=
| NewArray (xs : list value)
| Existing (v : value).

Inductive paint : Type :=
| OneColor (c : string)
| ColorPerLabel (cs : list string).

Record Dataset : Type := {
  label : value;
  points : jsarray;          (* [data] *)
  backgroundColor : paint;
  borderColor : string;
  borderWidth : nat;
  fill : option bool;
  tension : option Num.number
}.

(** The result of [getChartData]: the payload's own graph data returned
    as it is, or [{ labels, datasets }]. *)
Inductive ChartData : Type :=
| PassThrough (v : value)
| Chart (labels : jsarray) (datasets : list Dataset).

Definition colors : list string :=
  [ "rgba(75, 192, 192, 0.8)"; "rgba(255, 99, 132, 0.8)";
    "rgba(54, 162, 235, 0.8)"; "rgba(255, 206, 86, 0.8)";
    "rgba(153, 102, 255, 0.8)"; "rgba(255, 159, 64, 0.8)";
    "rgba(240, 240, 240, 0.8)"; "rgba(220, 220, 220, 0.8)";
    "rgba(200, 200, 200, 0.8)"; "rgba(180, 180, 180, 0.8)" ].

Definition getColor (index : nat) : string :=
  nth (index mod List.length colors) colors "".

(** The coercion of a field value to a number that [_aggregateValues]
    applies in all its branches. *)
Definition numericValue (value : value) : Num.number :=
  match value with
  | VNum x => x                                         (* typeof value === 'number' *)
  | VArr _ (first :: _) => orZero (parseFloat first)    (* a non-empty array *)
  | _ => orZero (parseFloat value)
  end.

Definition sum (xs : list Num.number) : Num.number :=
  fold_left (fun acc x => (acc + x)%float) xs zero.

Definition isNegZero (x : Num.number) : bool := is_zero x && get_sign x.
Definition isPosZero (x : Num.number) : bool := is_zero x && negb (get_sign x).

(** [Math.min(...xs)] and [Math.max(...xs)]. *)
Fixpoint mathMin (lowest : Num.number) (xs : list Num.number) : Num.number :=
  match xs with
  | [] => lowest
  | x :: r =>
      if is_nan x then Num.NaN
      else mathMin (if (isNegZero x && isPosZero lowest) || (x <? lowest)%float
                    then x else lowest) r
  end.

Fixpoint mathMax (highest : Num.number) (xs : list Num.number) : Num.number :=
  match xs with
  | [] => highest
  | x :: r =>
      if is_nan x then Num.NaN
      else mathMax (if (isPosZero x && isNegZero highest) || (highest <? x)%float
                    then x else highest) r
  end.

Definition _aggregateValues (records : list value) (field aggregationType : value)
  : result Num.number :=
  match records with
  | [] => Ok zero
  | first :: _ =>
      if strictEq aggregationType (VStr "none") then
        let* value := getAt first field in Ok (numericValue value)
      else if strictEq aggregationType (VStr "count") then
        Ok (Num.ofNat (List.length records))
      else
        let* coerced := mapM (fun record => let* value := getAt record field in
                                             Ok (numericValue value)) records in
        let numericValues := filter (fun v => negb (isNaN v)) coerced in
        match numericValues with
        | [] => Ok zero
        | _ =>
            if strictEq aggregationType (VStr "sum") then
              Ok (sum numericValues)
            else if strictEq aggregationType (VStr "average") then
              Ok (sum numericValues / Num.ofNat (List.length numericValues))%float
            else if strictEq aggregationType (VStr "min") then
              Ok (mathMin infinity numericValues)
            else if strictEq aggregationType (VStr "max") then
              Ok (mathMax neg_infinity numericValues)
            else Ok (Num.ofNat (List.length records))
        end
  end.

Definition sampleLabels : list value :=
  [VStr "Sample A"; VStr "Sample B"; VStr "Sample C"; VStr "Sample D"; VStr "Sample E"].

Definition sampleValues : list value :=
  map (fun z => VNum (Num.ofZ z)) [30; 20; 25; 15; 10]%Z.

Definition getSampleData (env : Env) (visualizationType : value) : ChartData :=
  if strictEq visualizationType (VStr "pie") then
    Chart (NewArray sampleLabels)
      [ {| label := VStr "Sample Data";
           points := NewArray sampleValues;
           backgroundColor := ColorPerLabel
             [ "rgba(255, 99, 132, 0.8)"; "rgba(54, 162, 235, 0.8)";
               "rgba(255, 206, 86, 0.8)"; "rgba(75, 192, 192, 0.8)";
               "rgba(153, 102, 255, 0.8)" ];
           borderColor := if strictEq (colorScheme env) (VStr "dark")
                          then "#222" else "#fff";
           borderWidth := 1;
           fill := None;
           tension := None |} ]
  else
    let line := strictEq visualizationType (VStr "line") in
    Chart (NewArray sampleLabels)
      [ {| label := VStr "Sample Dataset";
           points := NewArray sampleValues;
           backgroundColor := OneColor "rgba(75, 192, 192, 0.2)";
           borderColor := "rgba(75, 192, 192, 1)";
           borderWidth := 1;
           fill := if line then Some false else None;
           tension := if line then Some (Num.ofDecimal false 1 (-1)) else None |} ].

(** *** Pieces of [getChartData] *)

(** A fresh [{}] and a fresh [[]]; their addresses are never compared. *)
Definition emptyObject : value := VObj 0 [].
Definition emptyArray : value := VArr 0 [].

(** The first rule of a chain that returns decides; [None] is a block
    of the function that falls through to the code after it. *)
Definition orElse {A : Type} (rule : result (option A)) (rest : result A)
  : result A :=
  let* r := rule in
  match r with
  | Some a => Ok a
  | None => rest
  end.

(** The same inside a block that may itself fall through. *)
Definition thenTry {A : Type} (rule rest : result (option A))
  : result (option A) :=
  let* r := rule in
  match r with
  | Some a => Ok (Some a)
  | None => rest
  end.

Fixpoint foldM {A B : Type} (f : B -> A -> result B) (l : list A) (acc : B)
  : result B :=
  match l with
  | [] => Ok acc
  | x :: r => let* acc' := f acc x in foldM f r acc'
  end.

(** [config]: the report's configuration, parsed when it is a string;
    the empty string is parsed as [{}], and a text that does not parse
    leaves the initial [{}]. *)
Definition readConfig (env : Env) (report : Report) : value :=
  match config report with
  | VStr s =>
      if String.eqb s "" then emptyObject
      else match parseJSON env s with
           | Some v => v
           | None => emptyObject
           end
  | c => or c emptyObject
  end.

(** [reportData]: the report's data, parsed when it is a non-empty
    string; [null] when that fails. *)
Definition readData (env : Env) (report : Report) : value :=
  match data report with
  | VStr s =>
      if String.eqb s "" then VStr s
      else match parseJSON env s with
           | Some v => v
           | None => VNull
           end
  | d => d
  end.

(** [model => model.records && model.records.length > 0]. *)
Definition hasRecords (model : value) : result bool :=
  let* records := get model "records" in
  if truthy records then
    hasElements records
  else Ok false.

(** "Find the records to visualize": for a multi-model payload the
    records of the first model that has some, else the payload's own
    [records]; [[]] when there are none. *)
Definition locateRecords (searchResults : value) : result value :=
  let* multi := get searchResults "multi_model" in
  let* results := if truthy multi then get searchResults "results"
                  else Ok VUndefined in
  if truthy multi && truthy results then
    let* models := arrayFor "find" results in
    let* modelWithRecords := findM hasRecords models in
    if truthy modelWithRecords then
      let* records := get modelWithRecords "records" in
      Ok (if truthy records then records else emptyArray)
    else Ok emptyArray
  else
    let* records := get searchResults "records" in
    Ok (if truthy records then records else emptyArray).

(** [value !== undefined && value !== null ? String(value) : ''] *)
Definition displayLabel (v : value) : string :=
  if isNullish v then "" else toStr v.

(** [r => r[dimensionField] == dimValue && r[seriesField] == seriesValue] *)
Definition matches (dimensionField seriesField dimValue seriesValue r : value)
  : result bool :=
  let* d := getAt r dimensionField in
  if looseEq d dimValue then
    let* s := getAt r seriesField in Ok (looseEq s seriesValue)
  else Ok false.

(** The stacked-bar construction, which the chart-definition rule and
    the legacy rule share but for the way a point is computed from the
    matching records. *)
Definition stackedChart (records : value) (dimensionField seriesField : value)
    (point : list value -> result Num.number) : result ChartData :=
  let* rs := arrayFor "map" records in
  let* dims := mapM (fun r => getAt r dimensionField) rs in
  let dimensionValues := setOf dims in
  let* sers := mapM (fun r => getAt r seriesField) rs in
  let seriesValues := setOf sers in
  let labels := map (fun v => VStr (displayLabel v)) dimensionValues in
  let* datasets :=
    mapM (fun '(seriesValue, index) =>
            let* seriesData :=
              mapM (fun dimValue =>
                      let* matchingRecords :=
                        filterM (matches dimensionField seriesField
                                         dimValue seriesValue) rs in
                      match matchingRecords with
                      | [] => Ok (VNum zero)
                      | _ => let* x := point matchingRecords in Ok (VNum x)
                      end) dimensionValues in
            Ok {| label := if truthy seriesValue then VStr (toStr seriesValue)
                           else VStr ("Series " ++ Str.ofNat (index + 1));
                  points := NewArray seriesData;
                  backgroundColor := OneColor (getColor index);
                  borderColor := replaceFirst "0.8" "1" (getColor index);
                  borderWidth := 1;
                  fill := None;
                  tension := None |})
         (combine seriesValues (seq 0 (List.length seriesValues))) in
  Ok (Chart (NewArray labels) datasets).

(** [visualizationType === 'pie' ? labels.map((_, i) => this.getColor(i,
    labels.length)) : 'rgba(75, 192, 192, 0.2)'] *)
Definition background (visualizationType : value) (n : nat) : paint :=
  if strictEq visualizationType (VStr "pie")
  then ColorPerLabel (map getColor (seq 0 n))
  else OneColor "rgba(75, 192, 192, 0.2)".

(** The one-dataset structure every other rule returns. *)
Definition singleDataset (visualizationType : value) (labels : list value)
    (datasetLabel : value) (values : list value) : ChartData :=
  Chart (NewArray labels)
    [ {| label := datasetLabel;
         points := NewArray values;
         backgroundColor := background visualizationType (List.length labels);
         borderColor := "rgba(75, 192, 192, 1)";
         borderWidth := 1;
         fill := None;
         tension := None |} ].

(** [measureField.replace(/_/g, ' ').replace(/\b\w/g, l => l.toUpperCase())] *)
Definition fieldLabel (measureField : value) : result value :=
  let* s := stringFor "replace" measureField in Ok (VStr (Str.titleCase s)).

(** [visualizationType === 'bar' && config.stacked && seriesField] *)
Definition isStacked (visualizationType config seriesField : value)
  : result bool :=
  if strictEq visualizationType (VStr "bar") then
    let* stacked := get config "stacked" in
    Ok (truthy stacked && truthy seriesField)
  else Ok false.

(** "Group records by dimension value": a plain object keyed by the
    label of the dimension value, each key holding its records in order.
    [if (!groupedRecords[key]) groupedRecords[key] = []] finds an inherited
    member under a key such as [constructor] and creates no list, and
    [groupedRecords[key].push(record)] then raises, as the member has no
    [push]. *)
Definition groupRecords (dimensionField : value) (records : list value)
  : result (list (string * list value)) :=
  foldM (fun groupedRecords record =>
           let* dimensionValue := getAt record dimensionField in
           let key := displayLabel dimensionValue in
           match lookup key groupedRecords with
           | Some group => Ok (setProp key (group ++ [record]) groupedRecords)
           | None =>
               if truthy (inherited key) then Throw TypeError
               else Ok (setProp key [record] groupedRecords)
           end)
        records [].

(** *** Priority 1: the chart definition attached by the report dialog *)

Definition chartDefinitionRule
    (visualizationType config searchResults chartDefinition : value)
  : result (option ChartData) :=
  let* dimensionField := get chartDefinition "dimensionField" in
  let* measureField := get chartDefinition "measureField" in
  let* selected := get chartDefinition "aggregationType" in
  let aggregationType := or selected (VStr "count") in
  let* seriesField := get chartDefinition "seriesField" in
  let* records := locateRecords searchResults in
  let* some := hasElements records in
  if some && truthy dimensionField then
    let* stacked := isStacked visualizationType config seriesField in
    if stacked then
      let* chart :=
        stackedChart records dimensionField seriesField
          (fun matchingRecords =>
             _aggregateValues matchingRecords measureField aggregationType) in
      Ok (Some chart)
    else
      let* rs := arrayFor "forEach" records in
      let* groupedRecords := groupRecords dimensionField rs in
      let labels := keysOf groupedRecords in
      let* values :=
        mapM (fun label =>
                _aggregateValues (field [] label groupedRecords)
                                 measureField aggregationType) labels in
      let* name := fieldLabel measureField in
      Ok (Some (singleDataset visualizationType (map VStr labels) name
                              (map VNum values)))
  else Ok None.

(** *** Priority 2: field selections in the config, for reports saved
    before there was a chart definition *)

(** [typeof value === 'number' ? value : parseFloat(value) || 0], summed
    from 0 over the matching records. *)
Definition legacySum (measureField : value) (matchingRecords : list value)
  : result Num.number :=
  foldM (fun acc record =>
           let* value := getAt record measureField in
           let numValue := match value with
                           | VNum x => x
                           | _ => orZero (parseFloat value)
                           end in
           Ok (acc + numValue)%float)
        matchingRecords zero.

(** [value !== undefined ? String(value) : ''] *)
Definition plainLabel (v : value) : string :=
  match v with VUndefined => "" | _ => toStr v end.

Definition legacyConfigRule
    (visualizationType config searchResults chartDefinition : value)
  : result (option ChartData) :=
  if truthy chartDefinition then Ok None
  else
    let* dimensionField := get config "dimensionField" in
    let* measureField := if truthy dimensionField then get config "measureField"
                         else Ok VUndefined in
    if truthy dimensionField && truthy measureField then
      let* records := locateRecords searchResults in
      let* some := hasElements records in
      if some then
        let* seriesField :=
          if strictEq visualizationType (VStr "bar") then
            let* stacked := get config "stacked" in
            if truthy stacked then get config "seriesField" else Ok VUndefined
          else Ok VUndefined in
        if truthy seriesField then
          let* chart := stackedChart records dimensionField seriesField
                                     (legacySum measureField) in
          Ok (Some chart)
        else
          let* rs := arrayFor "map" records in
          let* labels := mapM (fun record =>
                                 let* value := getAt record dimensionField in
                                 Ok (VStr (plainLabel value))) rs in
          let* values := mapM (fun record =>
                                 let* value := getAt record measureField in
                                 Ok (VNum (numericValue value))) rs in
          let* name := fieldLabel measureField in
          Ok (Some (singleDataset visualizationType labels name values))
      else Ok None
    else Ok None.

(** *** An aggregation result *)

Definition aggregationRule (visualizationType searchResults : value)
  : result (option ChartData) :=
  let* aggregation := get searchResults "aggregation" in
  if strictEq aggregation (VBool true) then
    let* dimensionField := get searchResults "dimension" in
    let* measureField := get searchResults "measure" in
    let* records := get searchResults "records" in
    if truthy dimensionField && truthy measureField && truthy records &&
       lengthPositive records then
      let* rs := arrayFor "map" records in
      let* labels := mapM (fun record =>
                             let* value := getAt record dimensionField in
                             Ok (VStr (plainLabel value))) rs in
      let* values := mapM (fun record =>
                             let* value := getAt record measureField in
                             Ok (or value (VNum zero))) rs in
      let* descriptions := get searchResults "field_descriptions" in
      let* description := if truthy descriptions
                          then getAt descriptions dimensionField
                          else Ok VUndefined in
      let datasetLabel := if truthy description then description
                          else measureField in
      Ok (Some (singleDataset visualizationType labels datasetLabel values))
    else Ok None
  else Ok None.

(** *** Date detection and date buckets *)

(** [!['id', 'has_linked_data'].includes(field) && !field.endsWith('_info')]
    is the negation of this. *)
Definition isTechnical (field : string) : bool :=
  String.eqb field "id" || String.eqb field "has_linked_data" ||
  Str.endsWith "_info" field.

(** The pairs [(field, first_record[field])] that
    [for (const field in first_record)] goes through. *)
Definition forInEntries (v : value) : list (string * value) :=
  match entries v with
  | Ok es => es
  | Throw _ => []
  end.

(** [typeof value === 'object' && value !== null &&
     typeof value.getFullYear === 'function'] *)
Definition hasYearAccessor (value : value) : bool :=
  match value with
  | VObj _ props =>
      match lookup "getFullYear" props with
      | Some (VFun _ _) => true
      | _ => false
      end
  | _ => false
  end.

(** "Check for ISO date format or date objects". *)
Definition looksLikeDate (value : value) : bool :=
  Str.isoDatePrefix (toStr value) || instanceofDate value ||
  hasYearAccessor value.

(** A field name as a condition: [null] and the empty name are falsy. *)
Definition chosen (field : option string) : bool :=
  match field with
  | Some k => negb (String.eqb k "")
  | None => false
  end.

(** The date part of a field value, "just the date part, no time". *)
Definition datePart (dateValue : value) : result value :=
  match dateValue with
  | VDate _ _ _ iso =>
      match iso with
      | Some t => Ok (VStr (Str.before "T" t))
      | None => Throw RangeError
      end
  | VStr s => Ok (VStr (Str.before " " (Str.before "T" s)))
  | VArr _ _ | VObj _ _ =>
      Ok (VStr (Str.before " " (Str.before "T" (toStr dateValue))))
  | _ => Ok dateValue
  end.

(** What a counter object holds under a key: the number of times it
    was counted up from 0, or [NaN].  A count stays below [2^32], the bound
    on the length of the record array, and is kept as a natural number. *)
Inductive tally : Type :=
| Counted (n : nat)
| Uncounted.

Definition tallyValue (t : tally) : value :=
  match t with
  | Counted n => VNum (Num.ofNat n)
  | Uncounted => VNum Num.NaN
  end.

(** [if (v) { if (!counts[v]) counts[v] = 0; counts[v]++ }] on a plain
    object [counts].  Under a key such as [constructor] the test finds the
    inherited member, which is not replaced by 0, and the increment of a
    function stores [NaN]; the next record under that key finds the [NaN]
    and starts from 0. *)
Definition countUp (counts : list (string * tally)) (v : value)
  : list (string * tally) :=
  if truthy v then
    let k := toStr v in
    let counts :=
      match lookup k counts with
      | Some (Counted (S _)) => counts
      | Some _ => assign k (Counted 0) counts
      | None => if truthy (inherited k) then counts
                else assign k (Counted 0) counts
      end in
    match lookup k counts with
    | Some (Counted n) => assign k (Counted (S n)) counts
    | _ => assign k Uncounted counts
    end
  else counts.

(** "Group by date and count occurrences". *)
Definition countByDate (dateField : string) (records : list value)
  : result (list (string * tally)) :=
  foldM (fun dateCounts record =>
           let* dateValue := get record dateField in
           let* part := datePart dateValue in
           Ok (countUp dateCounts part))
        records [].

(** [keys.map(k => counts[k])], for keys the object holds. *)
Definition countsFor (counts : list (string * tally)) (keys : list string)
  : list value :=
  map (fun k => tallyValue (field Uncounted k counts)) keys.

(** [modelName.includes('log')], on a string or on an array. *)
Definition includesLog (modelName : value) : result bool :=
  match modelName with
  | VStr s => Ok (Str.includes "log" s)
  | VArr _ xs => Ok (existsb (sameValueZero (VStr "log")) xs)
  | VObj _ props =>
      match lookup "includes" props with
      | Some (VFun _ _) => Throw OpaqueCall
      | _ => Throw TypeError
      end
  | _ => Throw TypeError
  end.

(** [Array.isArray(m.records) ? m.records.length : 0] *)
Definition recordCount (model : value) : nat :=
  match get model "records" with
  | Ok (VArr _ xs) => List.length xs
  | _ => 0
  end.

(** *** A multi-model result *)

Definition multiModelRule (env : Env) (visualizationType searchResults : value)
  : result (option ChartData) :=
  let* multi := get searchResults "multi_model" in
  let* modelResults := get searchResults "results" in
  if strictEq multi (VBool true) && truthy modelResults then
    match modelResults with
    | VArr _ ((_ :: _) as models) =>
        let* preprocessedModel :=
          findM (fun model => let* a := get model "_dateAggregation" in
                              Ok (truthy a)) models in
        let* aggregation := if truthy preprocessedModel
                            then get preprocessedModel "_dateAggregation"
                            else Ok VUndefined in
        thenTry
          (if truthy aggregation then
             let* dates := get aggregation "dates" in
             let* counts := get aggregation "counts" in
             let* some := hasElements dates in
             if some then
               let* modelLabel := get preprocessedModel "model_label" in
               let* bg := if strictEq visualizationType (VStr "pie") then
                            let* ds := arrayFor "map" dates in
                            Ok (ColorPerLabel (map getColor (seq 0 (List.length ds))))
                          else Ok (OneColor "rgba(75, 192, 192, 0.2)") in
               Ok (Some (Chart (Existing dates)
                           [ {| label := VStr (toStr modelLabel ++ " by Date");
                                points := Existing counts;
                                backgroundColor := bg;
                                borderColor := "rgba(75, 192, 192, 1)";
                                borderWidth := 1;
                                fill := None;
                                tension := None |} ]))
             else Ok None
           else Ok None)
          ((* the names written to the console *)
           let* _ := mapM (fun m => let* l := get m "model_label" in
                                    if truthy l then Ok l else get m "model")
                          models in
           let sortedModels :=
             sortBy (fun a b => (recordCount b <=? recordCount a)%nat) models in
           let primaryModelResult := nth 0 sortedModels VUndefined in
           let* records := if truthy primaryModelResult
                           then get primaryModelResult "records"
                           else Ok VUndefined in
           if negb (truthy primaryModelResult) || negb (truthy records) ||
              negb (lengthTruthy records) then
             Ok (Some (getSampleData env visualizationType))
           else
             let* first_record := get records "0" in
             let dateField :=
               option_map fst
                 (find (fun '(field, value) =>
                          negb (isTechnical field) && looksLikeDate value)
                       (forInEntries first_record)) in
             let* label := get primaryModelResult "model_label" in
             let* model := get primaryModelResult "model" in
             let modelName := or (or label model) (VStr "") in
             thenTry
               (if chosen dateField then
                  let dateField := match dateField with Some k => k | None => "" end in
                  let* rs := arrayFor "forEach" records in
                  let* dateCounts := countByDate dateField rs in
                  let dates := sortStrings (keysOf dateCounts) in
                  match dates with
                  | [] => Ok None
                  | _ =>
                      let* log := includesLog modelName in
                      let datasetLabel :=
                        if log then "User Login Count"
                        else (toStr modelName ++ " Count")%string in
                      Ok (Some (singleDataset visualizationType (map VStr dates)
                                  (VStr datasetLabel) (countsFor dateCounts dates)))
                  end
                else Ok None)
               (if chosen dateField then Ok None
                else
                  let labelField :=
                    option_map fst
                      (find (fun '(field, value) =>
                               negb (isTechnical field) &&
                               String.eqb (typeOf value) "string")
                            (forInEntries first_record)) in
                  if chosen labelField then
                    let labelField := match labelField with Some k => k | None => "" end in
                    let* rs := arrayFor "forEach" records in
                    let* labelCounts :=
                      foldM (fun counts record =>
                               let* labelValue := get record labelField in
                               Ok (countUp counts labelValue)) rs [] in
                    let labels := keysOf labelCounts in
                    match labels with
                    | [] => Ok None
                    | _ =>
                        Ok (Some (singleDataset visualizationType (map VStr labels)
                                    (VStr (toStr modelName ++ " by " ++ labelField))
                                    (countsFor labelCounts labels)))
                    end
                  else Ok None))
    | _ => Ok (Some (getSampleData env visualizationType))
    end
  else Ok None.

(** *** Plain records *)

(** A field that can label the categories: a string, or an object that
    is a date, answers [getFullYear] or prints as an ISO date. *)
Definition labelCapable (value : value) : bool :=
  String.eqb (typeOf value) "string" ||
  (String.eqb (typeOf value) "object" && negb (strictEq value VNull) &&
   (instanceofDate value || hasYearAccessor value ||
    Str.isoDatePrefix (toStr value))).

(** A field that can give the values: a number, something that parses
    as one, or an array whose first element does. *)
Definition valueCapable (value : value) : bool :=
  String.eqb (typeOf value) "number" ||
  negb (isNaN (parseFloat value)) ||
  match value with
  | VArr _ (first :: _) =>
      String.eqb (typeOf first) "number" || negb (isNaN (parseFloat first))
  | _ => false
  end.

(** The loop over the first record: it keeps the first label-capable
    field and the first value-capable field that is not taken as label. *)
Definition pickFields (first_record : value) : option string * option string :=
  fold_left
    (fun '(label_field, value_field) '(field, value) =>
       if isTechnical field then (label_field, value_field)
       else if match label_field with None => labelCapable value | _ => false end
       then (Some field, value_field)
       else if match value_field with None => valueCapable value | _ => false end
       then (label_field, Some field)
       else (label_field, value_field))
    (forInEntries first_record) (None, None).

(** The value of a record in the plain-records rule: no default for a
    value that does not parse. *)
Definition plainValue (val : value) : Num.number :=
  match val with
  | VArr _ (first :: _) => parseFloat first
  | VNum x => x
  | _ => parseFloat val
  end.

Definition plainRecordsRule (visualizationType searchResults : value)
  : result (option ChartData) :=
  let* records := get searchResults "records" in
  if truthy records && lengthPositive records then
    let* first_record := get records "0" in
    let '(label_field, value_field) := pickFields first_record in
    thenTry
      (if chosen label_field && chosen value_field then
         let label_field := match label_field with Some k => k | None => "" end in
         let value_field := match value_field with Some k => k | None => "" end in
         let* rs := arrayFor "map" records in
         let* labels := mapM (fun record =>
                                let* val := get record label_field in
                                Ok (VStr (plainLabel val))) rs in
         let* values := mapM (fun record =>
                                let* val := get record value_field in
                                Ok (VNum (plainValue val))) rs in
         Ok (Some (singleDataset visualizationType labels (VStr value_field) values))
       else Ok None)
      (if negb (chosen value_field) then
         let dateField :=
           option_map fst
             (find (fun '(field, value) => looksLikeDate value)
                   (forInEntries first_record)) in
         if chosen dateField then
           let dateField := match dateField with Some k => k | None => "" end in
           let* rs := arrayFor "forEach" records in
           let* dateCounts := countByDate dateField rs in
           let dates := sortStrings (keysOf dateCounts) in
           match dates with
           | [] => Ok None
           | _ =>
               Ok (Some (singleDataset visualizationType (map VStr dates)
                           (VStr ("Count by " ++ dateField))
                           (countsFor dateCounts dates)))
           end
         else Ok None
       else Ok None)
  else Ok None.

(** *** [getChartData] *)

(** The part of [getChartData] that works on [searchResults]: graph
    data that is already there is returned as it is; otherwise the rules
    are tried in order, and the sample data is the last resort. *)
Definition chartDataFrom (env : Env) (visualizationType config searchResults : value)
  : result ChartData :=
  let* labels := get searchResults "labels" in
  let* datasets := get searchResults "datasets" in
  if truthy labels && truthy datasets then Ok (PassThrough searchResults)
  else
    let* chartDefinition := get searchResults "chartDefinition" in
    orElse (if truthy chartDefinition
            then chartDefinitionRule visualizationType config searchResults
                                     chartDefinition
            else Ok None)
   (orElse (legacyConfigRule visualizationType config searchResults
                             chartDefinition)
   (orElse (aggregationRule visualizationType searchResults)
   (orElse (multiModelRule env visualizationType searchResults)
   (orElse (plainRecordsRule visualizationType searchResults)
           (Ok (getSampleData env visualizationType)))))).

Definition getChartData (env : Env) (report : Report) : result ChartData :=
  let visualizationType := visualization_type report in
  let config := readConfig env report in
  let reportData := readData env report in
  if truthy reportData then
    let* graphData := get reportData "graphData" in
    let* nested := get reportData "data" in
    let searchResults := or (or graphData nested) reportData in
    chartDataFrom env visualizationType config searchResults
  else Ok (getSampleData env visualizationType).

End ReportVisualization.

(** * The report dialog *)

Module ReportDialog.

(** The inferred type of a field: ['string'], ['number'] or ['date']. *)
Inductive FieldType : Type := TString | TNumber | TDate.

Definition typeName (t : FieldType) : string :=
  match t with
  | TString => "string"
  | TNumber => "number"
  | TDate => "date"
  end.

Definition isNumber (t : FieldType) : bool :=
  match t with TNumber => true | _ => false end.
Definition isDate (t : FieldType) : bool :=
  match t with TDate => true | _ => false end.
Definition isString (t : FieldType) : bool :=
  match t with TString => true | _ => false end.

(** An element of [availableFields]. *)
Record Field : Type := {
  name : string;
  type : FieldType;
  label : string
}.

(** "Skip technical fields". *)
Definition isTechnical (field : string) : bool :=
  String.eqb field "id" || String.eqb field "has_linked_data" ||
  Str.endsWith "_info" field.

(** The type [_addFieldsFromRecord] gives to a value. *)
Definition fieldTypeOf (value : value) : FieldType :=
  if String.eqb (typeOf value) "number" then TNumber
  else if instanceofDate value ||
          match value with
          | VStr s => Str.isoDatePrefix s
          | _ => false
          end
  then TDate
  else TString.

Definition _addFieldsFromRecord (record : value) (availableFields : list Field)
  : result (list Field) :=
  let* es := entries record in
  Ok (fold_left
        (fun fields '(field, value) =>
           if isTechnical field then fields
           else fields ++ [ {| name := field;
                               type := fieldTypeOf value;
                               label := Str.titleCase field |} ])
        es availableFields).

(** [model => model.records && model.records.length > 0] *)
Definition hasRecords (model : value) : result bool :=
  let* records := get model "records" in
  if truthy records then
    hasElements records
  else Ok false.

Definition _extractAvailableFields (searchResults : value)
  : result (list Field) :=
  let searchResults := or searchResults (VObj 0 []) in
  let* multi := get searchResults "multi_model" in
  let* results := if truthy multi then get searchResults "results"
                  else Ok VUndefined in
  if truthy multi && truthy results then
    let* models := arrayFor "find" results in
    let* modelWithRecords := findM hasRecords models in
    if truthy modelWithRecords then
      let* records := get modelWithRecords "records" in
      let* firstRecord := get records "0" in
      if truthy firstRecord then _addFieldsFromRecord firstRecord []
      else Ok []
    else Ok []
  else
    let* records := get searchResults "records" in
    if truthy records && lengthPositive records then
      let* firstRecord := get records "0" in
      _addFieldsFromRecord firstRecord []
    else Ok [].

(** *** Default selections; [None] is [null] *)

Definition _getDefaultDimensionField (fields : list Field) : option string :=
  match find (fun f => isDate (type f)) fields with
  | Some dateField => Some (name dateField)
  | None =>
      match find (fun f => isString (type f)) fields with
      | Some stringField => Some (name stringField)
      | None =>
          match fields with
          | first :: _ => Some (name first)
          | [] => None
          end
      end
  end.

(** [f.name !== dimensionField] *)
Definition differs (n : string) (selection : option string) : bool :=
  match selection with
  | Some d => negb (String.eqb n d)
  | None => true
  end.

Definition _getDefaultMeasureField (fields : list Field) : option string :=
  match find (fun f => isNumber (type f)) fields with
  | Some numField => Some (name numField)
  | None =>
      let dimensionField := _getDefaultDimensionField fields in
      match find (fun f => differs (name f) dimensionField) fields with
      | Some alternateField => Some (name alternateField)
      | None =>
          match fields with
          | first :: _ => Some (name first)
          | [] => None
          end
      end
  end.

Definition _getDefaultSeriesField (fields : list Field) : option string :=
  let dimensionField := _getDefaultDimensionField fields in
  let stringFields := filter (fun f => isString (type f)) fields in
  let fallback :=
    let measureField := _getDefaultMeasureField fields in
    match find (fun f => differs (name f) dimensionField &&
                         differs (name f) measureField) fields with
    | Some alternateField => Some (name alternateField)
    | None =>
        match fields with
        | first :: _ => Some (name first)
        | [] => None
        end
    end in
  match stringFields with
  | _ :: _ :: _ =>
      match find (fun f => differs (name f) dimensionField) stringFields with
      | Some alternateField => Some (name alternateField)
      | None => fallback
      end
  | [only] => if differs (name only) dimensionField then Some (name only)
              else fallback
  | [] => fallback
  end.

(** *** Aggregation types *)

Record AggregationType : Type := {
  id : string;
  title : string;            (* [name] *)
  applicableToAll : bool;
  numericOnly : bool
}.

Definition _getAggregationTypes : list AggregationType :=
  [ {| id := "none"; title := "None"; applicableToAll := true; numericOnly := false |};
    {| id := "count"; title := "Count"; applicableToAll := true; numericOnly := false |};
    {| id := "sum"; title := "Sum"; applicableToAll := false; numericOnly := true |};
    {| id := "average"; title := "Average"; applicableToAll := false; numericOnly := true |};
    {| id := "min"; title := "Minimum"; applicableToAll := false; numericOnly := true |};
    {| id := "max"; title := "Maximum"; applicableToAll := false; numericOnly := true |} ].

(** *** State *)

(** [this.state]; a selection is a field name or [null], and [config] is
    the object the handlers replace and patch. *)
Record State : Type := {
  reportName : string;                      (* [name] *)
  visualizationType : string;
  validationError : option string;
  availableFields : list Field;
  dimensionField : option string;
  measureField : option string;
  aggregationType : string;
  seriesField : option string;
  config : list (string * value)
}.

Definition selection (s : option string) : value :=
  match s with
  | Some n => VStr n
  | None => VNull
  end.

(** [this.state.config.k] *)
Definition configGet (st : State) (k : string) : value :=
  field VUndefined k (config st).

(** The state [setup] builds from the inspected fields. *)
Definition initialState (queryText : string) (fields : list Field) : State :=
  {| reportName := String.substring 0 50 queryText;
     visualizationType := "bar";
     validationError := None;
     availableFields := fields;
     dimensionField := _getDefaultDimensionField fields;
     measureField := _getDefaultMeasureField fields;
     aggregationType := "none";
     seriesField := _getDefaultSeriesField fields;
     config := [("stacked", VBool false); ("cumulated", VBool false)] |}.

Definition withConfig (st : State) (c : list (string * value)) : State :=
  {| reportName := reportName st;
     visualizationType := visualizationType st;
     validationError := validationError st;
     availableFields := availableFields st;
     dimensionField := dimensionField st;
     measureField := measureField st;
     aggregationType := aggregationType st;
     seriesField := seriesField st;
     config := c |}.

(** *** Event handlers; the argument is [ev.target.value] *)

Definition onVisualizationTypeChanged (value : string) (st : State) : State :=
  let previousType := visualizationType st in
  let st1 :=
    {| reportName := reportName st;
       visualizationType := value;
       validationError := validationError st;
       availableFields := availableFields st;
       dimensionField := dimensionField st;
       measureField := measureField st;
       aggregationType := aggregationType st;
       seriesField := seriesField st;
       config := config st |} in
  let dimension := selection (dimensionField st1) in
  let measure := selection (measureField st1) in
  let series := selection (seriesField st1) in
  if String.eqb value "bar" then
    withConfig st1
      [ ("stacked", if String.eqb previousType "bar" then configGet st1 "stacked"
                    else VBool false);
        ("dimensionField", dimension);
        ("measureField", measure);
        ("seriesField", series) ]
  else if String.eqb value "line" then
    withConfig st1
      [ ("cumulated", if String.eqb previousType "line" then configGet st1 "cumulated"
                      else VBool false);
        ("dimensionField", dimension);
        ("measureField", measure) ]
  else if String.eqb value "pie" then
    withConfig st1
      [ ("dimensionField", dimension);
        ("measureField", measure) ]
  else st1.

Definition onDimensionFieldChanged (value : string) (st : State) : State :=
  {| reportName := reportName st;
     visualizationType := visualizationType st;
     validationError := validationError st;
     availableFields := availableFields st;
     dimensionField := Some value;
     measureField := measureField st;
     aggregationType := aggregationType st;
     seriesField := seriesField st;
     config := config st |}.

Definition withAggregationType (st : State) (a : string) : State :=
  {| reportName := reportName st;
     visualizationType := visualizationType st;
     validationError := validationError st;
     availableFields := availableFields st;
     dimensionField := dimensionField st;
     measureField := measureField st;
     aggregationType := a;
     seriesField := seriesField st;
     config := config st |}.

Definition onMeasureFieldChanged (value : string) (st : State) : State :=
  let st1 :=
    {| reportName := reportName st;
       visualizationType := visualizationType st;
       validationError := validationError st;
       availableFields := availableFields st;
       dimensionField := dimensionField st;
       measureField := Some value;
       aggregationType := aggregationType st;
       seriesField := seriesField st;
       config := config st |} in
  let fieldObj := find (fun f => String.eqb (name f) value) (availableFields st1) in
  let isNumeric := match fieldObj with
                   | Some f => isNumber (type f)
                   | None => false
                   end in
  let currentAggType := aggregationType st1 in
  let aggregationTypes := _getAggregationTypes in
  let currentAggTypeObj :=
    find (fun t => String.eqb (id t) currentAggType) aggregationTypes in
  match currentAggTypeObj with
  | Some t =>
      if numericOnly t && negb isNumeric then withAggregationType st1 "count"
      else st1
  | None => st1
  end.

Definition onAggregationTypeChanged (value : string) (st : State) : State :=
  withAggregationType st value.

Definition onSeriesFieldChanged (value : string) (st : State) : State :=
  {| reportName := reportName st;
     visualizationType := visualizationType st;
     validationError := validationError st;
     availableFields := availableFields st;
     dimensionField := dimensionField st;
     measureField := measureField st;
     aggregationType := aggregationType st;
     seriesField := Some value;
     config := config st |}.

(** [_getApplicableAggregationTypes] *)
Definition _getApplicableAggregationTypes (st : State) : list AggregationType :=
  let fieldObj :=
    match measureField st with
    | Some m => find (fun f => String.eqb (name f) m) (availableFields st)
    | None => None
    end in
  let isNumeric := match fieldObj with
                   | Some f => isNumber (type f)
                   | None => false
                   end in
  filter (fun t => applicableToAll t || (isNumeric && numericOnly t))
         _getAggregationTypes.

(** *** Confirmation *)

Definition withValidationError (st : State) (e : option string) : State :=
  {| reportName := reportName st;
     visualizationType := visualizationType st;
     validationError := e;
     availableFields := availableFields st;
     dimensionField := dimensionField st;
     measureField := measureField st;
     aggregationType := aggregationType st;
     seriesField := seriesField st;
     config := config st |}.

(** A selection as a condition: [null] and the empty name are falsy. *)
Definition selected (s : option string) : bool := truthy (selection s).

(** [this.state.visualizationType === 'bar' && this.state.config.stacked] *)
Definition stackedBar (st : State) : bool :=
  String.eqb (visualizationType st) "bar" && truthy (configGet st "stacked").

(** [validateInputs]: the state with the error it sets, and its verdict. *)
Definition validateInputs (queryText : string) (st : State) : State * bool :=
  let st := withValidationError st None in
  if String.eqb (reportName st) "" || String.eqb (Str.trim (reportName st)) "" then
    (withValidationError st (Some "Report name is required"), false)
  else if String.eqb queryText "" then
    (withValidationError st (Some "No search query provided"), false)
  else if negb (selected (dimensionField st)) then
    (withValidationError st (Some "Please select a dimension field"), false)
  else if negb (selected (measureField st)) then
    (withValidationError st (Some "Please select a measure field"), false)
  else if stackedBar st && negb (selected (seriesField st)) then
    (withValidationError st
       (Some "Please select a series field for stacked bar chart"), false)
  else (st, true).

(** Data without identity: what [JSON.parse(JSON.stringify(v))] keeps. *)
#[warnings="-register-all"]
Inductive json : Type :=
| JNull
| JBool (b : bool)
| JNum (x : Num.number)
| JStr (s : string)
| JArr (elems : list json)
| JObj (props : list (string * json)).

(** The serializable part of a value; [None] where [JSON.stringify]
    gives [undefined].  A property is kept when its value is serializable,
    an array element that is not becomes [null], a date becomes its ISO
    text and a number that is not finite becomes [null].  A [toJSON]
    function that a payload object carries itself is not followed. *)
Fixpoint jsonCopy (v : value) : option json :=
  match v with
  | VUndefined | VFun _ _ => None
  | VNull => Some JNull
  | VBool b => Some (JBool b)
  | VNum x => Some (if is_finite x then JNum (if is_zero x then zero else x)
                    else JNull)
  | VStr s => Some (JStr s)
  | VDate _ _ _ iso =>
      Some (match iso with Some t => JStr t | None => JNull end)
  | VArr _ xs =>
      Some (JArr (map (fun x => match jsonCopy x with
                                | Some j => j
                                | None => JNull
                                end) xs))
  | VObj _ props =>
      let copied :=
        (fix copy (ps : list (string * value)) : list (string * json) :=
           match ps with
           | [] => []
           | (k, x) :: r =>
               match jsonCopy x with
               | Some j => (k, j) :: copy r
               | None => copy r
               end
           end) props in
      Some (JObj (map (fun k => (k, field JNull k copied)) (keysOf copied)))
  end.

(** The store of the objects the dialog shares with its caller: the
    properties each address currently holds. *)
Definition Store : Type := loc -> list (string * value).

Definition write (l : loc) (k : string) (v : value) (s : Store) : Store :=
  fun l' => if Nat.eqb l' l then setProp k v (s l) else s l'.

(** [this.props]: [searchResults] is a reference to the caller's object,
    or a falsy value; [onConfirm] is optional. *)
Record Props : Type := {
  queryText : string;
  searchResults : option loc;
  hasOnConfirm : bool
}.

(** The bundle handed to [this.props.onConfirm]. *)
Record ReportData : Type := {
  rd_name : string;
  rd_query_text : string;
  rd_visualization_type : string;
  rd_config : json;
  rd_data : json
}.

(** What [onConfirm] leaves behind: the dialog state, the store, the
    bundle sent to the caller if one was sent, and whether the dialog
    was closed. *)
Record Outcome : Type := {
  state : State;
  store : Store;
  sent : option ReportData;
  closed : bool
}.

(** Objects the dialog creates; their identity is never compared. *)
Definition fresh : loc := 0.

(** [availableFields.reduce((acc, field) => { acc[field.name] = field.type;
    return acc }, {})] *)
Definition fieldTypes (fields : list Field) : list (string * value) :=
  fold_left (fun acc field => assign (name field) (VStr (typeName (type field))) acc)
            fields [].

Definition chartDefinitionOf (st : State) : value :=
  VObj fresh
    [ ("dimensionField", selection (dimensionField st));
      ("measureField", selection (measureField st));
      ("aggregationType", VStr (aggregationType st));
      ("seriesField", if stackedBar st then selection (seriesField st) else VNull);
      ("fieldTypes", VObj fresh (fieldTypes (availableFields st))) ].

Definition copyOf (v : value) : json :=
  match jsonCopy v with
  | Some j => j
  | None => JNull
  end.

Definition onConfirm (props : Props) (st : State) (s : Store) : Outcome :=
  let '(st, valid) := validateInputs (queryText props) st in
  if negb valid then
    {| state := st; store := s; sent := None; closed := false |}
  else if negb (hasOnConfirm props) then
    {| state := st; store := s; sent := None; closed := false |}
  else
    let name := Str.trim (reportName st) in
    let query_text := if String.eqb (queryText props) "" then ""
                      else Str.trim (queryText props) in
    let config1 := setProp "measureField" (selection (measureField st))
                     (setProp "dimensionField" (selection (dimensionField st))
                              (config st)) in
    let st1 := withConfig st config1 in
    let st2 := if stackedBar st1
               then withConfig st1 (setProp "seriesField"
                                      (selection (seriesField st1)) (config st1))
               else st1 in
    let chartDefinition := chartDefinitionOf st2 in
    (* rawData.chartDefinition = chartDefinition *)
    let '(rawData, s') :=
      match searchResults props with
      | Some l => let s' := write l "chartDefinition" chartDefinition s in
                  (VObj l (s' l), s')
      | None => (VObj fresh [("chartDefinition", chartDefinition)], s)
      end in
    let reportData :=
      {| rd_name := name;
         rd_query_text := query_text;
         rd_visualization_type := visualizationType st2;
         rd_config := copyOf (VObj fresh (config st2));
         rd_data := copyOf rawData |} in
    if String.eqb name "" || String.eqb query_text "" then
      let errorMsg :=
        (if String.eqb name "" then ["Name is required"] else []) ++
        (if String.eqb query_text "" then ["Query text is required"] else []) in
      {| state := withValidationError st2 (Some (String.concat ". " errorMsg));
         store := s'; sent := None; closed := false |}
    else
      {| state := st2; store := s'; sent := Some reportData; closed := true |}.

End ReportDialog.

(** * Configuring and rendering the chart

    The rest of the visualization component: [formatValue],
    [getChartConfig], [renderChart] and the life-cycle hooks of [setup].
    The charting library is outside the component: the embedding takes
    from it whether the canvas gives a context and whether the chart
    constructor raises, and counts the chart instances that exist. *)

Module Rendering.

Import ReportVisualization.

(** ** Addition *)

(** The primitive value of an operand of [+]: an object is converted
    to its string. *)
Definition toPrimitive (v : value) : value :=
  if isObject v then VStr (toStr v) else v.

(** [a + b]: concatenation as soon as one operand is a string, else
    the sum of the operands as numbers. *)
Definition plus (a b : value) : value :=
  let p := toPrimitive a in
  let q := toPrimitive b in
  match p, q with
  | VStr s, _ => VStr (s ++ toStr q)%string
  | _, VStr t => VStr (toStr p ++ t)%string
  | _, _ => VNum (toNumber p + toNumber q)%float
  end.

(** ** Formatting *)

(** [Math.abs(value) >= 1000] *)
Definition atLeastThousand (value : value) : bool :=
  (Num.ofZ 1000 <=? abs (toNumber value))%float.

(** [formatValue]; [formatFloat] is the formatter of the platform, and
    [value.toString()] raises on [undefined] and [null]. *)
Definition formatValue (formatFloat : value -> string) (value : value)
  : result string :=
  if atLeastThousand value then Ok (formatFloat value)
  else if isNullish value then Throw TypeError
  else Ok (toStr value).

(** The [label] callback of the tooltip, on [context.dataset.label] and
    [context.raw]. *)
Definition tooltipLabel (formatFloat : value -> string) (datasetLabel raw : value)
  : result value :=
  let label := or datasetLabel (VStr "") in
  let label := if truthy label then plus label (VStr ": ") else label in
  let* text := formatValue formatFloat raw in
  Ok (plus label (VStr text)).

(** ** The chart configuration *)

Record Axis : Type := {
  beginAtZero : option bool;
  ticksColor : string;             (* [ticks.color] *)
  axisTitle : option string;       (* [title: { display: true, text }] *)
  gridColor : option string;       (* [grid.color] *)
  gridDisplay : option bool;       (* [grid.display] *)
  stacked : option bool
}.

Record ChartConfig : Type := {
  type : value;
  data : ChartData;
  responsive : bool;
  maintainAspectRatio : bool;
  legendPosition : string;         (* [options.plugins.legend.position] *)
  legendColor : string;            (* [options.plugins.legend.labels.color] *)
  titleDisplay : bool;             (* [options.plugins.legend.title.display] *)
  titleText : value;               (* [options.plugins.legend.title.text] *)
  animationDuration : nat;
  scales : option (Axis * Axis);   (* [options.scales]: [y] and [x] *)
  radius : option string
}.

(** [cookie.get("color_scheme") === "dark"] *)
Definition dark (env : Env) : bool := strictEq (colorScheme env) (VStr "dark").

Definition valueAxis (env : Env) (stacked : option bool) : Axis :=
  {| beginAtZero := Some true;
     ticksColor := if dark env then "#ccc" else "#666";
     axisTitle := Some "Value";
     gridColor := Some (if dark env then "rgba(255,255,255,0.1)"
                        else "rgba(0,0,0,0.1)");
     gridDisplay := None;
     stacked := stacked |}.

Definition categoryAxis (env : Env) (gridDisplay stacked : option bool) : Axis :=
  {| beginAtZero := None;
     ticksColor := if dark env then "#ccc" else "#666";
     axisTitle := None;
     gridColor := None;
     gridDisplay := gridDisplay;
     stacked := stacked |}.

(** [let sum = 0; data.map(value => { sum += value; return sum })] *)
Fixpoint cumulate (sum : value) (data : list value) : list value :=
  match data with
  | [] => []
  | value :: rest =>
      let sum := plus sum value in
      sum :: cumulate sum rest
  end.

(** [dataset.data = dataset.data.map(...)] on a dataset the builder
    made. *)
Definition cumulateDataset (dataset : Dataset) : result Dataset :=
  let* xs := match points dataset with
             | NewArray xs => Ok xs
             | Existing v => arrayFor "map" v
             end in
  Ok {| label := label dataset;
        points := NewArray (cumulate (VNum zero) xs);
        backgroundColor := backgroundColor dataset;
        borderColor := borderColor dataset;
        borderWidth := borderWidth dataset;
        fill := fill dataset;
        tension := tension dataset |}.

(** The same on a dataset of graph data that was passed through: the
    payload's own object gets the new list. *)
Definition cumulateOwn (dataset : value) : result value :=
  let* data := get dataset "data" in
  let* xs := arrayFor "map" data in
  Ok (match dataset with
      | VObj l props =>
          VObj l (setProp "data" (VArr 0 (cumulate (VNum zero) xs)) props)
      | _ => dataset
      end).

(** What [for (const dataset of datasets)] goes through. *)
Definition iterate (datasets : value) : result (list value) :=
  match datasets with
  | VArr _ xs => Ok xs
  | VStr s => Ok (map (fun i => charAt i s) (seq 0 (String.length s)))
  | _ => Throw TypeError
  end.

(** "Handle cumulative option".  The datasets of passed-through graph
    data are the payload's own objects: the change is made in them, and
    the graph returned is the payload's graph after the change. *)
Definition cumulateData (data : ChartData) : result ChartData :=
  match data with
  | Chart labels datasets =>
      let* datasets := mapM cumulateDataset datasets in
      Ok (Chart labels datasets)
  | PassThrough graph =>
      let* datasets := get graph "datasets" in
      let* own := iterate datasets in
      let* changed := mapM cumulateOwn own in
      Ok (PassThrough
            match graph, datasets with
            | VObj l props, VArr ld _ =>
                VObj l (setProp "datasets" (VArr ld changed) props)
            | _, _ => graph
            end)
  end.

(** [getChartConfig]; [name] is [this.props.report.name]. *)
Definition getChartConfig (env : Env) (report : Report) (name : value)
  : result ChartConfig :=
  let visualizationType := visualization_type report in
  let config := readConfig env report in
  let* data := getChartData env report in
  let chartConfig (data : ChartData) (scales : option (Axis * Axis))
                  (radius : option string) : ChartConfig :=
    {| type := visualizationType;
       data := data;
       responsive := true;
       maintainAspectRatio := false;
       legendPosition := "top";
       legendColor := if dark env then "#eee" else "#222";
       titleDisplay := true;
       titleText := or name (VStr "Chart");
       animationDuration := 1000;
       scales := scales;
       radius := radius |} in
  if strictEq visualizationType (VStr "bar") then
    let* stacked := get config "stacked" in
    let flag := if truthy stacked then Some true else None in
    Ok (chartConfig data
          (Some (valueAxis env flag, categoryAxis env (Some false) flag)) None)
  else if strictEq visualizationType (VStr "line") then
    let scales := Some (valueAxis env None, categoryAxis env None None) in
    let* cumulated := get config "cumulated" in
    if truthy cumulated then
      let* data := cumulateData data in
      Ok (chartConfig data scales None)
    else Ok (chartConfig data scales None)
  else if strictEq visualizationType (VStr "pie") then
    Ok (chartConfig data None (Some "90%"))
  else Ok (chartConfig data None None).

(** ** Rendering *)

(** The component between two events: [state.loading], [state.error]
    ([None] is [null]), the chart it holds (told by the configuration it
    was made with), whether the module's [Chart] is defined, and the
    number of chart instances of this component that exist in the
    library. *)
Record Component : Type := {
  loading : bool;
  error : option string;
  chart : option ChartConfig;
  library : bool;
  instances : nat
}.

(** What a rendering finds: the report and its name in the props,
    whether the canvas is there, and what the library does: the text of
    the error [getContext] or the constructor raises, if any. *)
Record Frame : Type := {
  report : Report;
  name : value;
  canvas : bool;
  context : option string;
  construct : ChartConfig -> option string
}.

(** The component as [setup] leaves it. *)
Definition initial (library : bool) : Component :=
  {| loading := true; error := None; chart := None; library := library;
     instances := 0 |}.

Definition withError (c : Component) (message : string) : Component :=
  {| loading := loading c; error := Some message; chart := chart c;
     library := library c; instances := instances c |}.

(** [if (this.chart) { this.chart.destroy(); this.chart = null; }] *)
Definition destroy (c : Component) : Component :=
  match chart c with
  | Some _ =>
      {| loading := loading c; error := error c; chart := None;
         library := library c; instances := pred (instances c) |}
  | None => c
  end.

(** [state.error] as a condition. *)
Definition failed (c : Component) : bool :=
  match error c with
  | Some message => negb (String.eqb message "")
  | None => false
  end.

(** [renderChart]; [describe] gives [error.message || error.toString()]
    for an exception raised in the component's own code. *)
Definition renderChart (env : Env) (describe : exn -> string) (f : Frame)
    (c : Component) : Component :=
  if loading c || failed c then c
  else
    let c := destroy c in
    if negb (canvas f) then withError c "Canvas element not available"
    else
      match context f with
      | Some message => withError c ("Error rendering chart: " ++ message)%string
      | None =>
          match getChartConfig env (report f) (name f) with
          | Throw e => withError c ("Error rendering chart: " ++ describe e)%string
          | Ok config =>
              if negb (library c) then
                withError c "Chart.js library not available"
              else
                match construct f config with
                | Some message =>
                    withError c ("Error rendering chart: " ++ message)%string
                | None =>
                    {| loading := loading c; error := error c;
                       chart := Some config; library := library c;
                       instances := S (instances c) |}
                end
          end
      end.

(** How the loading of the library in [onWillStart] ends: it raised,
    or it went through and [window.Chart] was found or not. *)
Inductive Loading : Type :=
| LoadFailed
| Loaded (found : bool).

Definition onWillStart (outcome : Loading) (c : Component) : Component :=
  match outcome with
  | LoadFailed =>
      {| loading := false; error := Some "Failed to load chart library";
         chart := chart c; library := library c; instances := instances c |}
  | Loaded found =>
      {| loading := false; error := error c; chart := chart c;
         library := library c || found; instances := instances c |}
  end.

(** The hooks [setup] registers. *)
Inductive Hook : Type :=
| WillStart (outcome : Loading)
| Mounted (f : Frame)
| Patched (f : Frame)
| WillUnmount.

Definition run (env : Env) (describe : exn -> string) (h : Hook) (c : Component)
  : Component :=
  match h with
  | WillStart outcome => onWillStart outcome c
  | Mounted f | Patched f => renderChart env describe f c
  | WillUnmount => destroy c
  end.

End Rendering.

(** * The search page

    The page keeps its state in one object and talks to the server
    through [fetch]; every request is a JSON-RPC call whose [id] is random
    and plays no role.  A method of the page is embedded as a function from
    the state to the new state and the effects it has (requests,
    notifications, the dialog it opens); the callbacks a request is given
    ([then], [catch], [finally]) are embedded as one function of the way
    the request ends, to be applied when it does. *)

Module SearchPage.

Import ReportDialog.

(** The value [JSON.parse] makes of a JSON text; the objects are new. *)
Fixpoint ofJson (j : json) : value :=
  match j with
  | JNull => VNull
  | JBool b => VBool b
  | JNum x => VNum x
  | JStr s => VStr s
  | JArr elems => VArr 0 (map ofJson elems)
  | JObj props =>
      VObj 0 ((fix members (ps : list (string * json)) : list (string * value) :=
                 match ps with
                 | [] => []
                 | (k, x) :: r => (k, ofJson x) :: members r
                 end) props)
  end.

(** [this.state] *)
Record State : Type := {
  query : value;
  loading : bool;
  results : value;
  error : value;
  activeTab : string;
  favorites : value;
  favoritesLoading : bool;
  savingFavorite : bool;
  currentSearchSaved : bool;
  reports : value;
  reportsLoading : bool;
  creatingReport : bool;
  selectedReport : value
}.

(** What a method does besides changing the state: a request to a
    route with the [params] of its body, a notification, or the opening of
    the report dialog on the query and on the page's own result object. *)
Inductive Effect : Type :=
| Fetch (route : string) (params : json)
| Notify (message : value) (type title : string) (sticky : bool)
| OpenDialog (queryText searchResults : value).

(** How a request ends: with the parsed body of the response, or with
    the rejection of [fetch] or of [response.json()], of which [text] is
    what [toString()] gives. *)
Inductive Outcome : Type :=
| Answered (data : value)
| Failed (text : string).

Definition setQuery (q : value) (st : State) : State :=
  {| query := q; loading := loading st; results := results st;
     error := error st; activeTab := activeTab st; favorites := favorites st;
     favoritesLoading := favoritesLoading st;
     savingFavorite := savingFavorite st;
     currentSearchSaved := currentSearchSaved st; reports := reports st;
     reportsLoading := reportsLoading st; creatingReport := creatingReport st;
     selectedReport := selectedReport st |}.

Definition setLoading (b : bool) (st : State) : State :=
  {| query := query st; loading := b; results := results st;
     error := error st; activeTab := activeTab st; favorites := favorites st;
     favoritesLoading := favoritesLoading st;
     savingFavorite := savingFavorite st;
     currentSearchSaved := currentSearchSaved st; reports := reports st;
     reportsLoading := reportsLoading st; creatingReport := creatingReport st;
     selectedReport := selectedReport st |}.

Definition setResults (v : value) (st : State) : State :=
  {| query := query st; loading := loading st; results := v;
     error := error st; activeTab := activeTab st; favorites := favorites st;
     favoritesLoading := favoritesLoading st;
     savingFavorite := savingFavorite st;
     currentSearchSaved := currentSearchSaved st; reports := reports st;
     reportsLoading := reportsLoading st; creatingReport := creatingReport st;
     selectedReport := selectedReport st |}.

Definition setError (v : value) (st : State) : State :=
  {| query := query st; loading := loading st; results := results st;
     error := v; activeTab := activeTab st; favorites := favorites st;
     favoritesLoading := favoritesLoading st;
     savingFavorite := savingFavorite st;
     currentSearchSaved := currentSearchSaved st; reports := reports st;
     reportsLoading := reportsLoading st; creatingReport := creatingReport st;
     selectedReport := selectedReport st |}.

Definition setActive (tab : string) (st : State) : State :=
  {| query := query st; loading := loading st; results := results st;
     error := error st; activeTab := tab; favorites := favorites st;
     favoritesLoading := favoritesLoading st;
     savingFavorite := savingFavorite st;
     currentSearchSaved := currentSearchSaved st; reports := reports st;
     reportsLoading := reportsLoading st; creatingReport := creatingReport st;
     selectedReport := selectedReport st |}.

Definition setFavorites (v : value) (st : State) : State :=
  {| query := query st; loading := loading st; results := results st;
     error := error st; activeTab := activeTab st; favorites := v;
     favoritesLoading := favoritesLoading st;
     savingFavorite := savingFavorite st;
     currentSearchSaved := currentSearchSaved st; reports := reports st;
     reportsLoading := reportsLoading st; creatingReport := creatingReport st;
     selectedReport := selectedReport st |}.

Definition setFavoritesLoading (b : bool) (st : State) : State :=
  {| query := query st; loading := loading st; results := results st;
     error := error st; activeTab := activeTab st; favorites := favorites st;
     favoritesLoading := b;
     savingFavorite := savingFavorite st;
     currentSearchSaved := currentSearchSaved st; reports := reports st;
     reportsLoading := reportsLoading st; creatingReport := creatingReport st;
     selectedReport := selectedReport st |}.

Definition setSavingFavorite (b : bool) (st : State) : State :=
  {| query := query st; loading := loading st; results := results st;
     error := error st; activeTab := activeTab st; favorites := favorites st;
     favoritesLoading := favoritesLoading st;
     savingFavorite := b;
     currentSearchSaved := currentSearchSaved st; reports := reports st;
     reportsLoading := reportsLoading st; creatingReport := creatingReport st;
     selectedReport := selectedReport st |}.

Definition setCurrentSearchSaved (b : bool) (st : State) : State :=
  {| query := query st; loading := loading st; results := results st;
     error := error st; activeTab := activeTab st; favorites := favorites st;
     favoritesLoading := favoritesLoading st;
     savingFavorite := savingFavorite st;
     currentSearchSaved := b; reports := reports st;
     reportsLoading := reportsLoading st; creatingReport := creatingReport st;
     selectedReport := selectedReport st |}.

Definition setReports (v : value) (st : State) : State :=
  {| query := query st; loading := loading st; results := results st;
     error := error st; activeTab := activeTab st; favorites := favorites st;
     favoritesLoading := favoritesLoading st;
     savingFavorite := savingFavorite st;
     currentSearchSaved := currentSearchSaved st; reports := v;
     reportsLoading := reportsLoading st; creatingReport := creatingReport st;
     selectedReport := selectedReport st |}.

Definition setReportsLoading (b : bool) (st : State) : State :=
  {| query := query st; loading := loading st; results := results st;
     error := error st; activeTab := activeTab st; favorites := favorites st;
     favoritesLoading := favoritesLoading st;
     savingFavorite := savingFavorite st;
     currentSearchSaved := currentSearchSaved st; reports := reports st;
     reportsLoading := b; creatingReport := creatingReport st;
     selectedReport := selectedReport st |}.

Definition setCreatingReport (b : bool) (st : State) : State :=
  {| query := query st; loading := loading st; results := results st;
     error := error st; activeTab := activeTab st; favorites := favorites st;
     favoritesLoading := favoritesLoading st;
     savingFavorite := savingFavorite st;
     currentSearchSaved := currentSearchSaved st; reports := reports st;
     reportsLoading := reportsLoading st; creatingReport := b;
     selectedReport := selectedReport st |}.

Definition setSelectedReport (v : value) (st : State) : State :=
  {| query := query st; loading := loading st; results := results st;
     error := error st; activeTab := activeTab st; favorites := favorites st;
     favoritesLoading := favoritesLoading st;
     savingFavorite := savingFavorite st;
     currentSearchSaved := currentSearchSaved st; reports := reports st;
     reportsLoading := reportsLoading st; creatingReport := creatingReport st;
     selectedReport := v |}.

(** The state [setup] starts from, before it loads the favorites. *)
Definition initialState : State :=
  {| query := VStr ""; loading := false; results := VNull; error := VNull;
     activeTab := "search"; favorites := VArr 0 []; favoritesLoading := false;
     savingFavorite := false; currentSearchSaved := false;
     reports := VArr 0 []; reportsLoading := false; creatingReport := false;
     selectedReport := VNull |}.

(** The [params] of a request body, from the object literal of the
    call. *)
Definition paramsOf (members : list (string * value)) : json :=
  copyOf (VObj 0 members).

(** ** Favorites *)

Definition loadFavorites (st : State) : State * list Effect :=
  (setFavoritesLoading true st,
   [Fetch "/ai_universal_search/get_favorites" (paramsOf [])]).

(** [data.result && data.result.status === 'success' && data.result.result],
    the list a response carries; [None] when the response reports an
    error. *)
Definition listOf (data : value) : result (option value) :=
  let* err := get data "error" in
  if truthy err then Ok None
  else
    let* result := get data "result" in
    if truthy result then
      let* status := get result "status" in
      if strictEq status (VStr "success") then
        let* inner := get result "result" in
        Ok (Some (if truthy inner then inner else VArr 0 []))
      else Ok (Some (VArr 0 []))
    else Ok (Some (VArr 0 [])).

Definition onFavoritesLoaded (o : Outcome) (st : State) : State :=
  let st :=
    match o with
    | Answered data =>
        match listOf data with
        | Ok (Some list) => setFavorites list st
        | Ok None => st
        | Throw _ => setFavorites (VArr 0 []) st
        end
    | Failed _ => setFavorites (VArr 0 []) st
    end in
  setFavoritesLoading false st.

Definition saveCurrentSearch (st : State) : State * list Effect :=
  if negb (truthy (query st)) || savingFavorite st then (st, [])
  else
    (setSavingFavorite true st,
     [Fetch "/ai_universal_search/save_favorite"
            (paramsOf [("query_text", query st)])]).

Definition onFavoriteSaved (o : Outcome) (st : State) : State * list Effect :=
  let '(st, effects) :=
    match o with
    | Answered data =>
        match get data "error" with
        | Ok err =>
            if truthy err then (st, [])
            else loadFavorites (setCurrentSearchSaved true st)
        | Throw _ => (st, [])
        end
    | Failed _ => (st, [])
    end in
  (setSavingFavorite false st, effects).

Definition deleteFavorite (favoriteId : value) (st : State) : State * list Effect :=
  (st, [Fetch "/ai_universal_search/delete_favorite"
              (paramsOf [("favorite_id", favoriteId)])]).

Definition onFavoriteDeleted (o : Outcome) (st : State) : State * list Effect :=
  match o with
  | Answered data =>
      match get data "error" with
      | Ok err => if truthy err then (st, []) else loadFavorites st
      | Throw _ => (st, [])
      end
  | Failed _ => (st, [])
  end.

(** [setup] loads the favorites right away. *)
Definition setup : State * list Effect := loadFavorites initialState.

(** ** Reports *)

Definition loadReports (st : State) : State * list Effect :=
  (setReportsLoading true st,
   [Fetch "/ai_universal_search/get_reports" (paramsOf [])]).

Definition onReportsLoaded (o : Outcome) (st : State) : State :=
  let st :=
    match o with
    | Answered data =>
        match listOf data with
        | Ok (Some list) => setReports list st
        | Ok None => st
        | Throw _ => setReports (VArr 0 []) st
        end
    | Failed _ => setReports (VArr 0 []) st
    end in
  setReportsLoading false st.

(** ** Tabs *)

Definition setActiveTab (tab : string) (st : State) : State * list Effect :=
  let st := setActive tab st in
  let '(st, saved) := if String.eqb tab "saved" then loadFavorites st
                      else (st, []) in
  let '(st, listed) := if String.eqb tab "reports" then loadReports st
                       else (st, []) in
  let st := if negb (String.eqb tab "reports") then setSelectedReport VNull st
            else st in
  (st, saved ++ listed).

Definition isSearchTabActive (st : State) : bool := String.eqb (activeTab st) "search".
Definition isReportsTabActive (st : State) : bool := String.eqb (activeTab st) "reports".
Definition isSavedTabActive (st : State) : bool := String.eqb (activeTab st) "saved".

(** ** Searching *)

Definition _displayError (error : value) (st : State) : State :=
  setError (if String.eqb (typeOf error) "string" then error
            else VStr "An error occurred while processing your search.")
           st.

Definition onSearch (st : State) : result (State * list Effect) :=
  let* text := stringFor "trim" (query st) in
  let query := Str.trim text in
  if String.eqb query "" || loading st then Ok (st, [])
  else
    Ok (setCurrentSearchSaved false
          (setError VNull (setResults VNull (setLoading true st))),
        [Fetch "/ai_universal_search/search"
               (paramsOf [("query_text", VStr query)])]).

Definition onKeyup (key : value) (st : State) : result (State * list Effect) :=
  if strictEq key (VStr "Enter") then onSearch st else Ok (st, []).

(** The [then] callback of the search, on the parsed response. *)
Definition searchAnswer (data : value) (st : State) : result State :=
  let* err := get data "error" in
  if truthy err then
    let* detail := get err "data" in
    let* detailed := if isNullish detail then Ok VUndefined
                     else get detail "message" in
    let* message := if truthy detailed then Ok detailed
                    else get err "message" in
    Ok (_displayError (or message (VStr "Error processing search")) st)
  else
    let* result := get data "result" in
    if negb (truthy result) then
      Ok (_displayError (VStr "No valid response received from the server") st)
    else
      let* status := get result "status" in
      let* inner := if strictEq status (VStr "success") then get result "result"
                    else Ok VUndefined in
      let resultData := if strictEq status (VStr "success") && truthy inner
                        then inner else result in
      Ok (setResults resultData st).

(** The end of a search; [describe] gives [toString()] of an exception
    that the [then] callback raises. *)
Definition onSearchSettled (describe : exn -> string) (o : Outcome) (st : State)
  : State :=
  let st :=
    match o with
    | Answered data =>
        match searchAnswer data st with
        | Ok st' => st'
        | Throw e => _displayError (VStr (describe e)) st
        end
    | Failed text => _displayError (VStr text) st
    end in
  setLoading false st.

Definition executeFavorite (queryText : value) (st : State)
  : result (State * list Effect) :=
  let st := setQuery queryText st in
  let* r := onSearch st in
  let '(st, searched) := r in
  let '(st, switched) := setActiveTab "search" st in
  Ok (st, searched ++ switched).

(** ** Creating, deleting and selecting reports *)

Definition createReport (st : State) : list Effect :=
  if negb (truthy (results st)) then []
  else [OpenDialog (query st) (results st)].

(** [JSON.parse(JSON.stringify(v || {}))] *)
Definition clone (v : value) : value := ofJson (copyOf (or v (VObj 0 []))).

(** [saveReport] is the callback the dialog is given: its argument is
    the bundle [ReportDialog.onConfirm] builds. *)
Definition saveReport (reportData : ReportData) (st : State) : State * list Effect :=
  let st := setCreatingReport true st in
  if String.eqb (rd_name reportData) "" ||
     String.eqb (rd_query_text reportData) "" then
    (setCreatingReport false st,
     [Notify (VStr "Missing required fields in report data") "danger"
             "Error Creating Report" true])
  else
    let dataToSend :=
      [ ("name", VStr (rd_name reportData));
        ("query_text", VStr (rd_query_text reportData));
        ("visualization_type",
         VStr (if String.eqb (rd_visualization_type reportData) "" then "bar"
               else rd_visualization_type reportData));
        ("config", clone (ofJson (rd_config reportData)));
        ("data", clone (ofJson (rd_data reportData))) ] in
    (st, [Fetch "/ai_universal_search/create_report" (paramsOf dataToSend)]).

Definition onReportSaved (o : Outcome) (st : State) : State * list Effect :=
  let '(st, effects) :=
    match o with
    | Answered data =>
        let answer :=
          let* err := get data "error" in
          if truthy err then Ok (st, [])
          else
            let* result := get data "result" in
            let* status := if truthy result then get result "status"
                           else Ok VUndefined in
            if truthy result && strictEq status (VStr "error") then
              let* message := get result "error" in
              Ok (st, [Notify message "danger" "Error Creating Report" true])
            else
              let '(st', listed) := if isReportsTabActive st then loadReports st
                                    else setActiveTab "reports" st in
              Ok (st', listed ++ [Notify (VStr "Report created successfully")
                                         "success" "Success" false]) in
        match answer with
        | Ok r => r
        | Throw _ => (st, [])
        end
    | Failed _ => (st, [])
    end in
  (setCreatingReport false st, effects).

(** [deleteReport]; the click event, whose propagation it stops, is
    left out. *)
Definition deleteReport (reportId : value) (st : State) : State * list Effect :=
  (st, [Fetch "/ai_universal_search/delete_report"
              (paramsOf [("report_id", reportId)])]).

Definition onReportDeleted (reportId : value) (o : Outcome) (st : State)
  : State * list Effect :=
  match o with
  | Answered data =>
      match get data "error" with
      | Ok err =>
          if truthy err then (st, [])
          else
            let '(st, listed) := loadReports st in
            let selected := selectedReport st in
            (if truthy selected && strictEq (read selected "id") reportId
             then setSelectedReport VNull st else st,
             listed)
      | Throw _ => (st, [])
      end
  | Failed _ => (st, [])
  end.

Definition selectReport (report : value) (st : State) : State :=
  setSelectedReport report st.

(** ** The error report *)

Definition hexDigit (n : nat) : ascii :=
  nth n [ "0"; "1"; "2"; "3"; "4"; "5"; "6"; "7"; "8"; "9";
          "A"; "B"; "C"; "D"; "E"; "F" ]%char "0"%char.

(** [%XX] for a byte. *)
Definition escapeByte (n : nat) : string :=
  String "%" (String (hexDigit (n / 16)) (String (hexDigit (n mod 16)) "")).

(** The characters [encodeURIComponent] leaves as they are. *)
Definition unreserved (c : ascii) : bool :=
  Str.isDigit c || Str.isLower c || Str.isUpper c ||
  existsb (Ascii.eqb c) [ "-"; "_"; "."; "!"; "~"; "*"; "'"; "("; ")" ]%char.

(** [encodeURIComponent]: every other character is replaced by the
    escapes of the bytes of its UTF-8 encoding, one byte below 128 and two
    bytes from there on. *)
Fixpoint encodeURIComponent (s : string) : string :=
  match s with
  | EmptyString => EmptyString
  | String c r =>
      let n := Str.code c in
      ((if unreserved c then String c ""
        else if (n <? 128)%nat then escapeByte n
        else escapeByte (192 + n / 64) ++ escapeByte (128 + n mod 64)) ++
       encodeURIComponent r)%string
  end.

Definition newline : string := String (ascii_of_nat 10) "".

(** [generateMailtoLink]; [timestamp] is [new Date().toISOString()]. *)
Definition generateMailtoLink (timestamp : string) (st : State) : string :=
  if negb (truthy (error st)) then ""
  else
    let subject := encodeURIComponent "AI Universal Search Error Report" in
    let body :=
      ("Error Details:" ++ newline ++
       toStr (error st) ++ newline ++ newline ++
       "Query:" ++ newline ++
       toStr (or (query st) (VStr "No query")) ++ newline ++ newline ++
       "Timestamp:" ++ newline ++
       timestamp)%string in
    ("mailto:tuki@hdsoft.fi?subject=" ++ subject ++ "&body=" ++
     encodeURIComponent body)%string.

End SearchPage.

(** * Notions the properties are stated with *)

Module Spec.

Import ReportDialog.

(** [x] is the first element of [l] that satisfies [P]. *)
Definition FirstWith {A : Type} (P : A -> Prop) (l : list A) (x : A) : Prop :=
  exists pre post, l = pre ++ x :: post /\ P x /\ Forall (fun y => ~ P y) pre.

(** The default measure of a descriptor list: the first numeric field;
    without one, the first field named differently from the default
    dimension; without one, the first field; none for the empty list. *)
Inductive MeasureDefault (fields : list Field) : option string -> Prop :=
| MeasureNumeric (f : Field) :
    FirstWith (fun g => type g = TNumber) fields f ->
    MeasureDefault fields (Some (name f))
| MeasureAlternate (f : Field) :
    Forall (fun g => type g <> TNumber) fields ->
    FirstWith (fun g => Some (name g) <> _getDefaultDimensionField fields) fields f ->
    MeasureDefault fields (Some (name f))
| MeasureSameAsDimension (first : Field) (rest : list Field) :
    fields = first :: rest ->
    Forall (fun g => type g <> TNumber) fields ->
    Forall (fun g => Some (name g) = _getDefaultDimensionField fields) fields ->
    MeasureDefault fields (Some (name first))
| MeasureNone :
    fields = [] ->
    MeasureDefault fields None.

(** The aggregations offered for numeric measures only. *)
Definition numericOnlyAggregation (a : string) : bool :=
  existsb (String.eqb a) ["sum"; "average"; "min"; "max"].

(** Whether the field named [n] was inferred to be a number. *)
Definition inferredNumber (fields : list Field) (n : string) : bool :=
  match find (fun f => String.eqb (name f) n) fields with
  | Some f => isNumber (type f)
  | None => false
  end.

(** The visualization types of the dialog. *)
Definition knownType (t : string) : Prop := In t ["bar"; "line"; "pie"].

(** What a change of the visualization type leaves alone. *)
Definition sameSelections (st st' : State) : Prop :=
  dimensionField st' = dimensionField st /\
  measureField st' = measureField st /\
  seriesField st' = seriesField st.

(** The rest of the state besides the type and its [config]. *)
Definition sameInputs (st st' : State) : Prop :=
  reportName st' = reportName st /\
  availableFields st' = availableFields st /\
  aggregationType st' = aggregationType st /\
  validationError st' = validationError st.

(** Both type-specific flags are off (or absent). *)
Definition flagsReset (st : State) : Prop :=
  truthy (configGet st "stacked") = false /\
  truthy (configGet st "cumulated") = false.

Definition changeTypes (types : list string) (st : State) : State :=
  fold_left (fun s t => onVisualizationTypeChanged t s) types st.

(** The member [k] of a JSON object. *)
Definition jsonField (k : string) (j : json) : option json :=
  match j with
  | JObj props => lookup k props
  | _ => None
  end.

(** The caller's object at [l] after a confirmation: it holds the chart
    definition assembled from the dialog state, and nothing else in the
    store has changed. *)
Definition ChartDefinitionAttached (st : State) (before after : Store) (l : loc)
  : Prop :=
  (exists cd,
      lookup "chartDefinition" (after l) = Some cd /\
      read cd "dimensionField" = selection (dimensionField st) /\
      read cd "measureField" = selection (measureField st) /\
      read cd "aggregationType" = VStr (aggregationType st)) /\
  (forall k, k <> "chartDefinition" -> lookup k (after l) = lookup k (before l)) /\
  (forall l', l' <> l -> after l' = before l').

(** The type the field inspector is to give a value: number for a
    number; date for a date object and for a string that starts like an
    ISO date; string otherwise. *)
Inductive Classified : value -> FieldType -> Prop :=
| ClassNumber (x : Num.number) : Classified (VNum x) TNumber
| ClassDateObject (l : loc) (time : Num.number) (text : string) (iso : option string) :
    Classified (VDate l time text iso) TDate
| ClassDateText (s : string) :
    Str.isoDatePrefix s = true -> Classified (VStr s) TDate
| ClassString (v : value) :
    typeOf v <> "number" ->
    instanceofDate v = false ->
    (forall s, v = VStr s -> Str.isoDatePrefix s = false) ->
    Classified v TString.

(** A technical field name: [id], [has_linked_data], or a name that
    ends in [_info]. *)
Definition Technical (field : string) : Prop :=
  field = "id" \/ field = "has_linked_data" \/
  exists stem, field = (stem ++ "_info")%string.

Import ReportVisualization.

(** The number a field value parses to, with no default for a value
    that does not parse: a number as it is, the first element of a
    non-empty array parsed, anything else parsed. *)
Definition parsedValue (v : value) : Num.number :=
  match v with
  | VNum x => x
  | VArr _ (first :: _) => parseFloat first
  | _ => parseFloat v
  end.

(** The average as the specification words it: the values that fail to
    parse are discarded, and the sum of the others is divided by their
    number; 0 when none parses. *)
Definition averageOfParseable (records : list value) (field : value)
  : result Num.number :=
  let* values := mapM (fun record => let* v := getAt record field in
                                      Ok (parsedValue v)) records in
  let parseable := filter (fun x => negb (isNaN x)) values in
  match parseable with
  | [] => Ok zero
  | _ => Ok (sum parseable / Num.ofNat (List.length parseable))%float
  end.

(** A value as a [Set] holds it: [-0] is held as [+0]. *)
Definition asMember (x : value) : value :=
  match x with
  | VNum y => if is_zero y then VNum zero else x
  | _ => x
  end.

(** [ds] lists the distinct values among [xs]: every value of [xs] is
    there, every element comes from [xs], and no element equals an earlier
    one. *)
Definition DistinctValues (xs ds : list value) : Prop :=
  (forall x, In x xs -> exists d, In d ds /\ sameValueZero (asMember x) d = true) /\
  (forall d, In d ds -> exists x, In x xs /\ d = asMember x) /\
  ForallOrdPairs (fun d e => sameValueZero e d = false) ds.

(** *** Records and their field values *)

(** Records whose fields can be read: none is [undefined] or [null]. *)
Definition readable (rs : list value) : Prop :=
  Forall (fun r => isNullish r = false) rs.

(** Records as a payload has them: every one is an object. *)
Definition objects (rs : list value) : Prop :=
  Forall (fun r => exists l props, r = VObj l props) rs.

(** The text a dimension value is shown as where records are grouped:
    nothing for a value that is not there. *)
Definition shown (v : value) : string :=
  match v with
  | VUndefined | VNull => ""
  | _ => toStr v
  end.

(** The text a value is shown as where every record has its own label:
    nothing for a field the record does not have, [null] for [null]. *)
Definition printed (v : value) : string :=
  match v with
  | VUndefined => ""
  | _ => toStr v
  end.

(** A value parsed as a number, 0 when it does not parse. *)
Definition parsedOrZero (v : value) : Num.number :=
  let x := parseFloat v in
  if is_nan x then zero else if is_zero x then zero else x.

(** The number a measure value stands for: a number as it is; of an
    array that is not empty, the first element parsed; anything else parsed;
    0 for what does not parse. *)
Definition measureOf (v : value) : Num.number :=
  match v with
  | VNum x => x
  | VArr _ (first :: _) => parsedOrZero first
  | _ => parsedOrZero v
  end.

(** The same without the rule for arrays. *)
Definition summand (v : value) : Num.number :=
  match v with
  | VNum x => x
  | _ => parsedOrZero v
  end.

(** The numbers added up from 0, from the left. *)
Fixpoint totalFrom (acc : Num.number) (xs : list Num.number) : Num.number :=
  match xs with
  | [] => acc
  | x :: r => totalFrom (acc + x)%float r
  end.

Definition total (xs : list Num.number) : Num.number := totalFrom zero xs.

(** The smaller and the greater of two numbers, [-0] being below [+0];
    the first where neither is. *)
Definition lesser (a x : Num.number) : Num.number :=
  if (x <? a)%float then x
  else if is_zero x && get_sign x && is_zero a && negb (get_sign a) then x
  else a.

Definition greater (a x : Num.number) : Num.number :=
  if (a <? x)%float then x
  else if is_zero x && negb (get_sign x) && is_zero a && get_sign a then x
  else a.

(** The aggregation kind [kind] is the one called [name]. *)
Definition named (name : string) (kind : value) : bool :=
  match kind with
  | VStr s => String.eqb s name
  | _ => false
  end.

(** The aggregation of the measure values [values] of a record set, as
    the aggregator computes it.  A value that does not parse counts as 0
    and takes part; only the number [NaN] itself is left out. *)
Definition aggregation (kind : value) (values : list value) : Num.number :=
  match values with
  | [] => zero
  | first :: _ =>
      let numbers := filter (fun x => negb (is_nan x)) (map measureOf values) in
      let count := Num.ofNat (List.length values) in
      if named "none" kind then measureOf first
      else if named "count" kind then count
      else
        match numbers with
        | [] => zero
        | _ =>
            if named "sum" kind then total numbers
            else if named "average" kind then
              (total numbers / Num.ofNat (List.length numbers))%float
            else if named "min" kind then fold_left lesser numbers infinity
            else if named "max" kind then fold_left greater numbers neg_infinity
            else count
        end
  end.

(** *** Stacked charts *)

(** The records that match a dimension value and a series value: a
    record matches a value that its field value equals under [==]. *)
Definition matching (dimension series : string) (dimValue seriesValue : value)
    (records : list value) : list value :=
  filter (fun r => looseEq (read r dimension) dimValue &&
                   looseEq (read r series) seriesValue) records.

(** The records whose dimension and series values are these very
    values. *)
Definition holding (dimension series : string) (dimValue seriesValue : value)
    (records : list value) : list value :=
  filter (fun r => sameValueZero (asMember (read r dimension)) dimValue &&
                   sameValueZero (asMember (read r series)) seriesValue) records.

(** The name of the dataset of a series value: its text, or [Series n]
    by its position, counted from 1, for a value that is falsy. *)
Definition seriesName (seriesValue : value) (index : nat) : string :=
  if truthy seriesValue then toStr seriesValue
  else ("Series " ++ Str.ofNat (index + 1))%string.

(** The point for a set of matching records: 0 when there is none. *)
Definition pointOver (point : list value -> Num.number) (records : list value)
  : Num.number :=
  match records with
  | [] => zero
  | _ => point records
  end.

(** The structure of a stacked chart over [records]: the labels are the
    distinct dimension values as they are shown; there is one dataset for
    each distinct series value, named after it; and the dataset of a series
    value holds, for each dimension value in the order of the labels, the
    point for the records that match both. *)
Definition Stacked (records : list value) (dimension series : string)
    (point : list value -> Num.number) (out : result ChartData) : Prop :=
  exists dimensionValues seriesValues datasets,
    DistinctValues (map (fun r => read r dimension) records) dimensionValues /\
    DistinctValues (map (fun r => read r series) records) seriesValues /\
    out = Ok (Chart (NewArray (map (fun v => VStr (shown v)) dimensionValues))
                    datasets) /\
    map label datasets =
      map (fun '(v, i) => VStr (seriesName v i))
          (combine seriesValues (seq 0 (List.length seriesValues))) /\
    map points datasets =
      map (fun seriesValue =>
             NewArray
               (map (fun dimValue =>
                       VNum (pointOver point
                               (matching dimension series dimValue seriesValue
                                         records)))
                    dimensionValues))
          seriesValues.

(** A chart with one label and one point for every record, in the order
    of the records: the label is the text of the record's dimension value,
    the point is the number its measure value stands for. *)
Definition PerRecord (records : list value) (dimension measure : string)
    (out : result ChartData) : Prop :=
  exists ds,
    out = Ok (Chart (NewArray (map (fun r => VStr (printed (read r dimension)))
                                   records)) [ds]) /\
    label ds = VStr (Str.titleCase measure) /\
    points ds = NewArray (map (fun r => VNum (measureOf (read r measure))) records).

(** The legacy configuration asks for a stacked bar chart. *)
Definition legacyStacked (visualizationType config : value) : bool :=
  strictEq visualizationType (VStr "bar") &&
  truthy (read config "stacked") && truthy (read config "seriesField").

(** *** Dates *)

(** The part of a text before the first character that [stop] accepts. *)
Fixpoint upTo (stop : ascii -> bool) (s : string) : string :=
  match s with
  | EmptyString => EmptyString
  | String c r => if stop c then EmptyString else String c (upTo stop r)
  end.

(** The time of day starts at the first [T] or the first space. *)
Definition timeStart (c : ascii) : bool := Ascii.eqb c "T" || Ascii.eqb c " ".

(** The bucket of a date value: the date portion of a text, the date of
    the ISO form of a date object; none for a value without a date. *)
Definition dateOf (v : value) : option string :=
  match v with
  | VStr s => match upTo timeStart s with "" => None | d => Some d end
  | VDate _ _ _ (Some t) =>
      match upTo (Ascii.eqb "T") t with "" => None | d => Some d end
  | _ => None
  end.

(** The date values the buckets are stated for: a text that starts with
    an ISO date, a date object that is a valid date (its ISO form starts
    with the date), and a date that is not there ([undefined], [null] or
    the empty text). *)
Inductive Datable : value -> Prop :=
| DateText (s : string) :
    Str.isoDatePrefix s = true -> Datable (VStr s)
| DateObject (l : loc) (time : Num.number) (text t : string) :
    Str.isoDatePrefix t = true -> Datable (VDate l time text (Some t))
| DateMissing (v : value) :
    v = VUndefined \/ v = VNull \/ v = VStr "" -> Datable v.

Definition inBucket (dateField d : string) (record : value) : bool :=
  match dateOf (read record dateField) with
  | Some d' => String.eqb d' d
  | None => false
  end.

Definition bucketCount (dateField : string) (records : list value) (d : string) : nat :=
  List.length (filter (inBucket dateField d) records).

(** A chart of date buckets: a single dataset under the given label; the
    labels are the buckets of the records, each once, in ascending order
    of their text; the point of a label is the number of records in that
    bucket. *)
Definition DateBuckets (records : list value) (dateField datasetLabel : string)
    (out : result ChartData) : Prop :=
  exists dates ds,
    out = Ok (Chart (NewArray (map VStr dates)) [ds]) /\
    label ds = VStr datasetLabel /\
    points ds =
      NewArray (map (fun d => VNum (Num.ofNat (bucketCount dateField records d))) dates) /\
    Sorted (fun a b => String.leb a b = true) dates /\
    NoDup dates /\
    (forall d, In d dates <->
               exists r, In r records /\ dateOf (read r dateField) = Some d).

(** An object that answers [getFullYear]. *)
Definition answersYear (v : value) : Prop :=
  exists l props lf text,
    v = VObj l props /\ lookup "getFullYear" props = Some (VFun lf text).

(** The builder's test for a date: the text of the value starts with an
    ISO date, or the value is a date object, or it answers
    [getFullYear]. *)
Definition DateShaped (v : value) : Prop :=
  Str.isoDatePrefix (toStr v) = true \/
  instanceofDate v = true \/
  answersYear v.

(** The fields a loop over a first record goes through. *)
Definition fieldsOf (record : value) : list (string * value) :=
  match entries record with
  | Ok es => es
  | Throw _ => []
  end.

(** The number of records of a model. *)
Definition size (model : value) : nat :=
  match read model "records" with
  | VArr _ xs => List.length xs
  | _ => 0
  end.

(** The primary model of a multi-model result: the first of the models
    with the most records. *)
Definition Primary (models : list value) (primary : value) : Prop :=
  FirstWith (fun m => forall m', In m' models -> size m' <= size m)
            models primary.

(** The name a model goes by: its label, or its model name when it has
    no label. *)
Definition nameOf (model : value) : value :=
  or (or (read model "model_label") (read model "model")) (VStr "").

(** The name of the dataset of the date buckets of a model. *)
Definition countName (name : string) : string :=
  if Str.includes "log" name then "User Login Count"
  else (name ++ " Count")%string.

(** A multi-model payload for the date rule: no chart definition and no
    records of its own; no model carries a precomputed date aggregation;
    the records [rs] of the primary model are objects, [dateField] is the
    first field of the first record that is not technical and passes the
    builder's date test, and the date value of every record is one the
    buckets are stated for; [name] is the name the primary model goes
    by. *)
Record MultiModelDates (props : list (string * value)) (models : list value)
    (primary : value) (rs : list value) (dateField name : string) : Prop := {
  mm_flag : field VUndefined "multi_model" props = VBool true;
  mm_results : exists lm, field VUndefined "results" props = VArr lm models;
  mm_no_definition : truthy (field VUndefined "chartDefinition" props) = false;
  mm_no_records : truthy (field VUndefined "records" props) = false;
  mm_models : Forall (fun m => isNullish m = false /\
                               truthy (read m "_dateAggregation") = false) models;
  mm_primary : Primary models primary;
  mm_primary_records : exists lr, read primary "records" = VArr lr rs;
  mm_objects : objects rs;
  mm_first : exists first rest v,
      rs = first :: rest /\
      FirstWith (fun e => ~ Technical (fst e) /\ DateShaped (snd e))
                (fieldsOf first) (dateField, v);
  mm_field_named : dateField <> "";
  mm_dated : Forall (fun r => Datable (read r dateField)) rs;
  mm_name : nameOf primary = VStr name
}.

(** The search results are the data object itself, and it does not carry
    graph data of its own. *)
Definition OwnResults (props : list (string * value)) : Prop :=
  truthy (field VUndefined "graphData" props) = false /\
  truthy (field VUndefined "data" props) = false /\
  truthy (field VUndefined "labels" props) &&
    truthy (field VUndefined "datasets" props) = false.

(** *** Payloads without anything to draw *)

(** A value that can label the categories: a text, or an object that
    passes the date test. *)
Definition CanLabel (v : value) : Prop :=
  typeOf v = "string" \/
  (typeOf v = "object" /\ v <> VNull /\
   (instanceofDate v = true \/ answersYear v \/
    Str.isoDatePrefix (toStr v) = true)).

(** A value that can give the values: a number, something that parses
    as one, or an array whose first element does. *)
Definition CanValue (v : value) : Prop :=
  typeOf v = "number" \/
  is_nan (parseFloat v) = false \/
  exists l first rest,
    v = VArr l (first :: rest) /\
    (typeOf first = "number" \/ is_nan (parseFloat first) = false).

(** What the builder finds in a data object [props] under a config
    [cfg] when no rule has anything to draw.  In every case the object
    carries no chart definition, the config holds no legacy field
    selection, and the object is not an aggregation result. *)
Definition NothingSelected (cfg : value) (props : list (string * value)) : Prop :=
  truthy (field VUndefined "chartDefinition" props) = false /\
  isNullish cfg = false /\
  truthy (read cfg "dimensionField") && truthy (read cfg "measureField") = false /\
  strictEq (field VUndefined "aggregation" props) (VBool true) = false.

(** The report's data is the object [props], as it is or as a text
    that parses to it. *)
Definition Payload (env : Env) (report : Report) (l : loc)
    (props : list (string * value)) : Prop :=
  data report = VObj l props \/
  exists s, data report = VStr s /\ s <> "" /\
            parseJSON env s = Some (VObj l props).

Inductive Undrawable (env : Env) (report : Report) : Prop :=
| NoData :
    (* the report has no data *)
    truthy (data report) = false ->
    Undrawable env report
| Unparsed (s : string) :
    (* its data is a text that does not parse *)
    data report = VStr s ->
    parseJSON env s = None ->
    Undrawable env report
| NoRecords (l : loc) (props : list (string * value)) :
    (* no records, whatever else the object holds; a chart definition or
       a legacy selection finds nothing to work on *)
    Payload env report l props ->
    OwnResults props ->
    (truthy (field VUndefined "chartDefinition" props) = false ->
     isNullish (readConfig env report) = false) ->
    truthy (field VUndefined "multi_model" props) &&
      truthy (field VUndefined "results" props) = false ->
    truthy (field VUndefined "records" props) &&
      lengthPositive (field VUndefined "records" props) = false ->
    Undrawable env report
| NoModels (l : loc) (props : list (string * value)) :
    (* a multi-model result whose [results] are no list, an empty list,
       or models without a date aggregation and without records *)
    Payload env report l props ->
    OwnResults props ->
    NothingSelected (readConfig env report) props ->
    field VUndefined "multi_model" props = VBool true ->
    truthy (field VUndefined "results" props) = true ->
    match field VUndefined "results" props with
    | VArr _ models =>
        Forall (fun m => isNullish m = false /\
                         truthy (read m "_dateAggregation") = false /\
                         truthy (read m "records") &&
                           lengthTruthy (read m "records") = false) models
    | _ => True
    end ->
    Undrawable env report
| NoFields (l lr : loc) (props : list (string * value)) (first : value)
    (rest : list value) :
    (* records in whose first record no field is date-shaped, and no
       field that is not technical can label, or none can give values *)
    Payload env report l props ->
    OwnResults props ->
    NothingSelected (readConfig env report) props ->
    strictEq (field VUndefined "multi_model" props) (VBool true) &&
      truthy (field VUndefined "results" props) = false ->
    field VUndefined "records" props = VArr lr (first :: rest) ->
    Forall (fun e => ~ DateShaped (snd e)) (fieldsOf first) ->
    Forall (fun e => Technical (fst e) \/ ~ CanLabel (snd e)) (fieldsOf first) \/
    Forall (fun e => Technical (fst e) \/ ~ CanValue (snd e)) (fieldsOf first) ->
    Undrawable env report.

(** The fixed sample: five categories [Sample A] to [Sample E] with the
    values 30, 20, 25, 15, 10 in a single dataset. *)
Definition IsSample (c : ChartData) : Prop :=
  exists ds,
    c = Chart (NewArray (map VStr ["Sample A"; "Sample B"; "Sample C";
                                   "Sample D"; "Sample E"])) [ds] /\
    points ds = NewArray (map (fun z => VNum (Num.ofZ z)) [30; 20; 25; 15; 10]%Z).

End Spec.

(** * Concrete inputs *)

Module Examples.

Import ReportDialog.

(** A descriptor list with a single field that is not numeric. *)
Definition onlyName : Field :=
  {| name := "customer"; type := TString; label := "Customer" |}.

(** A dialog on three fields, with a stacked bar chart selected. *)
Definition salesFields : list Field :=
  [ {| name := "region"; type := TString; label := "Region" |};
    {| name := "product"; type := TString; label := "Product" |};
    {| name := "qty"; type := TNumber; label := "Qty" |} ].

Definition stackedDialog : State :=
  withConfig (initialState "sales by region" salesFields)
             [("stacked", VBool true); ("cumulated", VBool false)].

(** A record whose [when] field is an object of a date library: not a
    [Date], but it answers [getFullYear]. *)
Definition foreignDate : value :=
  VObj 2 [("getFullYear", VFun 3 "function getFullYear() { [native code] }")].

Definition visitRecord : value :=
  VObj 1 [("id", VNum (Num.ofZ 7)); ("when", foreignDate); ("visits", VNum (Num.ofZ 3))].

(** The search page's result object at address 10, and a dialog opened
    on it, with and without a confirmation callback. *)
Definition searchPayload : list (string * value) :=
  [ ("model", VStr "sale.report");
    ("count", VNum (Num.ofZ 1));
    ("records", VArr 11 [ VObj 12 [ ("region", VStr "A");
                                    ("product", VStr "X");
                                    ("qty", VNum (Num.ofZ 5)) ] ]) ].

Definition pageStore : Store :=
  fun l => if Nat.eqb l 10 then searchPayload else [].

Definition dialogProps : Props :=
  {| queryText := "sales by region"; searchResults := Some 10;
     hasOnConfirm := true |}.

Definition dialogPropsWithoutCallback : Props :=
  {| queryText := "sales by region"; searchResults := Some 10;
     hasOnConfirm := false |}.

Import ReportVisualization.

(** An environment: no text to parse, no colour-scheme cookie. *)
Definition browser : Env :=
  {| parseJSON := fun _ => None; colorScheme := VUndefined |}.

Definition num (z : Z) : value := VNum (Num.ofZ z).

(** Two records, of which one holds a text that is not a number. *)
Definition mixedRecords : list value :=
  [ VObj 21 [("x", VStr "abc")]; VObj 22 [("x", num 4)] ].

(** The payload of the specification's scenario D. *)
Definition shapeless : Report :=
  {| visualization_type := VStr "bar";
     config := VObj 31 [];
     data := VObj 32 [("foo", VStr "bar")] |}.

(** A report whose record list holds a [null] entry. *)
Definition holedRecords : Report :=
  {| visualization_type := VStr "bar";
     config := VObj 31 [];
     data := VObj 33 [ ("records",
                        VArr 34 [ VObj 35 [("name", VStr "A"); ("amount", num 7)];
                                  VNull ]) ] |}.

(** Three records on two dates. *)
Definition datedRecords : value :=
  VArr 41 [ VObj 42 [("date", VStr "2024-01-01"); ("amount", num 5)];
            VObj 43 [("date", VStr "2024-01-01"); ("amount", num 3)];
            VObj 44 [("date", VStr "2024-01-02"); ("amount", num 2)] ].

(** A report whose chart definition names a dimension but no measure. *)
Definition withoutMeasure : Report :=
  {| visualization_type := VStr "bar";
     config := VObj 31 [];
     data := VObj 45 [ ("records", datedRecords);
                       ("chartDefinition", VObj 46 [("dimensionField", VStr "date")]) ] |}.

(** The specification's scenario B: regions A, B and products X, Y, with
    no record for region B and product Y. *)
Definition regionRecords : value :=
  VArr 51 [ VObj 52 [("region", VStr "A"); ("product", VStr "X"); ("qty", num 5)];
            VObj 53 [("region", VStr "A"); ("product", VStr "Y"); ("qty", num 3)];
            VObj 54 [("region", VStr "B"); ("product", VStr "X"); ("qty", num 2)];
            VObj 55 [("region", VStr "A"); ("product", VStr "X"); ("qty", num 2)] ].

Definition regionDefinition : list (string * value) :=
  [ ("dimensionField", VStr "region"); ("measureField", VStr "qty");
    ("aggregationType", VStr "count"); ("seriesField", VStr "product") ].

Definition regionPayload : list (string * value) :=
  [ ("records", regionRecords); ("chartDefinition", VObj 56 regionDefinition) ].

Definition stackedReport : Report :=
  {| visualization_type := VStr "bar";
     config := VObj 57 [("stacked", VBool true)];
     data := VObj 58 regionPayload |}.

(** A report saved with its field selection in the config, before there
    was a chart definition, and the same selection as a chart definition
    with the aggregation [sum]. *)
Definition legacyReport : Report :=
  {| visualization_type := VStr "bar";
     config := VObj 61 [("dimensionField", VStr "date"); ("measureField", VStr "amount")];
     data := VObj 62 [("records", datedRecords)] |}.

Definition explicitSumReport : Report :=
  {| visualization_type := VStr "bar";
     config := VObj 63 [];
     data := VObj 64 [ ("records", datedRecords);
                       ("chartDefinition",
                        VObj 65 [ ("dimensionField", VStr "date");
                                  ("measureField", VStr "amount");
                                  ("aggregationType", VStr "sum") ]) ] |}.

(** A multi-model result: one user, three log entries on two days. *)
Definition userModel : value :=
  VObj 71 [ ("model", VStr "res.users"); ("model_label", VStr "Users");
            ("records", VArr 72 [ VObj 73 [("id", num 1); ("name", VStr "Admin")] ]) ].

Definition logRecords : list value :=
  [ VObj 75 [("id", num 1); ("create_date", VStr "2025-03-16 10:00:00")];
    VObj 76 [("id", num 2); ("create_date", VStr "2025-03-15 11:30:00")];
    VObj 77 [("id", num 3); ("create_date", VStr "2025-03-16T09:00:00")] ].

Definition logModel : value :=
  VObj 74 [ ("model", VStr "res.users.log"); ("records", VArr 78 logRecords) ].

Definition loginPayload : list (string * value) :=
  [ ("multi_model", VBool true); ("total_count", num 4);
    ("results", VArr 79 [userModel; logModel]) ].

Definition loginReport : Report :=
  {| visualization_type := VStr "line";
     config := VObj 80 [];
     data := VObj 81 loginPayload |}.

(** Two records whose regions are the number 1 and the text ["1"], in a
    stacked bar chart of the sums by region and product. *)
Definition looseRecords : list value :=
  [ VObj 92 [("region", num 1); ("product", VStr "X"); ("qty", num 5)];
    VObj 93 [("region", VStr "1"); ("product", VStr "X"); ("qty", num 3)] ].

Definition looseReport : Report :=
  {| visualization_type := VStr "bar";
     config := VObj 94 [("stacked", VBool true)];
     data := VObj 95
       [ ("records", VArr 91 looseRecords);
         ("chartDefinition",
          VObj 96 [ ("dimensionField", VStr "region"); ("measureField", VStr "qty");
                    ("aggregationType", VStr "sum"); ("seriesField", VStr "product") ]) ] |}.

(** The log model of the multi-model result with a label of its own. *)
Definition labelledLogModel : value :=
  VObj 84 [ ("model", VStr "res.users.log"); ("model_label", VStr "User Logs");
            ("records", VArr 78 logRecords) ].

Definition labelledReport : Report :=
  {| visualization_type := VStr "line";
     config := VObj 80 [];
     data := VObj 85 [ ("multi_model", VBool true); ("total_count", num 4);
                       ("results", VArr 86 [userModel; labelledLogModel]) ] |}.

(** Two records of which one is called after a member every object
    inherits, grouped by their names. *)
Definition memberRecords : list value :=
  [ VObj 100 [("name", VStr "total"); ("amount", num 5)];
    VObj 101 [("name", VStr "constructor"); ("amount", num 3)] ].

Definition memberReport : Report :=
  {| visualization_type := VStr "bar";
     config := VObj 97 [];
     data := VObj 98
       [ ("records", VArr 99 memberRecords);
         ("chartDefinition",
          VObj 102 [ ("dimensionField", VStr "name"); ("measureField", VStr "amount");
                     ("aggregationType", VStr "sum") ]) ] |}.

(** Payloads without anything to draw: an empty record list, a record
    with nothing but its id, a multi-model flag without results, an empty
    object stored as text, in an environment that parses it, a text that
    does not parse, and no data at all. *)
Definition emptyRecordsReport : Report :=
  {| visualization_type := VStr "bar";
     config := VObj 31 [];
     data := VObj 171 [("records", VArr 172 [])] |}.

Definition idOnlyReport : Report :=
  {| visualization_type := VStr "pie";
     config := VObj 31 [];
     data := VObj 173 [("records", VArr 174 [VObj 175 [("id", num 1)]])] |}.

Definition flagOnlyReport : Report :=
  {| visualization_type := VStr "line";
     config := VObj 31 [];
     data := VObj 176 [("multi_model", VBool true)] |}.

Definition parser : Env :=
  {| parseJSON := fun s => if String.eqb s "{}" then Some (VObj 177 []) else None;
     colorScheme := VUndefined |}.

Definition storedReport : Report :=
  {| visualization_type := VStr "bar";
     config := VStr "{}";
     data := VStr "{}" |}.

Definition garbledReport : Report :=
  {| visualization_type := VStr "bar";
     config := VNull;
     data := VStr "{records" |}.

Definition blankReport : Report :=
  {| visualization_type := VStr "bar";
     config := VStr "null";
     data := VUndefined |}.

(** The stacked bar chart of the regions and products, asked for by a
    legacy field selection. *)
Definition legacyStackedReport : Report :=
  {| visualization_type := VStr "bar";
     config := VObj 66 [ ("dimensionField", VStr "region");
                         ("measureField", VStr "qty");
                         ("stacked", VBool true);
                         ("seriesField", VStr "product") ];
     data := VObj 67 [("records", regionRecords)] |}.

End Examples.

(** * Notions for the rules and handlers beyond the stated claims *)

Module Notions.

Import ReportVisualization.

(** The keys of an object in the order of their creation, when the keys
    [ks] are assigned one after the other: the first occurrence of each. *)
Definition addKey (seen : list string) (k : string) : list string :=
  if existsb (String.eqb k) seen then seen else seen ++ [k].

Definition firstOccurrences (ks : list string) : list string :=
  fold_left addKey ks [].

(** The order in which the keys [ks], created in this order, are
    enumerated: canonical array indices first, ascending. *)
Definition enumerated (ks : list string) : list string :=
  keysOf (map (fun k => (k, tt)) ks).

(** The label under which a record is shown when records are grouped by
    [dimension]: the text of its dimension value, nothing for a value that
    is not there. *)
Definition labelOf (dimension : string) (r : value) : string :=
  Spec.shown (read r dimension).

Definition labelled (dimension lab : string) (records : list value) : list value :=
  filter (fun r => String.eqb (labelOf dimension r) lab) records.

(** The names every plain object answers to before anything is assigned
    to it: those of the members it inherits, and [__proto__]. *)
Definition memberName (k : string) : bool :=
  existsb (String.eqb k) ("__proto__" :: objectMembers).

(** Some record is shown under the name of an inherited member. *)
Definition memberLabelled (dimension : string) (records : list value) : bool :=
  existsb (fun r => memberName (labelOf dimension r)) records.

(** A chart of [records] grouped by [dimension]: a single dataset named
    by the title-cased measure; the labels are the labels of the records,
    each once, enumerated as the keys of an object created in the order of
    the records; the point of a label is the aggregation of the measure
    values of the records shown under it. *)
Definition Grouped (records : list value) (dimension measure : string)
    (kind : value) (out : result ChartData) : Prop :=
  exists ds,
    out = Ok (Chart (NewArray
                       (map VStr (enumerated
                                    (firstOccurrences
                                       (map (labelOf dimension) records)))))
                    [ds]) /\
    label ds = VStr (Str.titleCase measure) /\
    points ds =
      NewArray
        (map (fun lab =>
                VNum (Spec.aggregation kind
                        (map (fun r => read r measure)
                             (labelled dimension lab records))))
             (enumerated (firstOccurrences (map (labelOf dimension) records)))).

(** The field values of [records] under [field], each coerced to a number
    as the aggregation does. *)
Definition coerced (field : string) (records : list value) : list Num.number :=
  map (fun r => numericValue (read r field)) records.

(** No record holds the number [NaN] under [field]. *)
Definition noNaN (field : string) (records : list value) : Prop :=
  Forall (fun r => forall x, read r field = VNum x -> is_nan x = false) records.

(** A report whose chart is inferred from the payload: the data object
    is the search result itself, without graph data of its own and without
    a chart definition; the config is an object that holds no legacy field
    selection; and the payload is not flagged as an aggregation result. *)
Record Inferred (env : Env) (report : Report) (l : loc)
    (props : list (string * value)) : Prop := {
  inf_data : data report = VObj l props;
  inf_own : Spec.OwnResults props;
  inf_no_definition : truthy (field VUndefined "chartDefinition" props) = false;
  inf_config : isNullish (readConfig env report) = false;
  inf_no_selection :
    truthy (read (readConfig env report) "dimensionField") &&
      truthy (read (readConfig env report) "measureField") = false;
  inf_no_aggregation :
    strictEq (field VUndefined "aggregation" props) (VBool true) = false
}.

(** The entries of a first record that the plain-records rule can take:
    for the labels, an entry with a name that is not technical and a
    label-capable value; for the values, an entry with a name that is not
    technical and a value-capable value, other than the one taken for the
    labels. *)
Definition labelEntry (e : string * value) : bool :=
  negb (isTechnical (fst e)) && labelCapable (snd e).

Definition valueEntry (labelField : option string) (e : string * value) : bool :=
  negb (isTechnical (fst e)) && valueCapable (snd e) &&
  match labelField with
  | Some k => negb (String.eqb (fst e) k)
  | None => true
  end.

(** One round of the loop of the plain-records rule over the entries of
    the first record, on the pair of the fields found so far. *)
Definition pick (state : option string * option string) (e : string * value)
  : option string * option string :=
  let '(label_field, value_field) := state in
  let '(field, value) := e in
  if isTechnical field then (label_field, value_field)
  else if match label_field with None => labelCapable value | _ => false end
  then (Some field, value_field)
  else if match value_field with None => valueCapable value | _ => false end
  then (label_field, Some field)
  else (label_field, value_field).

Import ReportDialog.

(** A selection that counts as made: a field name that is not empty. *)
Definition Chosen (s : option string) : Prop :=
  exists n, s = Some n /\ n <> "".

(** The inputs of the dialog are complete: the report has a name and
    the search a query, a dimension and a measure are chosen, and so is a
    series when a stacked bar chart is asked for. *)
Definition Complete (queryText : string) (st : State) : Prop :=
  Str.trim (reportName st) <> "" /\
  queryText <> "" /\
  Chosen (dimensionField st) /\
  Chosen (measureField st) /\
  (stackedBar st = true -> Chosen (seriesField st)).

(** Two states that differ at most in the validation error. *)
Definition sameButError (st st' : State) : Prop :=
  reportName st' = reportName st /\
  visualizationType st' = visualizationType st /\
  availableFields st' = availableFields st /\
  dimensionField st' = dimensionField st /\
  measureField st' = measureField st /\
  aggregationType st' = aggregationType st /\
  seriesField st' = seriesField st /\
  config st' = config st.

(** What a user can do in the dialog before confirming. *)
Inductive Event : Type :=
| TypeChanged (value : string)
| DimensionChanged (value : string)
| MeasureChanged (value : string)
| AggregationChanged (value : string)
| SeriesChanged (value : string).

Definition handle (e : Event) (st : State) : State :=
  match e with
  | TypeChanged value => onVisualizationTypeChanged value st
  | DimensionChanged value => onDimensionFieldChanged value st
  | MeasureChanged value => onMeasureFieldChanged value st
  | AggregationChanged value => onAggregationTypeChanged value st
  | SeriesChanged value => onSeriesFieldChanged value st
  end.

(** The aggregation types the dialog offers for the measure of a state. *)
Definition offered (st : State) : list string :=
  map id (_getApplicableAggregationTypes st).

(** An aggregation type is picked among those offered; the other inputs
    are free. *)
Definition possible (st : State) (e : Event) : Prop :=
  match e with
  | AggregationChanged value => In value (offered st)
  | _ => True
  end.

(** The states of a dialog opened on [fields]. *)
Inductive Reachable (queryText : string) (fields : list Field) : State -> Prop :=
| ReachInitial : Reachable queryText fields (initialState queryText fields)
| ReachStep (st : State) (e : Event) :
    Reachable queryText fields st -> possible st e ->
    Reachable queryText fields (handle e st).

Import Rendering.

(** The component after the library was loaded with [outcome] and the
    chart was rendered for each of [frames] in turn: on mounting, then on
    every patch. *)
Definition life (env : Env) (describe : exn -> string) (library : bool)
    (outcome : Loading) (frames : list Frame) : Component :=
  fold_left (fun c f => renderChart env describe f c) frames
            (onWillStart outcome (initial library)).

(** The sums of the first one, two, ... of the numbers [xs], each added
    up from the left. *)
Definition runningSums (xs : list Num.number) : list Num.number :=
  map (fun i => sum (firstn (S i) xs)) (seq 0 (List.length xs)).

(** A dataset of numbers, and the same dataset with its running sums. *)
Definition Cumulated (ds ds' : Dataset) : Prop :=
  exists xs,
    points ds = NewArray (map VNum xs) /\
    points ds' = NewArray (map VNum (runningSums xs)) /\
    ReportVisualization.label ds' = ReportVisualization.label ds /\
    backgroundColor ds' = backgroundColor ds /\
    borderColor ds' = borderColor ds.

(** What holds of the component between any two events: the library
    holds a chart instance of it exactly when it holds a chart; it holds a
    chart only when the library is loaded and no error is recorded; and a
    recorded error is never the empty text. *)
Definition Sound (c : Component) : Prop :=
  instances c = (match chart c with Some _ => 1 | None => 0 end) /\
  (chart c <> None ->
   loading c = false /\ error c = None /\ library c = true) /\
  (forall message, error c = Some message -> message <> "").

(** ** Counter objects

    The count a counter object holds under a key, 0 where it holds none. *)
Definition countOf (d : string) (counts : list (string * tally)) : nat :=
  match lookup d counts with
  | Some (Counted n) => n
  | _ => 0
  end.

(** A counter object in which every key was counted up from 0. *)
Definition PositiveCounts (counts : list (string * tally)) : Prop :=
  forall d t, lookup d counts = Some t -> exists n, t = Counted (S n).

(** ** Copies

    The array indices among the keys [ks], ascending. *)
Definition indices (ks : list string) : list nat :=
  fold_right (fun k acc => match indexOf k with
                           | Some i => insertIndex i acc
                           | None => acc
                           end) [] ks.

(** The serializable properties among [ps], each with its copy, in the
    order of [ps]. *)
Definition copied (ps : list (string * value)) : list (string * json) :=
  (fix copy (ps : list (string * value)) : list (string * json) :=
     match ps with
     | [] => []
     | (k, x) :: r =>
         match jsonCopy x with
         | Some j => (k, j) :: copy r
         | None => copy r
         end
     end) ps.

(** What [JSON.parse(JSON.stringify(x))] gives, [undefined] where
    [JSON.stringify] does. *)
Definition revived (x : value) : value :=
  match jsonCopy x with
  | Some j => SearchPage.ofJson j
  | None => VUndefined
  end.

End Notions.

(** * Runs of the search page *)

Module PageRuns.

Import ReportDialog SearchPage.

(** What can be called on the page: its methods, and the typing into
    the query box, which the template binds to [state.query]. *)
Inductive Method : Type :=
| TypeQuery (text : string)
| OnKeyup (key : value)
| OnSearch
| SaveCurrentSearch
| LoadFavorites
| ExecuteFavorite (queryText : value)
| DeleteFavorite (favoriteId : value)
| SetActiveTab (tab : string)
| CreateReport
| SaveReport (reportData : ReportData)
| LoadReports
| DeleteReport (reportId : value)
| SelectReport (report : value).

(** The state a call leaves and the effects it has.  A call that raises
    an exception has no effect and leaves the state as it was when the
    exception was raised: nothing was changed yet, but for
    [executeFavorite], which has set the query. *)
Definition call (m : Method) (st : State) : State * list Effect :=
  match m with
  | TypeQuery text => (setQuery (VStr text) st, [])
  | OnKeyup key =>
      match onKeyup key st with
      | Ok r => r
      | Throw _ => (st, [])
      end
  | OnSearch =>
      match onSearch st with
      | Ok r => r
      | Throw _ => (st, [])
      end
  | SaveCurrentSearch => saveCurrentSearch st
  | LoadFavorites => loadFavorites st
  | ExecuteFavorite queryText =>
      match executeFavorite queryText st with
      | Ok r => r
      | Throw _ => (setQuery queryText st, [])
      end
  | DeleteFavorite favoriteId => deleteFavorite favoriteId st
  | SetActiveTab tab => setActiveTab tab st
  | CreateReport => (st, createReport st)
  | SaveReport reportData => saveReport reportData st
  | LoadReports => loadReports st
  | DeleteReport reportId => deleteReport reportId st
  | SelectReport report => (selectReport report st, [])
  end.

(** The end of a request, by the method that made it. *)
Inductive Ending : Type :=
| SearchEnds (o : Outcome)
| FavoriteSaveEnds (o : Outcome)
| FavoritesLoadEnds (o : Outcome)
| FavoriteDeleteEnds (o : Outcome)
| ReportSaveEnds (o : Outcome)
| ReportsLoadEnds (o : Outcome)
| ReportDeleteEnds (reportId : value) (o : Outcome).

Definition routeOf (e : Ending) : string :=
  match e with
  | SearchEnds _ => "/ai_universal_search/search"
  | FavoriteSaveEnds _ => "/ai_universal_search/save_favorite"
  | FavoritesLoadEnds _ => "/ai_universal_search/get_favorites"
  | FavoriteDeleteEnds _ => "/ai_universal_search/delete_favorite"
  | ReportSaveEnds _ => "/ai_universal_search/create_report"
  | ReportsLoadEnds _ => "/ai_universal_search/get_reports"
  | ReportDeleteEnds _ _ => "/ai_universal_search/delete_report"
  end.

Definition settle (describe : exn -> string) (e : Ending) (st : State)
  : State * list Effect :=
  match e with
  | SearchEnds o => (onSearchSettled describe o st, [])
  | FavoriteSaveEnds o => onFavoriteSaved o st
  | FavoritesLoadEnds o => (onFavoritesLoaded o st, [])
  | FavoriteDeleteEnds o => onFavoriteDeleted o st
  | ReportSaveEnds o => onReportSaved o st
  | ReportsLoadEnds o => (onReportsLoaded o st, [])
  | ReportDeleteEnds reportId o => onReportDeleted reportId o st
  end.

(** The routes of the requests among some effects. *)
Fixpoint requests (effects : list Effect) : list string :=
  match effects with
  | [] => []
  | Fetch route _ :: rest => route :: requests rest
  | _ :: rest => requests rest
  end.

(** The request to [route] that ends is no longer under way. *)
Fixpoint ended (route : string) (pending : list string) : list string :=
  match pending with
  | [] => []
  | r :: rest => if String.eqb r route then rest else r :: ended route rest
  end.

(** The page together with the routes of the requests under way. *)
Record World : Type := {
  page : State;
  pending : list string
}.

(** The world after [setup], after a call, and after the end of a
    request. *)
Definition opened : World :=
  {| page := fst setup; pending := requests (snd setup) |}.

Definition after (m : Method) (w : World) : World :=
  {| page := fst (call m (page w));
     pending := pending w ++ requests (snd (call m (page w))) |}.

Definition afterEnd (describe : exn -> string) (e : Ending) (w : World) : World :=
  {| page := fst (settle describe e (page w));
     pending := ended (routeOf e) (pending w) ++
                requests (snd (settle describe e (page w))) |}.

(** The worlds the page can be in: it starts with [setup]; then methods
    are called and requests that are under way end, in any order. *)
Inductive Reachable (describe : exn -> string) : World -> Prop :=
| Start : Reachable describe opened
| Called (w : World) (m : Method) :
    Reachable describe w -> Reachable describe (after m w)
| Ended (w : World) (e : Ending) :
    Reachable describe w ->
    In (routeOf e) (pending w) ->
    Reachable describe (afterEnd describe e w).

(** The number of requests to [route] that are under way. *)
Definition underWay (route : string) (w : World) : nat :=
  List.length (filter (String.eqb route) (pending w)).

(** The request a flag of the state stands for. *)
Definition flagged (b : bool) : nat := if b then 1 else 0.

Definition searchRoute : string := "/ai_universal_search/search".
Definition saveRoute : string := "/ai_universal_search/save_favorite".

(** What most steps leave alone: the two flags that gate a request, the
    results and the error. *)
Definition untouched (st st' : State) : Prop :=
  loading st' = loading st /\ savingFavorite st' = savingFavorite st /\
  results st' = results st /\ error st' = error st.

(** Effects without a search and without the saving of a favorite. *)
Definition quiet (effects : list Effect) : Prop :=
  filter (String.eqb searchRoute) (requests effects) = [] /\
  filter (String.eqb saveRoute) (requests effects) = [].

(** The page and its requests agree: a search is under way exactly
    while [loading] is set, and then there is one; the same for the saving
    of a favorite and [savingFavorite]; while a search is under way there
    are neither results nor an error; and there are never both. *)
Definition Orderly (w : World) : Prop :=
  underWay searchRoute w = flagged (loading (page w)) /\
  underWay saveRoute w = flagged (savingFavorite (page w)) /\
  (loading (page w) = true ->
   results (page w) = VNull /\ error (page w) = VNull) /\
  truthy (results (page w)) && truthy (error (page w)) = false.

End PageRuns.

(** * Further concrete inputs *)

Module Cases.

Import ReportVisualization Examples.

(** A stored report whose data carries finished graph data next to a
    chart definition and records. *)
Definition finishedGraph : value :=
  VObj 101 [ ("labels", VArr 102 [VStr "Q1"; VStr "Q2"]);
             ("datasets", VArr 103 [ VObj 104 [ ("label", VStr "Revenue");
                                                ("data", VArr 105 [num 10; num 20]) ] ]) ].

Definition finishedPayload : list (string * value) :=
  [ ("graphData", finishedGraph);
    ("records", datedRecords);
    ("chartDefinition", VObj 106 [ ("dimensionField", VStr "date");
                                   ("measureField", VStr "amount") ]) ].

Definition finishedReport : Report :=
  {| visualization_type := VStr "line";
     config := VNull;
     data := VObj 107 finishedPayload |}.

(** An aggregation result of the search backend: totals per month, one
    of them missing. *)
Definition monthlyRecords : list value :=
  [ VObj 111 [("month", VStr "2024-01"); ("total", num 40)];
    VObj 112 [("month", VStr "2024-02")];
    VObj 113 [("month", VStr "2024-03"); ("total", VStr "12")] ].

Definition monthlyPayload : list (string * value) :=
  [ ("aggregation", VBool true);
    ("dimension", VStr "month");
    ("measure", VStr "total");
    ("field_descriptions", VObj 114 [("month", VStr "Invoice month")]);
    ("records", VArr 115 monthlyRecords) ].

Definition monthlyReport : Report :=
  {| visualization_type := VStr "bar";
     config := VStr "";
     data := VObj 116 monthlyPayload |}.

(** A multi-model result whose log model carries a precomputed date
    aggregation, and the same with an aggregation that holds no dates. *)
Definition precomputed : value :=
  VObj 121 [ ("dateField", VStr "create_date");
             ("dates", VArr 122 [VStr "2025-03-15"; VStr "2025-03-16"]);
             ("counts", VArr 123 [num 1; num 2]) ].

Definition preparedModel : value :=
  VObj 124 [ ("model", VStr "res.users.log"); ("model_label", VStr "User Logs");
             ("records", VArr 78 logRecords);
             ("_dateAggregation", precomputed) ].

Definition preparedPayload : list (string * value) :=
  [ ("multi_model", VBool true); ("_preprocessed", VBool true);
    ("results", VArr 125 [userModel; preparedModel]) ].

Definition preparedReport : Report :=
  {| visualization_type := VStr "pie";
     config := VObj 126 [];
     data := VObj 127 preparedPayload |}.

Definition brokenModel : value :=
  VObj 128 [ ("model", VStr "res.users.log");
             ("_dateAggregation", VObj 129 [("dateField", VStr "create_date")]) ].

Definition brokenPayload : list (string * value) :=
  [ ("multi_model", VBool true); ("results", VArr 130 [brokenModel]) ].

Definition brokenReport : Report :=
  {| visualization_type := VStr "bar";
     config := VObj 131 [];
     data := VObj 132 brokenPayload |}.

(** A multi-model result none of whose models found a record. *)
Definition emptyModel (l : loc) (model : string) : value :=
  VObj l [ ("model", VStr model); ("records", VArr (S l) []) ].

Definition emptyPayload : list (string * value) :=
  [ ("multi_model", VBool true);
    ("results", VArr 133 [emptyModel 134 "res.users"; emptyModel 136 "res.partner"]) ].

Definition emptyReport : Report :=
  {| visualization_type := VStr "bar";
     config := VObj 138 [];
     data := VObj 139 emptyPayload |}.

(** Plain records: a technical field, a name and two numbers. *)
Definition productFields : list (string * value) :=
  [ ("id", num 1); ("name", VStr "Chair"); ("price", VStr "49.90"); ("stock", num 12) ].

Definition productRecords : list value :=
  [ VObj 141 productFields;
    VObj 142 [ ("id", num 2); ("name", VStr "Desk"); ("price", VStr "n/a");
               ("stock", num 3) ] ].

Definition productReport : Report :=
  {| visualization_type := VStr "bar";
     config := VObj 143 [];
     data := VObj 144 [("model", VStr "product.product");
                       ("records", VArr 145 productRecords)] |}.

(** Plain records without anything to take as values: a time stamp and
    a note. *)
Definition noteFields : list (string * value) :=
  [ ("created", VStr "2024-05-02 08:15:00"); ("note", VStr "called back") ].

Definition noteRecords : list value :=
  [ VObj 151 noteFields;
    VObj 152 [("created", VStr "2024-05-01T17:40:00"); ("note", VStr "left a message")];
    VObj 153 [("created", VStr "2024-05-02 11:05:00"); ("note", VStr "")] ].

Definition noteReport : Report :=
  {| visualization_type := VStr "bar";
     config := VObj 154 [];
     data := VObj 155 [("records", VArr 156 noteRecords)] |}.

(** The grouped sums of the dated records as a cumulated line chart. *)
Definition cumulatedReport : Report :=
  {| visualization_type := VStr "line";
     config := VObj 161 [("cumulated", VBool true)];
     data := VObj 64 [ ("records", datedRecords);
                       ("chartDefinition",
                        VObj 65 [ ("dimensionField", VStr "date");
                                  ("measureField", VStr "amount");
                                  ("aggregationType", VStr "sum") ]) ] |}.

Import Rendering.

(** A page on which the canvas is there and the library draws what it
    is given, showing a report. *)
Definition showing (r : Report) : Frame :=
  {| report := r; name := VStr "Report"; canvas := true; context := None;
     construct := fun _ => None |}.

(** The text of an exception, as a browser words it. *)
Definition wording (e : exn) : string :=
  match e with
  | TypeError => "Cannot read properties of null"
  | RangeError => "Invalid time value"
  | OpaqueCall => "unknown"
  end.

Import ReportDialog.

(** The dialog of the examples, opened on a query that consists of
    spaces, after the user has typed a name for the report. *)
Definition blankQueryProps : Props :=
  {| queryText := "   "; searchResults := Some 10; hasOnConfirm := true |}.

Definition namedDialog : State :=
  {| reportName := "Sales";
     visualizationType := "line";
     validationError := None;
     availableFields := salesFields;
     dimensionField := Some "region";
     measureField := Some "qty";
     aggregationType := "sum";
     seriesField := Some "product";
     config := [("cumulated", VBool false)] |}.

(** The answer to a search for the users, as the test suite mocks it. *)
Definition usersAnswer : value :=
  VObj 20
    [ ("jsonrpc", VStr "2.0");
      ("id", VNum (Num.ofZ 7));
      ("result",
       VObj 21
         [ ("model", VStr "res.users");
           ("count", VNum (Num.ofZ 2));
           ("fields", VArr 22 [VStr "id"; VStr "name"; VStr "login"; VStr "email"]);
           ("records",
            VArr 23
              [ VObj 24 [ ("id", VNum (Num.ofZ 1)); ("name", VStr "Admin");
                          ("login", VStr "admin");
                          ("email", VStr "admin@example.com") ];
                VObj 25 [ ("id", VNum (Num.ofZ 2)); ("name", VStr "Demo User");
                          ("login", VStr "demo");
                          ("email", VStr "demo@example.com") ] ]) ]) ].

End Cases.

(** * Facts about the value universe *)

Module JSFacts.

(** ** Fixed keys

    A key the components name themselves is no member of
    [Object.prototype]: read from an object, it gives the object's own
    property. *)

Ltac fixed :=
  repeat match goal with
         | |- context [inherited ?k] =>
             let v := eval vm_compute in (inherited k) in
             lazymatch v with
             | VUndefined => change (inherited k) with VUndefined
             end
         end.

Lemma read_own (l : loc) (props : list (string * value)) (k : string) (x : value) :
  lookup k props = Some x -> read (VObj l props) k = x.
Proof. intros H. cbn [read]. unfold field. now rewrite H. Qed.

Lemma read_inherited (l : loc) (props : list (string * value)) (k : string) :
  lookup k props = None -> read (VObj l props) k = inherited k.
Proof. intros H. cbn [read]. unfold field. now rewrite H. Qed.

(** ** Objects used as maps *)

Lemma lookup_setProp_same {A : Type} (k : string) (x : A) (ps : list (string * A)) :
  lookup k (setProp k x ps) = Some x.
Proof.
  induction ps as [|[k' y] ps IH]; cbn.
  - now rewrite String.eqb_refl.
  - destruct (String.eqb k k') eqn:E; cbn; rewrite ?String.eqb_refl, ?E; auto.
Qed.

Lemma lookup_setProp_other {A : Type} (k k' : string) (x : A)
    (ps : list (string * A)) :
  k' <> k -> lookup k' (setProp k x ps) = lookup k' ps.
Proof.
  intros Hk. apply String.eqb_neq in Hk.
  induction ps as [|[k0 y] ps IH]; cbn.
  - now rewrite Hk.
  - destruct (String.eqb k k0) eqn:E; cbn.
    + apply String.eqb_eq in E. subst k0. now rewrite Hk.
    + now rewrite IH.
Qed.

Lemma keys_setProp {A : Type} (k : string) (x : A) (ps : list (string * A)) :
  map fst (setProp k x ps) =
    if existsb (String.eqb k) (map fst ps) then map fst ps
    else map fst ps ++ [k].
Proof.
  induction ps as [|[k' y] ps IH]; cbn; [reflexivity|].
  destruct (String.eqb k k') eqn:E; cbn.
  - apply String.eqb_eq in E. now subst.
  - rewrite IH. now destruct (existsb (String.eqb k) (map fst ps)).
Qed.

Lemma lookup_none_keys {A : Type} (k : string) (ps : list (string * A)) :
  lookup k ps = None <-> existsb (String.eqb k) (map fst ps) = false.
Proof.
  induction ps as [|[k' y] ps IH]; cbn; [tauto|].
  destruct (String.eqb k k'); cbn; [split; discriminate | exact IH].
Qed.

Lemma lookup_In {A : Type} (k : string) (ps : list (string * A)) :
  In k (map fst ps) <-> lookup k ps <> None.
Proof.
  induction ps as [|[k' y] ps IH]; cbn; [tauto|].
  destruct (String.eqb_spec k k') as [->|N].
  - split; [discriminate | auto].
  - rewrite <- IH. split; [intros [E|H]; [congruence | exact H] | auto].
Qed.

(** ** Key order *)

Lemma indexOf_canonical (k : string) (i : nat) :
  indexOf k = Some i -> Str.ofNat i = k.
Proof.
  unfold indexOf. destruct (Num.readDigits 0 0 k) as [[z n] rest].
  destruct (String.eqb rest "" && negb (Nat.eqb n 0) &&
            String.eqb (Str.ofN (Z.to_N z)) k && (z <? 4294967295)%Z) eqn:E;
    [|discriminate].
  intros H. injection H as <-.
  rewrite !andb_true_iff in E. destruct E as [[[_ _] E] _].
  apply String.eqb_eq in E. unfold Str.ofNat.
  rewrite <- Z_N_nat, N2Nat.id. exact E.
Qed.

Lemma insertIndex_perm (i : nat) (l : list nat) :
  Permutation (insertIndex i l) (i :: l).
Proof.
  induction l as [|j l IH]; cbn; [reflexivity|].
  destruct (i <=? j)%nat; [reflexivity|].
  rewrite IH. apply perm_swap.
Qed.

Lemma filter_split_perm {A : Type} (p : A -> bool) (l : list A) :
  Permutation (filter p l ++ filter (fun x => negb (p x)) l) l.
Proof.
  induction l as [|x l IH]; cbn; [reflexivity|].
  destruct (p x); cbn.
  - now constructor.
  - rewrite <- Permutation_middle. now constructor.
Qed.

Lemma keysOf_perm {A : Type} (ps : list (string * A)) :
  Permutation (keysOf ps) (map fst ps).
Proof.
  unfold keysOf. set (ks := map fst ps). clearbody ks.
  rewrite <- (filter_split_perm isIndexKey ks) at 3.
  apply Permutation_app_tail.
  induction ks as [|k ks IH]; cbn; [reflexivity|].
  replace (isIndexKey k)
    with (match indexOf k with Some _ => true | None => false end)
    by reflexivity.
  destruct (indexOf k) as [i|] eqn:E; [|exact IH].
  rewrite (Permutation_map Str.ofNat (insertIndex_perm i _)).
  cbn. rewrite (indexOf_canonical _ _ E). now constructor.
Qed.

Lemma keysOf_In {A : Type} (k : string) (ps : list (string * A)) :
  In k (keysOf ps) <-> In k (map fst ps).
Proof.
  split; apply Permutation_in;
    [apply keysOf_perm | symmetry; apply keysOf_perm].
Qed.

(** ** Lists *)

Lemma find_FirstWith {A : Type} (p : A -> bool) (l : list A) (x : A) :
  find p l = Some x -> Spec.FirstWith (fun y => p y = true) l x.
Proof.
  induction l as [|a l IH]; simpl; [discriminate|].
  destruct (p a) eqn:Hp; intros H.
  - injection H as <-. exists [], l. repeat split; auto.
  - destruct (IH H) as (pre & post & -> & Hx & Hpre).
    exists (a :: pre), post. repeat split; auto.
    constructor; auto. congruence.
Qed.

Lemma find_none_Forall {A : Type} (p : A -> bool) (l : list A) :
  find p l = None -> Forall (fun y => p y = false) l.
Proof.
  induction l as [|a l IH]; simpl; [constructor|].
  destruct (p a) eqn:Hp; [discriminate|]. intros H. constructor; auto.
Qed.

Lemma FirstWith_impl {A : Type} (P Q : A -> Prop) (l : list A) (x : A) :
  (forall y, P y <-> Q y) -> Spec.FirstWith P l x -> Spec.FirstWith Q l x.
Proof.
  intros HPQ (pre & post & Hl & Hx & Hpre).
  exists pre, post. repeat split; [assumption | now apply HPQ |].
  eapply Forall_impl; [|exact Hpre]. intros y Hy HQ. apply Hy. now apply HPQ.
Qed.

Lemma FirstWith_find {A : Type} (p : A -> bool) (l : list A) (x : A) :
  Spec.FirstWith (fun y => p y = true) l x -> find p l = Some x.
Proof.
  intros (pre & post & -> & Hx & Hpre).
  induction Hpre as [|a pre Ha _ IH]; cbn.
  - now rewrite Hx.
  - destruct (p a); [congruence | exact IH].
Qed.

(** ** Sorting *)

Lemma insertSorted_perm {A : Type} (leq : A -> A -> bool) (x : A) (l : list A) :
  Permutation (insertSorted leq x l) (x :: l).
Proof.
  induction l as [|y l IH]; cbn; [reflexivity|].
  destruct (leq x y); [reflexivity|].
  rewrite IH. apply perm_swap.
Qed.

Lemma sortBy_perm {A : Type} (leq : A -> A -> bool) (l : list A) :
  Permutation (sortBy leq l) l.
Proof.
  induction l as [|x l IH]; cbn; [reflexivity|].
  rewrite insertSorted_perm. now constructor.
Qed.

Lemma insertSorted_sorted {A : Type} (leq : A -> A -> bool) (x : A) (l : list A) :
  (forall a b, leq a b = false -> leq b a = true) ->
  Sorted (fun a b => leq a b = true) l ->
  Sorted (fun a b => leq a b = true) (insertSorted leq x l).
Proof.
  intros Htotal. induction 1 as [|y l Hs IH Hy]; cbn.
  - repeat constructor.
  - destruct (leq x y) eqn:E.
    + repeat constructor; assumption.
    + constructor; [exact IH|].
      destruct l as [|z l]; cbn.
      * constructor. now apply Htotal.
      * inversion Hy; subst. destruct (leq x z); constructor; auto.
Qed.

Lemma sortBy_sorted {A : Type} (leq : A -> A -> bool) (l : list A) :
  (forall a b, leq a b = false -> leq b a = true) ->
  Sorted (fun a b => leq a b = true) (sortBy leq l).
Proof.
  intros Htotal. induction l as [|x l IH]; cbn; [constructor|].
  now apply insertSorted_sorted.
Qed.

Lemma sortStrings_sorted (l : list string) :
  Sorted (fun a b => String.leb a b = true) (sortStrings l).
Proof.
  apply sortBy_sorted. intros a b H.
  destruct (String.leb_total a b) as [E|E]; congruence.
Qed.

(** The head of a list sorted by descending size is its first element of
    greatest size. *)
Lemma sortBy_head_first_max {A : Type} (size : A -> nat) (l : list A) (x d : A) :
  Spec.FirstWith (fun y => forall z, In z l -> size z <= size y) l x ->
  nth 0 (sortBy (fun a b => (size b <=? size a)%nat) l) d = x.
Proof.
  revert x. induction l as [|a l IH]; intros x (pre & post & Hl & Hx & Hpre).
  - destruct pre; discriminate.
  - cbn [sortBy fold_right].
    fold (sortBy (fun a b => (size b <=? size a)%nat) l).
    destruct pre as [|a' pre]; cbn in Hl; injection Hl as <- ->.
    + (* the head is the greatest *)
      destruct (sortBy (fun a b => (size b <=? size a)%nat) post) as [|y s] eqn:Hs;
        [reflexivity|].
      cbn. assert (Hy : In y post).
      { eapply Permutation_in; [apply sortBy_perm|]. rewrite Hs. now left. }
      assert (Hle : size y <= size a) by (apply Hx; now right).
      apply Nat.leb_le in Hle. now rewrite Hle.
    + inversion Hpre as [|? ? Ha Hpre']; subst.
      assert (Hfirst : Spec.FirstWith
                (fun y => forall z, In z (pre ++ x :: post) -> size z <= size y)
                (pre ++ x :: post) x).
      { exists pre, post. split; [reflexivity|]. split.
        - intros z Hz. apply Hx. now right.
        - eapply Forall_impl; [|exact Hpre']. cbn. intros y Hy Hmax. apply Hy.
          intros z [<-|Hz]; [|now apply Hmax].
          (* the size of a is below that of x, which is below that of y *)
          transitivity (size x); [apply Hx; now left|].
          apply Hmax. apply in_or_app. right. now left. }
      specialize (IH x Hfirst).
      destruct (sortBy (fun a b => (size b <=? size a)%nat) (pre ++ x :: post))
        as [|y s] eqn:Hs.
      * exfalso.
        assert (Hp := sortBy_perm (fun a b => (size b <=? size a)%nat) (pre ++ x :: post)).
        rewrite Hs in Hp. apply Permutation_nil in Hp. destruct pre; discriminate.
      * cbn in IH. subst y. cbn.
        destruct (size x <=? size a)%nat eqn:E; [|reflexivity].
        exfalso. apply Ha. intros z [<-|Hz].
        -- reflexivity.
        -- apply Nat.leb_le in E. transitivity (size x); [|exact E].
           apply Hx. now right.
Qed.

(** ** Evaluation that does not raise *)

Lemma get_ok (v : value) (k : string) :
  isNullish v = false -> get v k = Ok (read v k).
Proof. unfold get. now intros ->. Qed.

Lemma mapM_ok {A B : Type} (f : A -> result B) (g : A -> B) (l : list A) :
  Forall (fun x => f x = Ok (g x)) l -> mapM f l = Ok (map g l).
Proof.
  induction 1 as [|x l Hx _ IH]; cbn; [reflexivity|].
  now rewrite Hx, IH.
Qed.

Lemma mapM_Forall2 {A B : Type} (f : A -> result B) (P : A -> B -> Prop)
    (l : list A) :
  Forall (fun x => exists y, f x = Ok y /\ P x y) l ->
  exists ys, mapM f l = Ok ys /\ Forall2 P l ys.
Proof.
  induction 1 as [|x l (y & Hy & Py) _ (ys & Hys & Pys)]; cbn.
  - exists []. split; [reflexivity | constructor].
  - exists (y :: ys). rewrite Hy, Hys. split; [reflexivity | now constructor].
Qed.

Lemma filterM_ok (f : value -> result bool) (g : value -> bool) (l : list value) :
  Forall (fun x => f x = Ok (g x)) l -> filterM f l = Ok (filter g l).
Proof.
  induction 1 as [|x l Hx _ IH]; cbn; [reflexivity|].
  rewrite Hx, IH. cbn. now destruct (g x).
Qed.

Lemma truthy_read_not_nullish (v : value) (k : string) :
  truthy (read v k) = true -> isNullish v = false.
Proof. destruct v; cbn; congruence. Qed.

(** ** Sets *)

Lemma sameValueZero_refl (v : value) : sameValueZero v v = true.
Proof.
  destruct v; cbn; auto using Bool.eqb_reflx, String.eqb_refl, Nat.eqb_refl.
  unfold is_nan. now destruct (x =? x)%float.
Qed.

Lemma ForallOrdPairs_snoc {A : Type} (R : A -> A -> Prop) (l : list A) (x : A) :
  ForallOrdPairs R l -> Forall (fun d => R d x) l -> ForallOrdPairs R (l ++ [x]).
Proof.
  induction 1 as [|d l Hd _ IH]; intros Hx; cbn.
  - repeat constructor.
  - inversion Hx; subst. constructor; auto.
    apply Forall_app. split; auto.
Qed.

Lemma setAdd_spec (seen : list value) (x : value) :
  (forall d, In d seen -> In d (setAdd seen x)) /\
  (exists d, In d (setAdd seen x) /\ sameValueZero (Spec.asMember x) d = true) /\
  (forall d, In d (setAdd seen x) -> In d seen \/ d = Spec.asMember x) /\
  (ForallOrdPairs (fun d e => sameValueZero e d = false) seen ->
   ForallOrdPairs (fun d e => sameValueZero e d = false) (setAdd seen x)).
Proof.
  unfold setAdd. fold (Spec.asMember x).
  destruct (existsb (sameValueZero (Spec.asMember x)) seen) eqn:E.
  - repeat split; auto.
    apply existsb_exists in E. destruct E as (d & Hd & Hs). eauto.
  - repeat split.
    + intros d Hd. apply in_or_app. auto.
    + exists (Spec.asMember x). split; [|apply sameValueZero_refl].
      apply in_or_app. right. now left.
    + intros d Hd. apply in_app_or in Hd. destruct Hd as [Hd|[<-|[]]]; auto.
    + intros Hp. apply ForallOrdPairs_snoc; [assumption|].
      apply Forall_forall. intros d Hd.
      destruct (sameValueZero (Spec.asMember x) d) eqn:Hs; [|reflexivity].
      rewrite <- E. symmetry. apply existsb_exists. eauto.
Qed.

Lemma setOf_from (xs seen : list value) :
  (forall d, In d seen -> In d (fold_left setAdd xs seen)) /\
  (forall x, In x xs ->
     exists d, In d (fold_left setAdd xs seen) /\
               sameValueZero (Spec.asMember x) d = true) /\
  (forall d, In d (fold_left setAdd xs seen) ->
     In d seen \/ exists x, In x xs /\ d = Spec.asMember x) /\
  (ForallOrdPairs (fun d e => sameValueZero e d = false) seen ->
   ForallOrdPairs (fun d e => sameValueZero e d = false) (fold_left setAdd xs seen)).
Proof.
  revert seen. induction xs as [|x xs IH]; intros seen; cbn.
  - repeat split; auto. intros x [].
  - destruct (IH (setAdd seen x)) as (Hkeep & Hall & Hfrom & Hpairs).
    destruct (setAdd_spec seen x) as (Skeep & (d0 & Hd0 & Hs0) & Sfrom & Spairs).
    repeat split.
    + auto.
    + intros y [<-|Hy]; [exists d0; auto | auto].
    + intros d Hd. destruct (Hfrom d Hd) as [Hs|(y & Hy & ->)].
      * destruct (Sfrom d Hs) as [Hs'| ->]; [auto | right; exists x; auto].
      * right. exists y. auto.
    + auto.
Qed.

Lemma setOf_distinct (xs : list value) : Spec.DistinctValues xs (setOf xs).
Proof.
  unfold setOf, Spec.DistinctValues.
  destruct (setOf_from xs []) as (_ & Hall & Hfrom & Hpairs).
  repeat split; auto.
  - intros d Hd. destruct (Hfrom d Hd) as [[]|H]; exact H.
  - apply Hpairs. constructor.
Qed.

End JSFacts.

(** * Properties of the report dialog *)

Module DialogProperties.

Import ReportDialog Spec Examples JSFacts.

Lemma isNumber_iff (t : FieldType) : isNumber t = true <-> t = TNumber.
Proof. destruct t; simpl; split; congruence. Qed.

Lemma differs_iff (n : string) (d : option string) :
  differs n d = true <-> Some n <> d.
Proof.
  destruct d as [d|]; simpl.
  - rewrite negb_true_iff. split.
    + intros H E. injection E as ->. rewrite String.eqb_refl in H. discriminate.
    + intros H. apply String.eqb_neq. congruence.
  - split; [discriminate | reflexivity].
Qed.

Lemma differs_false (n : string) (d : option string) :
  differs n d = false -> Some n = d.
Proof.
  destruct d as [d|]; simpl; [|discriminate].
  rewrite negb_false_iff. intros H. apply String.eqb_eq in H. now subst.
Qed.

(** ** Default selections *)

(** C4, as the code has it: the default measure is the first numeric
    field; without a numeric field, the first field whose name differs
    from the default dimension; without such a field, the first field of
    the list (then the measure equals the dimension); there is no
    measure only for the empty list. *)
Theorem default_measure_selection (fields : list Field) :
  MeasureDefault fields (_getDefaultMeasureField fields).
Proof.
  unfold _getDefaultMeasureField.
  destruct (find (fun f => isNumber (type f)) fields) as [numField|] eqn:Hnum.
  - apply MeasureNumeric.
    apply find_FirstWith in Hnum.
    eapply FirstWith_impl; [|exact Hnum]. intros y. apply isNumber_iff.
  - assert (Hnone : Forall (fun g => type g <> TNumber) fields).
    { apply find_none_Forall in Hnum.
      eapply Forall_impl; [|exact Hnum]. simpl. intros g Hg E.
      apply isNumber_iff in E. congruence. }
    destruct (find (fun f => differs (name f) (_getDefaultDimensionField fields))
                   fields) as [alt|] eqn:Halt.
    + apply MeasureAlternate; [assumption|].
      apply find_FirstWith in Halt.
      eapply FirstWith_impl; [|exact Halt]. intros y. apply differs_iff.
    + destruct fields as [|first rest] eqn:Hf.
      * now apply MeasureNone.
      * eapply MeasureSameAsDimension; [reflexivity | assumption |].
        apply find_none_Forall in Halt.
        eapply Forall_impl; [|exact Halt]. simpl. intros g Hg.
        now apply differs_false.
Qed.

(** C4, as the specification has it, fails: a list with a single field
    that is not numeric gets that field as its measure, not none. *)
Lemma default_measure_single_field :
  _getDefaultDimensionField [onlyName] = Some "customer" /\
  _getDefaultMeasureField [onlyName] = Some "customer" /\
  _getDefaultMeasureField [onlyName] <> None.
Proof. repeat split. discriminate. Qed.

(** ** Event handlers *)

(** C8: changing the measure field resets the aggregation type to
    [count] exactly when a numeric-only aggregation (sum, average, min,
    max) is active and the new field was not inferred to be a number;
    in every other case the aggregation type stays as it was. *)
Theorem measure_change_aggregation (value : string) (st : State) :
  aggregationType (onMeasureFieldChanged value st) =
    if numericOnlyAggregation (aggregationType st) &&
       negb (inferredNumber (availableFields st) value)
    then "count" else aggregationType st.
Proof.
  unfold onMeasureFieldChanged, numericOnlyAggregation, inferredNumber.
  cbn [aggregationType availableFields existsb].
  set (numeric := match find (fun f => String.eqb (name f) value)
                              (availableFields st) with
                  | Some f => isNumber (type f)
                  | None => false
                  end).
  set (a := aggregationType st).
  cbn [find _getAggregationTypes id numericOnly].
  rewrite !(String.eqb_sym _ a).
  destruct (String.eqb_spec a "none") as [->|?]; [reflexivity|].
  destruct (String.eqb_spec a "count") as [->|?]; [reflexivity|].
  destruct (String.eqb_spec a "sum") as [->|?];
    [destruct numeric; reflexivity|].
  destruct (String.eqb_spec a "average") as [->|?];
    [destruct numeric; reflexivity|].
  destruct (String.eqb_spec a "min") as [->|?];
    [destruct numeric; reflexivity|].
  destruct (String.eqb_spec a "max") as [->|?];
    [destruct numeric; reflexivity|].
  reflexivity.
Qed.

Lemma type_change_keeps (t : string) (st : State) :
  sameSelections st (onVisualizationTypeChanged t st) /\
  sameInputs st (onVisualizationTypeChanged t st).
Proof.
  unfold onVisualizationTypeChanged, sameSelections, sameInputs.
  destruct (String.eqb t "bar"); [cbn; auto 10|].
  destruct (String.eqb t "line"); [cbn; auto 10|].
  destruct (String.eqb t "pie"); cbn; auto 10.
Qed.

Lemma type_changes_keep (types : list string) (st : State) :
  sameSelections st (changeTypes types st) /\
  sameInputs st (changeTypes types st).
Proof.
  revert st. induction types as [|t types IH]; intros st.
  - unfold sameSelections, sameInputs; cbn; auto 10.
  - cbn. destruct (IH (onVisualizationTypeChanged t st)) as [Hs Hi].
    destruct (type_change_keeps t st) as [Hs' Hi'].
    unfold sameSelections, sameInputs, changeTypes in *. cbn in *.
    intuition congruence.
Qed.

Lemma type_change_resets (t : string) (st : State) :
  knownType t -> t <> visualizationType st ->
  flagsReset (onVisualizationTypeChanged t st).
Proof.
  unfold knownType, flagsReset, onVisualizationTypeChanged, configGet.
  intros Hk Hnew.
  assert (Hprev : String.eqb (visualizationType st) t = false)
    by (apply String.eqb_neq; congruence).
  cbn in Hk. destruct Hk as [<-|[<-|[<-|[]]]]; cbn; try rewrite Hprev; auto.
Qed.

(** C9: whatever sequence of visualization types is chosen, the
    dimension, measure and series selections of the dialog state stay
    what they were (as do the name, the fields and the aggregation type);
    and a change to another one of the types bar, line, pie leaves both
    type-specific flags, [stacked] and [cumulated], off. *)
Theorem type_change_preserves_selections :
  (forall (types : list string) (st : State),
      sameSelections st (changeTypes types st) /\
      sameInputs st (changeTypes types st)) /\
  (forall (t : string) (st : State),
      knownType t -> t <> visualizationType st ->
      flagsReset (onVisualizationTypeChanged t st)).
Proof.
  split; [exact type_changes_keep | exact type_change_resets].
Qed.

Lemma type_change_preserves_selections_witness :
  sameSelections stackedDialog (changeTypes ["line"; "pie"; "bar"] stackedDialog) /\
  flagsReset (onVisualizationTypeChanged "line" stackedDialog).
Proof.
  destruct type_change_preserves_selections as [Hkeep Hreset]. split.
  - apply (Hkeep ["line"; "pie"; "bar"] stackedDialog).
  - apply (Hreset "line" stackedDialog); [cbn; auto | cbn; discriminate].
Defined.

(** ** Strings *)

Lemma prefix_iff (t s : string) :
  String.prefix t s = true <-> exists u, s = (t ++ u)%string.
Proof.
  revert s. induction t as [|a t IH]; intros s; simpl.
  - destruct s; split; eauto.
  - destruct s as [|b s]; simpl.
    + split; [discriminate | intros [u Hu]; discriminate].
    + destruct (ascii_dec a b) as [->|Hab].
      * rewrite IH. split; intros [u Hu]; exists u; congruence.
      * split; [discriminate | intros [u Hu]; congruence].
Qed.

Lemma append_nil_r (s : string) : (s ++ "")%string = s.
Proof. induction s; simpl; congruence. Qed.

Lemma append_assoc (a b c : string) :
  ((a ++ b) ++ c)%string = (a ++ b ++ c)%string.
Proof. induction a; simpl; congruence. Qed.

Lemma rev_acc_append (s acc : string) :
  Str.rev_acc s acc = (Str.rev s ++ acc)%string.
Proof.
  unfold Str.rev. revert acc.
  induction s as [|c s IH]; intros acc; simpl; [reflexivity|].
  rewrite IH, (IH (String c "")), append_assoc. reflexivity.
Qed.

Lemma rev_append (a b : string) :
  Str.rev (a ++ b) = (Str.rev b ++ Str.rev a)%string.
Proof.
  induction a as [|c a IH]; simpl.
  - now rewrite append_nil_r.
  - unfold Str.rev in *. simpl.
    rewrite !(rev_acc_append _ (String c "")).
    unfold Str.rev. rewrite IH, append_assoc. reflexivity.
Qed.

Lemma rev_involutive (s : string) : Str.rev (Str.rev s) = s.
Proof.
  induction s as [|c s IH]; [reflexivity|].
  change (String c s) with (String c "" ++ s)%string at 1.
  rewrite rev_append, rev_append, IH. reflexivity.
Qed.

Lemma endsWith_iff (t s : string) :
  Str.endsWith t s = true <-> exists stem, s = (stem ++ t)%string.
Proof.
  unfold Str.endsWith. rewrite prefix_iff. split.
  - intros [u Hu]. exists (Str.rev u).
    rewrite <- (rev_involutive s), Hu, rev_append, rev_involutive. reflexivity.
  - intros [stem ->]. exists (Str.rev stem). apply rev_append.
Qed.

Lemma isTechnical_iff (field : string) :
  isTechnical field = true <-> Technical field.
Proof.
  unfold isTechnical, Technical.
  rewrite !orb_true_iff, !String.eqb_eq, endsWith_iff. tauto.
Qed.

(** ** Field inspection *)

Lemma fieldTypeOf_Classified (v : value) : Classified v (fieldTypeOf v).
Proof.
  unfold fieldTypeOf.
  destruct v; cbn; try (constructor; cbn; congruence).
  destruct (Str.isoDatePrefix s) eqn:Hs; constructor; cbn; congruence.
Qed.

Lemma addFields_fold (es : list (string * value)) (fields0 : list Field) :
  fold_left
    (fun fields '(field, value) =>
       if isTechnical field then fields
       else fields ++ [ {| name := field;
                           type := fieldTypeOf value;
                           label := Str.titleCase field |} ])
    es fields0 =
  fields0 ++
  map (fun e => {| name := fst e;
                   type := fieldTypeOf (snd e);
                   label := Str.titleCase (fst e) |})
      (filter (fun e => negb (isTechnical (fst e))) es).
Proof.
  revert fields0. induction es as [|[k v] es IH]; intros fields0; cbn.
  - now rewrite app_nil_r.
  - destruct (isTechnical k); cbn; rewrite IH; [reflexivity|].
    now rewrite <- app_assoc.
Qed.

(** C3, as the code has it: the inspector goes through the own fields
    of the record in order, leaves out the technical ones ([id],
    [has_linked_data], names ending in [_info]) and appends one
    descriptor for each of the others, typed number for a number, date
    for a date object or a string with an ISO date prefix, and string for
    anything else. *)
Theorem inspected_field_types (record : value) (es : list (string * value))
    (fields0 : list Field) :
  entries record = Ok es ->
  exists added,
    _addFieldsFromRecord record fields0 = Ok (fields0 ++ added) /\
    Forall2 (fun e f => name f = fst e /\
                        Classified (snd e) (type f) /\
                        label f = Str.titleCase (fst e))
            (filter (fun e => negb (isTechnical (fst e))) es) added /\
    (forall field, isTechnical field = true <-> Technical field) /\
    (forall f, In f added -> ~ Technical (name f)).
Proof.
  intros Hes. unfold _addFieldsFromRecord. rewrite Hes. cbn [bind].
  rewrite addFields_fold. eexists. split; [reflexivity|].
  assert (HF : forall l : list (string * value),
             Forall2 (fun e f => name f = fst e /\
                                 Classified (snd e) (type f) /\
                                 label f = Str.titleCase (fst e))
                     l
                     (map (fun e => {| name := fst e;
                                       type := fieldTypeOf (snd e);
                                       label := Str.titleCase (fst e) |}) l)).
  { induction l as [|e l IH]; cbn; constructor; auto.
    cbn. auto using fieldTypeOf_Classified. }
  split; [apply HF|]. split; [exact isTechnical_iff|].
  intros f Hf HT. apply in_map_iff in Hf. destruct Hf as (e & <- & He).
  apply filter_In in He. destruct He as [_ He]. cbn in HT.
  apply isTechnical_iff in HT. rewrite HT in He. discriminate.
Qed.

Lemma inspected_field_types_witness :
  exists added,
    _addFieldsFromRecord visitRecord [] = Ok ([] ++ added) /\
    Forall2 (fun e f => name f = fst e /\
                        Classified (snd e) (type f) /\
                        label f = Str.titleCase (fst e))
            (filter (fun e => negb (isTechnical (fst e)))
                    [("id", VNum (Num.ofZ 7)); ("when", foreignDate);
                     ("visits", VNum (Num.ofZ 3))]) added /\
    (forall field, isTechnical field = true <-> Technical field) /\
    (forall f, In f added -> ~ Technical (name f)).
Proof.
  apply (inspected_field_types visitRecord
           [("id", VNum (Num.ofZ 7)); ("when", foreignDate);
            ("visits", VNum (Num.ofZ 3))] []).
  reflexivity.
Defined.

(** C3, as the specification has it, fails: a value that is not a date
    object but exposes a year-extraction method is typed string by the
    inspector. *)
Lemma year_accessor_is_not_a_date :
  ReportVisualization.hasYearAccessor foreignDate = true /\
  _addFieldsFromRecord visitRecord [] =
    Ok [ {| name := "when"; type := TString; label := "When" |};
         {| name := "visits"; type := TNumber; label := "Visits" |} ] /\
  fieldTypeOf foreignDate <> TDate.
Proof. repeat split. discriminate. Qed.

(** ** Confirmation *)

Lemma jsonCopy_object_field (l : loc) (props : list (string * value))
    (k : string) (x : value) (j : json) :
  lookup k props = Some x -> jsonCopy x = Some j ->
  jsonField k (copyOf (VObj l props)) = Some j.
Proof.
  intros Hx Hj. unfold copyOf. cbn [jsonCopy jsonField].
  set (copied := (fix copy (ps : list (string * value)) : list (string * json) :=
                    match ps with
                    | [] => []
                    | (k, x) :: r =>
                        match jsonCopy x with
                        | Some j => (k, j) :: copy r
                        | None => copy r
                        end
                    end) props).
  assert (Hc : lookup k copied = Some j).
  { subst copied. induction props as [|[k' y] props IH]; [discriminate|].
    cbn in Hx. destruct (String.eqb k k') eqn:E.
    - injection Hx as ->. rewrite Hj. cbn. now rewrite E.
    - destruct (jsonCopy y); cbn; rewrite ?E; auto. }
  assert (Hin : In k (keysOf copied)).
  { apply keysOf_In, lookup_In. congruence. }
  unfold field. induction (keysOf copied) as [|k' ks IH]; [destruct Hin|].
  cbn. destruct (String.eqb_spec k k') as [<-|N].
  - now rewrite Hc.
  - destruct Hin as [E|Hin]; [congruence | auto].
Qed.

(** C10, as the code has it: a confirmation that passes validation, in
    a dialog that was given an [onConfirm] callback, writes the chart
    definition into the caller's own search-result object (the one passed
    as the [searchResults] prop) and changes nothing else in the store;
    the copy taken for the report bundle is taken after that, so it
    carries the chart definition too. *)
Theorem confirm_mutates_caller_payload (props : Props) (st : State)
    (s : Store) (l : loc) :
  searchResults props = Some l ->
  hasOnConfirm props = true ->
  snd (validateInputs (queryText props) st) = true ->
  ChartDefinitionAttached st s (store (onConfirm props st s)) l /\
  (forall rd, sent (onConfirm props st s) = Some rd ->
              rd_data rd = copyOf (VObj l (store (onConfirm props st s) l)) /\
              jsonField "chartDefinition" (rd_data rd) <> None).
Proof.
  intros Hl Hcb Hvalid. unfold onConfirm.
  destruct (validateInputs (queryText props) st) as [st0 valid] eqn:Hv.
  cbn in Hvalid. subst valid. cbn [negb]. rewrite Hcb, Hl. cbn [negb].
  assert (Hst0 : dimensionField st0 = dimensionField st /\
                 measureField st0 = measureField st /\
                 aggregationType st0 = aggregationType st).
  { unfold validateInputs in Hv.
    repeat match type of Hv with
           | (if ?c then _ else _) = _ => destruct c; [discriminate|]
           end.
    injection Hv as <-. cbn. auto. }
  destruct Hst0 as (Hd & Hm & Ha).
  set (st2 := if stackedBar _ then _ else _).
  assert (Hst2 : dimensionField st2 = dimensionField st /\
                 measureField st2 = measureField st /\
                 aggregationType st2 = aggregationType st).
  { subst st2. destruct (stackedBar _); cbn; auto. }
  destruct Hst2 as (Hd2 & Hm2 & Ha2).
  set (s' := write l "chartDefinition" (chartDefinitionOf st2) s).
  assert (Hattached : ChartDefinitionAttached st s s' l).
  { unfold ChartDefinitionAttached, s', write. rewrite Nat.eqb_refl.
    split; [|split].
    - exists (chartDefinitionOf st2). split; [apply lookup_setProp_same|].
      cbn. unfold field. cbn. rewrite Hd2, Hm2, Ha2. auto.
    - intros k Hk. now apply lookup_setProp_other.
    - intros l' Hl'. apply Nat.eqb_neq in Hl'. now rewrite Hl'. }
  assert (Hcopy : jsonField "chartDefinition" (copyOf (VObj l (s' l))) <> None).
  { erewrite jsonCopy_object_field; [discriminate | |].
    - unfold s', write. rewrite Nat.eqb_refl. apply lookup_setProp_same.
    - reflexivity. }
  destruct (String.eqb (Str.trim (reportName st0)) "" ||
            String.eqb (if String.eqb (queryText props) "" then ""
                        else Str.trim (queryText props)) "");
    cbn [store sent]; (split; [exact Hattached|]).
  - discriminate.
  - intros rd Hrd. injection Hrd as <-. cbn [rd_data]. auto.
Qed.

Lemma confirm_mutates_caller_payload_witness :
  ChartDefinitionAttached stackedDialog pageStore
    (store (onConfirm dialogProps stackedDialog pageStore)) 10 /\
  (forall rd, sent (onConfirm dialogProps stackedDialog pageStore) = Some rd ->
              rd_data rd =
                copyOf (VObj 10 (store (onConfirm dialogProps stackedDialog pageStore) 10)) /\
              jsonField "chartDefinition" (rd_data rd) <> None).
Proof.
  apply (confirm_mutates_caller_payload dialogProps stackedDialog pageStore 10);
    reflexivity.
Defined.

(** C10, as stated for every confirmation that passes validation,
    fails: without an [onConfirm] callback the handler does nothing, and
    the caller's object is left without a chart definition. *)
Lemma confirm_without_callback_leaves_payload :
  snd (validateInputs (queryText dialogPropsWithoutCallback) stackedDialog) = true /\
  lookup "chartDefinition"
    (store (onConfirm dialogPropsWithoutCallback stackedDialog pageStore) 10) = None /\
  sent (onConfirm dialogPropsWithoutCallback stackedDialog pageStore) = None.
Proof. repeat split. Qed.

End DialogProperties.

(** * Properties of the report visualization *)

Module VisualizationProperties.

Import ReportVisualization Spec Examples Notions JSFacts.

(** ** The aggregator *)

(** C1 at a record list with one value that does not parse: the code
    counts the text ["abc"] as a 0 among the values and answers
    [(0 + 4) / 2 = 2], where the average of the parseable values is
    [4 / 1 = 4]. *)
Theorem average_counts_unparseable_values :
  _aggregateValues mixedRecords (VStr "x") (VStr "average") = Ok 2%float /\
  averageOfParseable mixedRecords (VStr "x") = Ok 4%float.
Proof. split; vm_compute; reflexivity. Qed.

(** ** The terminal fallback *)

Lemma sample_is_sample (env : Env) (vt : value) : IsSample (getSampleData env vt).
Proof.
  unfold getSampleData, IsSample.
  destruct (strictEq vt (VStr "pie")); eexists; split; reflexivity.
Qed.

Lemma orElse_none {A : Type} (rest : result A) : orElse (Ok None) rest = rest.
Proof. reflexivity. Qed.

Lemma aggregation_rule_without_records (vt : value) (l : loc)
    (props : list (string * value)) :
  truthy (field VUndefined "records" props) = false ->
  aggregationRule vt (VObj l props) = Ok None.
Proof.
  intros Hr. unfold aggregationRule. (cbn [get isNullish read bind]; fixed).
  rewrite Hr, !andb_false_r.
  now destruct (strictEq (field VUndefined "aggregation" props) (VBool true)).
Qed.

Lemma multi_model_rule_not_multi (env : Env) (vt : value) (l : loc)
    (props : list (string * value)) :
  strictEq (field VUndefined "multi_model" props) (VBool true) = false ->
  multiModelRule env vt (VObj l props) = Ok None.
Proof.
  intros Hm. unfold multiModelRule. (cbn [get isNullish read bind]; fixed).
  now rewrite Hm.
Qed.

(** A data object without [graphData] and [data] is itself the search
    results. *)
Lemma getChartData_object (env : Env) (report : Report) (l : loc)
    (props : list (string * value)) :
  data report = VObj l props ->
  truthy (field VUndefined "graphData" props) = false ->
  truthy (field VUndefined "data" props) = false ->
  getChartData env report =
    chartDataFrom env (visualization_type report) (readConfig env report)
                  (VObj l props).
Proof.
  intros Hdata Hg Hn. unfold getChartData, readData. rewrite Hdata.
  (cbn [truthy get isNullish read bind]; fixed). unfold or. now rewrite Hg, Hn.
Qed.


(** The chart-definition rule tests the dimension field only: a chart
    definition that names a dimension but no measure raises a [TypeError]
    where the label of the measure is formatted. *)
Lemma missing_measure_raises :
  getChartData browser withoutMeasure = Throw TypeError.
Proof. vm_compute. reflexivity. Qed.

(** ** Records that can be read *)

Lemma readable_filter (p : value -> bool) (rs : list value) :
  readable rs -> readable (filter p rs).
Proof.
  unfold readable. rewrite !Forall_forall. intros H r Hr.
  apply filter_In in Hr. now apply H.
Qed.

Lemma read_all (rs : list value) (k : value) :
  readable rs ->
  mapM (fun r => getAt r k) rs = Ok (map (fun r => read r (toStr k)) rs).
Proof.
  intros Hrs. apply mapM_ok. eapply Forall_impl; [|exact Hrs].
  intros r Hr. now apply get_ok.
Qed.

Lemma matches_all (dimensionField seriesField dimValue seriesValue : value)
    (rs : list value) :
  readable rs ->
  filterM (matches dimensionField seriesField dimValue seriesValue) rs =
    Ok (matching (toStr dimensionField) (toStr seriesField) dimValue seriesValue rs).
Proof.
  intros Hrs. apply filterM_ok. eapply Forall_impl; [|exact Hrs].
  intros r Hr. unfold matches, getAt. rewrite !(get_ok _ _ Hr). cbn [bind].
  now destruct (looseEq (read r (toStr dimensionField)) dimValue).
Qed.

(** ** The texts and numbers of field values *)

Lemma objects_readable (rs : list value) : objects rs -> readable rs.
Proof.
  apply Forall_impl. intros r (l & props & ->). reflexivity.
Qed.

Lemma displayLabel_shown (v : value) : displayLabel v = shown v.
Proof. now destruct v. Qed.

Lemma plainLabel_printed (v : value) : plainLabel v = printed v.
Proof. now destruct v. Qed.

Lemma orZero_parsed (v : value) : orZero (parseFloat v) = parsedOrZero v.
Proof.
  unfold orZero, parsedOrZero.
  destruct (is_nan (parseFloat v)), (is_zero (parseFloat v)); reflexivity.
Qed.

Lemma numericValue_measureOf (v : value) : numericValue v = measureOf v.
Proof.
  destruct v as [| | b | x | s | l [|first rest] | l props | l time text iso | l text];
    cbn [numericValue measureOf]; try reflexivity; apply orZero_parsed.
Qed.

Lemma sum_total (xs : list Num.number) : sum xs = total xs.
Proof.
  unfold sum, total. generalize zero as acc.
  induction xs as [|x xs IH]; intros acc; cbn; [reflexivity | apply IH].
Qed.

Lemma mathMin_lesser (xs : list Num.number) (a : Num.number) :
  Forall (fun x => is_nan x = false) xs ->
  mathMin a xs = fold_left lesser xs a.
Proof.
  intros H. revert a. induction H as [|x xs Hx _ IH]; intros a; [reflexivity|].
  cbn [mathMin fold_left]. rewrite Hx, IH. f_equal.
  unfold lesser, isNegZero, isPosZero.
  destruct (x <? a)%float, (is_zero x), (get_sign x), (is_zero a), (get_sign a);
    reflexivity.
Qed.

Lemma mathMax_greater (xs : list Num.number) (a : Num.number) :
  Forall (fun x => is_nan x = false) xs ->
  mathMax a xs = fold_left greater xs a.
Proof.
  intros H. revert a. induction H as [|x xs Hx _ IH]; intros a; [reflexivity|].
  cbn [mathMax fold_left]. rewrite Hx, IH. f_equal.
  unfold greater, isNegZero, isPosZero.
  destruct (a <? x)%float, (is_zero x), (get_sign x), (is_zero a), (get_sign a);
    reflexivity.
Qed.

Lemma kind_named (kind : value) (name : string) :
  strictEq kind (VStr name) = named name kind.
Proof. now destruct kind. Qed.

Lemma filter_not_nan (xs : list Num.number) :
  Forall (fun x => is_nan x = false) (filter (fun x => negb (is_nan x)) xs).
Proof.
  apply Forall_forall. intros x Hx. apply filter_In in Hx.
  destruct Hx as [_ Hx]. now apply negb_true_iff in Hx.
Qed.

(** The aggregator computes the aggregation of the specification, with
    the value 0 for what does not parse. *)
Lemma aggregate_as_specified (rs : list value) (field kind : value) :
  readable rs ->
  _aggregateValues rs field kind =
    Ok (aggregation kind (map (fun r => read r (toStr field)) rs)).
Proof.
  intros Hrs. unfold _aggregateValues, aggregation.
  destruct rs as [|first rest]; [reflexivity|].
  cbn [map]. rewrite !kind_named.
  destruct (named "none" kind).
  - inversion Hrs; subst. unfold getAt. rewrite get_ok by assumption.
    cbn [bind]. now rewrite numericValue_measureOf.
  - destruct (named "count" kind).
    + cbn [List.length]. now rewrite length_map.
    + rewrite (mapM_ok _ (fun record => measureOf (read record (toStr field)))).
      2:{ eapply Forall_impl; [|exact Hrs]. intros r Hr. unfold getAt.
          rewrite get_ok by assumption. cbn [bind].
          now rewrite numericValue_measureOf. }
      cbn [bind]. unfold isNaN.
      change (measureOf (read first (toStr field)) ::
              map measureOf (map (fun r => read r (toStr field)) rest))
        with (map measureOf (map (fun r => read r (toStr field)) (first :: rest))).
      rewrite map_map.
      set (numbers := filter _ _).
      assert (Hnumbers : Forall (fun x => is_nan x = false) numbers)
        by apply filter_not_nan.
      destruct numbers as [|x xs] eqn:E; [reflexivity|].
      rewrite <- E in *. clear E.
      rewrite sum_total, (mathMin_lesser _ _ Hnumbers),
        (mathMax_greater _ _ Hnumbers).
      cbn [List.length]. rewrite length_map.
      repeat match goal with
             | |- context [if ?c then _ else _] => destruct c; [reflexivity|]
             end.
      reflexivity.
Qed.

(** The sum of the legacy rule. *)
Lemma legacySum_as_specified (measureField : value) (rs : list value) :
  readable rs ->
  legacySum measureField rs =
    Ok (total (map (fun r => summand (read r (toStr measureField))) rs)).
Proof.
  unfold legacySum, total. generalize zero as acc.
  induction rs as [|r rs IH]; intros acc Hrs; [reflexivity|].
  inversion Hrs; subst. cbn [foldM map totalFrom]. unfold getAt.
  rewrite get_ok by assumption. cbn [bind].
  rewrite IH by assumption. do 2 f_equal.
  destruct (read r (toStr measureField)); cbn [summand];
    try reflexivity; now rewrite orZero_parsed.
Qed.

(** ** Stacked charts *)

Lemma map_with_index {A B : Type} (h : A -> B) (xs : list A) (n : nat) :
  map (fun '(x, _) => h x) (combine xs (seq n (List.length xs))) = map h xs.
Proof.
  revert n. induction xs as [|x xs IH]; intros n; [reflexivity|].
  cbn. now rewrite IH.
Qed.

Lemma stackedChart_stacked (lr : loc) (rs : list value)
    (dimensionField seriesField : value)
    (point : list value -> result Num.number)
    (spec : list value -> Num.number) :
  readable rs ->
  (forall ms, readable ms -> point ms = Ok (spec ms)) ->
  Stacked rs (toStr dimensionField) (toStr seriesField) spec
    (stackedChart (VArr lr rs) dimensionField seriesField point).
Proof.
  intros Hrs Hpoint. unfold stackedChart. cbn [arrayFor bind].
  rewrite !read_all by assumption. cbn [bind].
  set (dimensionValues := setOf (map (fun r => read r (toStr dimensionField)) rs)).
  set (seriesValues := setOf (map (fun r => read r (toStr seriesField)) rs)).
  set (pts := fun seriesValue =>
         map (fun dimValue =>
                VNum (pointOver spec
                        (matching (toStr dimensionField) (toStr seriesField)
                                  dimValue seriesValue rs)))
             dimensionValues).
  rewrite (mapM_ok _
    (fun '(seriesValue, index) =>
       {| label := VStr (seriesName seriesValue index);
          points := NewArray (pts seriesValue);
          backgroundColor := OneColor (getColor index);
          borderColor := replaceFirst "0.8" "1" (getColor index);
          borderWidth := 1;
          fill := None;
          tension := None |})).
  2:{ apply Forall_forall. intros [seriesValue index] _.
      rewrite (mapM_ok _
        (fun dimValue =>
           VNum (pointOver spec
                   (matching (toStr dimensionField) (toStr seriesField)
                             dimValue seriesValue rs)))).
      - cbn [bind]. unfold seriesName. now destruct (truthy seriesValue).
      - apply Forall_forall. intros dimValue _.
        rewrite matches_all by assumption. cbn [bind]. unfold pointOver.
        destruct (matching _ _ dimValue seriesValue rs) as [|m ms] eqn:Hm;
          [reflexivity|].
        rewrite Hpoint; [reflexivity|].
        rewrite <- Hm. now apply readable_filter. }
  cbn [bind].
  rewrite (map_ext (fun v => VStr (displayLabel v)) (fun v => VStr (shown v)))
    by (intros v; now rewrite displayLabel_shown).
  exists dimensionValues, seriesValues. eexists.
  split; [apply setOf_distinct|]. split; [apply setOf_distinct|].
  split; [reflexivity|]. rewrite !map_map. split.
  - apply map_ext. now intros [v i].
  - etransitivity;
      [|exact (map_with_index (fun seriesValue => NewArray (pts seriesValue))
                              seriesValues 0)].
    apply map_ext. now intros [v i].
Qed.

Lemma hasElements_array (lr : loc) (rs : list value) :
  rs <> [] -> hasElements (VArr lr rs) = Ok true.
Proof. destruct rs; [congruence | reflexivity]. Qed.

Lemma chartDataFrom_definition (env : Env) (vt cfg : value) (l lc : loc)
    (props cd : list (string * value)) :
  OwnResults props ->
  field VUndefined "chartDefinition" props = VObj lc cd ->
  chartDataFrom env vt cfg (VObj l props) =
    orElse (chartDefinitionRule vt cfg (VObj l props) (VObj lc cd))
   (orElse (aggregationRule vt (VObj l props))
   (orElse (multiModelRule env vt (VObj l props))
   (orElse (plainRecordsRule vt (VObj l props))
           (Ok (getSampleData env vt))))).
Proof.
  intros (_ & _ & Hp) Hcd. unfold chartDataFrom.
  (cbn [get isNullish read bind]; fixed). rewrite Hp, Hcd. cbn [truthy].
  unfold legacyConfigRule. cbn [truthy]. now rewrite orElse_none.
Qed.




(** ** The legacy field selection *)

Lemma chartDataFrom_legacy (env : Env) (vt cfg : value) (l : loc)
    (props : list (string * value)) :
  OwnResults props ->
  truthy (field VUndefined "chartDefinition" props) = false ->
  chartDataFrom env vt cfg (VObj l props) =
    orElse (legacyConfigRule vt cfg (VObj l props)
                             (field VUndefined "chartDefinition" props))
   (orElse (aggregationRule vt (VObj l props))
   (orElse (multiModelRule env vt (VObj l props))
   (orElse (plainRecordsRule vt (VObj l props))
           (Ok (getSampleData env vt))))).
Proof.
  intros (_ & _ & Hp) Hcd. unfold chartDataFrom.
  (cbn [get isNullish read bind]; fixed). rewrite Hp, Hcd. now rewrite orElse_none.
Qed.

Lemma per_record_values {B : Type} (f : value -> B) (k : value) (rs : list value) :
  readable rs ->
  mapM (fun record => let* value := getAt record k in Ok (f value)) rs =
    Ok (map (fun r => f (read r (toStr k))) rs).
Proof.
  intros Hrs. apply mapM_ok. eapply Forall_impl; [|exact Hrs].
  intros r Hr. unfold getAt. now rewrite get_ok.
Qed.

Lemma legacy_per_record (vt : value) (lr : loc) (rs : list value)
    (d : value) (m : string) (rest : result ChartData) :
  readable rs ->
  PerRecord rs (toStr d) m
    (orElse
       (let* rs := arrayFor "map" (VArr lr rs) in
        let* labels := mapM (fun record =>
                               let* value := getAt record d in
                               Ok (VStr (plainLabel value))) rs in
        let* values := mapM (fun record =>
                               let* value := getAt record (VStr m) in
                               Ok (VNum (numericValue value))) rs in
        let* name := fieldLabel (VStr m) in
        Ok (Some (singleDataset vt labels name values)))
       rest).
Proof.
  intros Hrs. cbn [arrayFor bind]. rewrite !per_record_values by assumption.
  cbn [bind fieldLabel stringFor orElse toStr]. unfold singleDataset.
  rewrite (map_ext (fun r => VStr (plainLabel (read r (toStr d))))
                   (fun r => VStr (printed (read r (toStr d)))))
    by (intros r; now rewrite plainLabel_printed).
  rewrite (map_ext (fun r => VNum (numericValue (read r m)))
                   (fun r => VNum (measureOf (read r m))))
    by (intros r; now rewrite numericValue_measureOf).
  eexists. split; [reflexivity|]. split; reflexivity.
Qed.




(** ** Date portions *)

Lemma before_upTo (c : ascii) (s : string) :
  Str.before c s = upTo (fun d => Ascii.eqb d c) s.
Proof.
  induction s as [|d s IH]; [reflexivity|]. cbn. now rewrite IH.
Qed.

Lemma upTo_ext (p q : ascii -> bool) (s : string) :
  (forall c, p c = q c) -> upTo p s = upTo q s.
Proof.
  intros H. induction s as [|d s IH]; [reflexivity|]. cbn. now rewrite H, IH.
Qed.

Lemma upTo_upTo (p q : ascii -> bool) (s : string) :
  upTo p (upTo q s) = upTo (fun c => q c || p c) s.
Proof.
  induction s as [|d s IH]; [reflexivity|]. cbn.
  destruct (q d); cbn; [reflexivity|]. destruct (p d); [reflexivity|].
  now rewrite IH.
Qed.

Lemma text_date_part (s : string) :
  Str.before " " (Str.before "T" s) = upTo timeStart s.
Proof. rewrite !before_upTo, upTo_upTo. reflexivity. Qed.

Lemma object_date_part (t : string) :
  Str.before "T" t = upTo (Ascii.eqb "T") t.
Proof. rewrite before_upTo. apply upTo_ext. intros c. apply Ascii.eqb_sym. Qed.

Lemma digit_is_no_separator (c : ascii) :
  Str.isDigit c = true -> Ascii.eqb c "T" = false /\ Ascii.eqb c " " = false.
Proof.
  intros H. split.
  - destruct (Ascii.eqb_spec c "T") as [->|]; [discriminate | reflexivity].
  - destruct (Ascii.eqb_spec c " ") as [->|]; [discriminate | reflexivity].
Qed.

(** No member of [Object.prototype] has a name that starts with a
    digit. *)
Lemma digit_name_not_inherited (c : ascii) (r : string) :
  Str.isDigit c = true -> inherited (String c r) = VUndefined.
Proof.
  destruct c as [b0 b1 b2 b3 b4 b5 b6 b7].
  destruct b0, b1, b2, b3, b4, b5, b6, b7; intros H;
    try discriminate H; reflexivity.
Qed.

Lemma iso_starts_with_digit (s : string) :
  Str.isoDatePrefix s = true ->
  exists c r, s = String c r /\ Str.isDigit c = true.
Proof.
  destruct s as [|c s]; [discriminate|]. intros H. exists c, s.
  split; [reflexivity|]. unfold Str.isoDatePrefix in H.
  repeat (destruct s as [|? s]; [discriminate|]).
  rewrite !andb_true_iff in H. tauto.
Qed.

(** The date part the builder takes of a date value is its bucket, and
    no bucket is the name of an inherited member. *)
Lemma datable_part (v : value) :
  Datable v ->
  exists part,
    datePart v = Ok part /\
    dateOf v = (if truthy part then Some (toStr part) else None) /\
    (truthy part = true -> inherited (toStr part) = VUndefined).
Proof.
  intros [s Hs | l time text t Ht | w Hw].
  - destruct (iso_starts_with_digit s Hs) as (c & r & -> & Hc).
    destruct (digit_is_no_separator c Hc) as [HT HS].
    assert (Hstart : timeStart c = false)
      by (unfold timeStart; now rewrite HT, HS).
    cbn [datePart]. rewrite text_date_part. eexists. split; [reflexivity|].
    cbn [dateOf upTo]. rewrite !Hstart.
    cbn [truthy toStr String.eqb negb]. split; [reflexivity|].
    intros _. now apply digit_name_not_inherited.
  - destruct (iso_starts_with_digit t Ht) as (c & r & -> & Hc).
    destruct (digit_is_no_separator c Hc) as [HT _].
    cbn [datePart]. rewrite object_date_part. eexists. split; [reflexivity|].
    cbn [dateOf upTo]. rewrite (Ascii.eqb_sym "T" c), HT.
    cbn [truthy toStr String.eqb negb]. split; [reflexivity|].
    intros _. now apply digit_name_not_inherited.
  - destruct Hw as [-> | [-> | ->]]; eexists; (split; [reflexivity|]);
      split; try reflexivity; discriminate.
Qed.

(** ** Counting by date *)

Lemma setProp_again {A : Type} (k : string) (x y : A) (ps : list (string * A)) :
  setProp k x (setProp k y ps) = setProp k x ps.
Proof.
  induction ps as [|[k' z] ps IH]; cbn.
  - now rewrite String.eqb_refl.
  - destruct (String.eqb k k') eqn:E; cbn.
    + now rewrite String.eqb_refl.
    + now rewrite E, IH.
Qed.

Lemma plain_key (k : string) :
  inherited k = VUndefined -> String.eqb k "__proto__" = false.
Proof.
  unfold inherited. destruct (String.eqb k "__proto__"); [discriminate | reflexivity].
Qed.

(** Under a key that is no inherited member, an object that holds counts
    counts one up. *)
Lemma countUp_plain (counts : list (string * tally)) (v : value) :
  truthy v = true ->
  inherited (toStr v) = VUndefined ->
  PositiveCounts counts ->
  countUp counts v =
    setProp (toStr v) (Counted (S (countOf (toStr v) counts))) counts.
Proof.
  intros Hv Hk Hcounts. unfold countUp, countOf, assign. rewrite Hv, Hk.
  rewrite (plain_key _ Hk). cbn [truthy].
  destruct (lookup (toStr v) counts) as [t|] eqn:E.
  - destruct (Hcounts _ _ E) as (n & ->). now rewrite E.
  - rewrite lookup_setProp_same. apply setProp_again.
Qed.

Lemma countUp_skip (counts : list (string * tally)) (v : value) :
  truthy v = false -> countUp counts v = counts.
Proof. intros Hv. unfold countUp. now rewrite Hv. Qed.

Lemma positive_setProp (counts : list (string * tally)) (k : string) (n : nat) :
  PositiveCounts counts -> PositiveCounts (setProp k (Counted (S n)) counts).
Proof.
  intros H d t. destruct (String.eqb_spec d k) as [->|N].
  - rewrite lookup_setProp_same. intros [= <-]. eauto.
  - rewrite lookup_setProp_other by assumption. apply H.
Qed.

Lemma countOf_setProp (counts : list (string * tally)) (k d : string) (n : nat) :
  countOf d (setProp k (Counted n) counts) =
    if String.eqb k d then n else countOf d counts.
Proof.
  unfold countOf. destruct (String.eqb_spec k d) as [->|N].
  - now rewrite lookup_setProp_same.
  - now rewrite lookup_setProp_other by congruence.
Qed.

Lemma NoDup_snoc {A : Type} (l : list A) (x : A) :
  NoDup l -> ~ In x l -> NoDup (l ++ [x]).
Proof.
  intros Hl Hx. apply NoDup_app; [assumption | repeat constructor; auto |].
  intros y Hy [<-|[]]. contradiction.
Qed.

Lemma keys_setProp_new {A : Type} (k : string) (x : A) (ps : list (string * A)) :
  NoDup (map fst ps) ->
  NoDup (map fst (setProp k x ps)) /\
  (forall d, In d (map fst (setProp k x ps)) <-> In d (map fst ps) \/ d = k).
Proof.
  intros Hnd. rewrite keys_setProp.
  destruct (existsb (String.eqb k) (map fst ps)) eqn:E.
  - split; [assumption|]. intros d. split; [auto|].
    intros [H| ->]; [assumption|].
    apply existsb_exists in E. destruct E as (k' & Hk' & Ek).
    apply String.eqb_eq in Ek. now subst k'.
  - split.
    + apply NoDup_snoc; [assumption|]. intros Hin.
      assert (existsb (String.eqb k) (map fst ps) = true); [|congruence].
      apply existsb_exists. exists k. split; [assumption | apply String.eqb_refl].
    + intros d. rewrite in_app_iff. cbn. intuition.
Qed.

Lemma countByDate_from (dateField : string) (rs : list value)
    (acc : list (string * tally)) :
  readable rs ->
  Forall (fun r => Datable (read r dateField)) rs ->
  NoDup (map fst acc) ->
  PositiveCounts acc ->
  exists counts,
    foldM (fun dateCounts record =>
             let* dateValue := get record dateField in
             let* part := datePart dateValue in
             Ok (countUp dateCounts part)) rs acc = Ok counts /\
    NoDup (map fst counts) /\
    PositiveCounts counts /\
    (forall d, In d (map fst counts) <->
               In d (map fst acc) \/
               exists r, In r rs /\ dateOf (read r dateField) = Some d) /\
    (forall d, countOf d counts = countOf d acc + bucketCount dateField rs d).
Proof.
  intros Hrs Hdated. revert acc.
  induction Hdated as [|r rs Hdate _ IH]; intros acc Hacc Hpos; cbn [foldM].
  - exists acc. split; [reflexivity|]. split; [assumption|].
    split; [assumption|]. split.
    + intros d. split; [auto | intros [H|(r & [] & _)]; exact H].
    + intros d. unfold bucketCount. cbn. lia.
  - inversion Hrs as [|? ? Hr Hrs']; subst.
    rewrite (get_ok _ _ Hr). cbn [bind].
    destruct (datable_part _ Hdate) as (part & Hpart & Hbucket & Hplain).
    rewrite Hpart. cbn [bind].
    destruct (truthy part) eqn:Hp.
    + rewrite (countUp_plain acc part Hp (Hplain eq_refl) Hpos).
      set (k := toStr part) in *.
      destruct (keys_setProp_new k (Counted (S (countOf k acc))) acc Hacc)
        as (Hnd & Hkeys').
      destruct (IH Hrs' _ Hnd (positive_setProp acc k _ Hpos))
        as (counts & Hfold & Hnodup & Hpositive & Hkeys & Hcount).
      exists counts. split; [exact Hfold|]. split; [exact Hnodup|].
      split; [exact Hpositive|]. split.
      * intros d. rewrite Hkeys, Hkeys'. split.
        -- intros [[H| ->]|(r' & Hr' & Hb)]; auto.
           ++ right. exists r. split; [now left | exact Hbucket].
           ++ right. exists r'. split; [now right | exact Hb].
        -- intros [H|(r' & [<-|Hr'] & Hb)]; auto.
           ++ left. right. rewrite Hbucket in Hb. now injection Hb as <-.
           ++ right. eauto.
      * intros d. rewrite Hcount, countOf_setProp. unfold bucketCount.
        cbn [filter]. unfold inBucket at 2. rewrite Hbucket.
        destruct (String.eqb_spec k d) as [->|N]; cbn [List.length]; lia.
    + rewrite (countUp_skip acc part Hp).
      destruct (IH Hrs' acc Hacc Hpos)
        as (counts & Hfold & Hnodup & Hpositive & Hkeys & Hcount).
      exists counts. split; [exact Hfold|]. split; [exact Hnodup|].
      split; [exact Hpositive|]. split.
      * intros d. rewrite Hkeys. split.
        -- intros [H|(r' & Hr' & Hb)]; auto. right. exists r'. split; [now right|auto].
        -- intros [H|(r' & [<-|Hr'] & Hb)]; auto.
           ++ rewrite Hbucket in Hb. discriminate.
           ++ right. eauto.
      * intros d. rewrite Hcount. unfold bucketCount. cbn [filter].
        unfold inBucket at 2. now rewrite Hbucket.
Qed.

Lemma countByDate_spec (dateField : string) (rs : list value) :
  readable rs ->
  Forall (fun r => Datable (read r dateField)) rs ->
  exists counts,
    countByDate dateField rs = Ok counts /\
    NoDup (map fst counts) /\
    (forall d, In d (map fst counts) <->
               exists r, In r rs /\ dateOf (read r dateField) = Some d) /\
    (forall d, In d (map fst counts) ->
               field Uncounted d counts = Counted (bucketCount dateField rs d)).
Proof.
  intros Hrs Hdated.
  destruct (countByDate_from dateField rs [] Hrs Hdated)
    as (counts & H1 & H2 & Hpos & H3 & H4);
    [constructor | intros d t; discriminate |].
  exists counts. split; [exact H1|]. split; [exact H2|]. split.
  - intros d. rewrite H3. cbn. tauto.
  - intros d Hd. specialize (H4 d). unfold countOf in H4. cbn in H4.
    apply lookup_In in Hd. unfold field.
    destruct (lookup d counts) as [t|] eqn:E; [|congruence].
    destruct (Hpos _ _ E) as (n & ->). now rewrite H4.
Qed.

Lemma date_buckets_of_counts (vt : value) (dateField datasetLabel : string)
    (rs : list value) (counts : list (string * tally)) :
  NoDup (map fst counts) ->
  (forall d, In d (map fst counts) <->
             exists r, In r rs /\ dateOf (read r dateField) = Some d) ->
  (forall d, In d (map fst counts) ->
             field Uncounted d counts = Counted (bucketCount dateField rs d)) ->
  DateBuckets rs dateField datasetLabel
    (Ok (singleDataset vt (map VStr (sortStrings (keysOf counts)))
           (VStr datasetLabel) (countsFor counts (sortStrings (keysOf counts))))).
Proof.
  intros Hnodup Hkeys Hfield.
  assert (Hperm : Permutation (sortStrings (keysOf counts)) (map fst counts)).
  { unfold sortStrings. rewrite sortBy_perm. apply keysOf_perm. }
  exists (sortStrings (keysOf counts)). eexists.
  split; [reflexivity|]. cbn [label points].
  split; [reflexivity|]. split.
  { unfold countsFor. f_equal. apply map_ext_in. intros d Hd.
    rewrite Hfield; [reflexivity|]. eapply Permutation_in; eassumption. }
  split; [apply sortStrings_sorted|]. split.
  { eapply Permutation_NoDup; [symmetry; exact Hperm | exact Hnodup]. }
  intros d. rewrite <- Hkeys. split; apply Permutation_in;
    [exact Hperm | symmetry; exact Hperm].
Qed.

(** ** The date rule for multi-model results *)

Lemma answersYear_iff (v : value) : hasYearAccessor v = true <-> answersYear v.
Proof.
  unfold hasYearAccessor, answersYear. split.
  - destruct v as [| | | | | | l props | |]; try discriminate.
    destruct (lookup "getFullYear" props) as [[| | | | | | | | lf text]|] eqn:E;
      try discriminate.
    intros _. exists l, props, lf, text. auto.
  - intros (l & props & lf & text & -> & H). now rewrite H.
Qed.

Lemma looksLikeDate_iff (v : value) : looksLikeDate v = true <-> DateShaped v.
Proof.
  unfold looksLikeDate, DateShaped.
  rewrite !orb_true_iff, answersYear_iff. tauto.
Qed.

Lemma technical_iff (field : string) :
  ReportVisualization.isTechnical field = true <-> Technical field.
Proof. exact (DialogProperties.isTechnical_iff field). Qed.

Lemma recordCount_size (m : value) : recordCount m = size m.
Proof.
  unfold recordCount, size, get. destruct (isNullish m) eqn:E; [|reflexivity].
  destruct m; try discriminate; reflexivity.
Qed.

Lemma primary_model (models : list value) (primary : value) :
  Primary models primary ->
  FirstWith (fun y => forall z, In z models -> recordCount z <= recordCount y)
            models primary.
Proof.
  apply FirstWith_impl. intros m. split; intros H m' Hm'.
  - rewrite !recordCount_size. now apply H.
  - rewrite <- !recordCount_size. now apply H.
Qed.

(** A field the loop over a record finds is the record's own. *)
Lemma field_of_record (l : loc) (props : list (string * value)) (k : string)
    (v : value) :
  In (k, v) (fieldsOf (VObj l props)) -> read (VObj l props) k = v.
Proof.
  unfold fieldsOf. cbn [entries]. intros Hin.
  apply in_map_iff in Hin. destruct Hin as (k' & [= -> <-] & Hk).
  apply keysOf_In, lookup_In in Hk. cbn [read]. unfold field.
  destruct (lookup k props); [reflexivity | congruence].
Qed.

Lemma date_field_found (first : value) (dateField : string) (v : value) :
  FirstWith (fun e => ~ Technical (fst e) /\ DateShaped (snd e))
            (fieldsOf first) (dateField, v) ->
  find (fun '(field, value) =>
          negb (ReportVisualization.isTechnical field) && looksLikeDate value)
       (forInEntries first) = Some (dateField, v).
Proof.
  intros Hfirst. apply FirstWith_find.
  change (forInEntries first) with (fieldsOf first).
  eapply FirstWith_impl; [|exact Hfirst].
  intros [k x]. cbn [fst snd].
  rewrite andb_true_iff, negb_true_iff, looksLikeDate_iff, <- technical_iff.
  destruct (ReportVisualization.isTechnical k); intuition congruence.
Qed.

(** A date-shaped value the buckets are stated for has a bucket. *)
Lemma date_shaped_bucket (v : value) :
  DateShaped v -> Datable v -> exists d, dateOf v = Some d.
Proof.
  intros Hshape Hdate.
  destruct (datable_part v Hdate) as (part & Hpart & Hbucket & _).
  destruct Hdate as [s Hs | l time text t Ht | w Hw].
  - destruct (iso_starts_with_digit s Hs) as (c & r & -> & Hc).
    destruct (digit_is_no_separator c Hc) as [HT HS].
    cbn [dateOf upTo]. unfold timeStart at 1. rewrite HT, HS. cbn. eauto.
  - destruct (iso_starts_with_digit t Ht) as (c & r & -> & Hc).
    destruct (digit_is_no_separator c Hc) as [HT _].
    cbn [dateOf upTo]. rewrite (Ascii.eqb_sym "T" c), HT. eauto.
  - exfalso. destruct Hshape as [H|[H|(l & props & lf & text & H & _)]];
      destruct Hw as [-> | [-> | ->]]; discriminate.
Qed.

Lemma findM_none (f : value -> result bool) (l : list value) :
  Forall (fun x => f x = Ok false) l -> findM f l = Ok VUndefined.
Proof.
  induction 1 as [|x l Hx _ IH]; cbn; [reflexivity|]. now rewrite Hx.
Qed.

Lemma legacy_rule_not_selected (vt cfg sr cd : value) :
  isNullish cfg = false ->
  truthy (read cfg "dimensionField") && truthy (read cfg "measureField") = false ->
  legacyConfigRule vt cfg sr cd = Ok None.
Proof.
  intros Hcfg Hsel. unfold legacyConfigRule.
  destruct (truthy cd); [reflexivity|].
  rewrite !(get_ok _ _ Hcfg). cbn [bind].
  destruct (truthy (read cfg "dimensionField")); cbn [bind andb]; [|reflexivity].
  cbn [andb] in Hsel. now rewrite Hsel.
Qed.

Lemma thenTry_some {A : Type} (a : A) (rest : result (option A)) :
  thenTry (Ok (Some a)) rest = Ok (Some a).
Proof. reflexivity. Qed.

Lemma thenTry_none {A : Type} (rest : result (option A)) :
  thenTry (Ok None) rest = rest.
Proof. reflexivity. Qed.

Lemma records_of_object (m : value) (lr : loc) (rs : list value) :
  read m "records" = VArr lr rs -> exists lm props, m = VObj lm props.
Proof. destruct m; cbn; try discriminate; eauto. Qed.

Lemma read_first (lr : loc) (first : value) (rest : list value) :
  read (VArr lr (first :: rest)) "0" = first.
Proof. reflexivity. Qed.

Lemma multi_model_date_rule (env : Env) (vt : value) (l : loc)
    (props : list (string * value)) (models : list value) (primary : value)
    (rs : list value) (dateField name : string) :
  MultiModelDates props models primary rs dateField name ->
  exists chart,
    multiModelRule env vt (VObj l props) = Ok (Some chart) /\
    DateBuckets rs dateField (countName name) (Ok chart).
Proof.
  intros [Hflag (lm & Hresults) _ _ Hmodels Hprimary (lr & Hrecords) Hobjects
            (first & rest & v & Hrs & Hfirst) Hnamed Hdated Hname].
  pose proof (objects_readable _ Hobjects) as Hreadable.
  unfold multiModelRule. (cbn [get isNullish read bind]; fixed).
  rewrite Hflag, Hresults.
  assert (Hsome : models <> []).
  { destruct Hprimary as (pre & post & -> & _). now destruct pre. }
  destruct models as [|m0 ms]; [congruence|].
  cbn [strictEq Bool.eqb truthy andb]. set (models := m0 :: ms) in *.
  (* no model carries a precomputed aggregation *)
  rewrite findM_none.
  2:{ eapply Forall_impl; [|exact Hmodels]. cbn beta. intros m (Hm & Ha).
      rewrite (get_ok _ _ Hm). cbn [bind]. now rewrite Ha. }
  cbn [bind truthy]. rewrite thenTry_none.
  (* the names written to the console *)
  destruct (mapM_Forall2
              (fun m => let* lab := get m "model_label" in
                        if truthy lab then Ok lab else get m "model")
              (fun _ _ => True) models) as (names & Hnames & _).
  { eapply Forall_impl; [|exact Hmodels]. cbn. intros m (Hm & _).
    rewrite !(get_ok _ _ Hm). cbn [bind].
    destruct (truthy (read m "model_label")); eauto. }
  rewrite Hnames. cbn [bind].
  (* the primary model *)
  rewrite (sortBy_head_first_max recordCount models primary VUndefined
             (primary_model _ _ Hprimary)).
  destruct (records_of_object primary lr rs Hrecords) as (lp & pprops & Hp).
  assert (Hnn : isNullish primary = false) by now subst primary.
  assert (Htp : truthy primary = true) by now subst primary.
  rewrite Htp, !(get_ok _ _ Hnn). cbn [bind negb orb]. rewrite Hrecords.
  rewrite Hrs. cbn [truthy lengthTruthy negb orb get isNullish bind].
  rewrite read_first.
  (* the date field *)
  rewrite (date_field_found first dateField v Hfirst). cbn [option_map fst].
  assert (Hchosen : chosen (Some dateField) = true).
  { cbn. apply negb_true_iff, String.eqb_neq. exact Hnamed. }
  rewrite Hchosen.
  cbn [arrayFor bind]. rewrite <- Hrs.
  destruct (countByDate_spec dateField rs Hreadable Hdated)
    as (counts & Hcount & Hnodup & Hkeys & Hfield).
  rewrite Hcount. cbn [bind].
  (* the first record has a bucket, so there are dates *)
  assert (Hbucket : exists d, dateOf (read first dateField) = Some d).
  { rewrite Hrs in Hobjects, Hdated.
    inversion Hobjects as [|? ? (lf & fields & ->) _]; subst.
    inversion Hdated as [|? ? Hdate _]; subst.
    assert (Hv : read (VObj lf fields) dateField = v).
    { apply field_of_record. destruct Hfirst as (pre & post & -> & _).
      apply in_or_app. right. now left. }
    rewrite Hv in *. apply date_shaped_bucket; [|exact Hdate].
    destruct Hfirst as (_ & _ & _ & (_ & Hshape) & _). exact Hshape. }
  destruct Hbucket as (d0 & Hd0).
  assert (Hin : In d0 (sortStrings (keysOf counts))).
  { eapply Permutation_in.
    - symmetry. unfold sortStrings. rewrite sortBy_perm. apply keysOf_perm.
    - apply Hkeys. exists first. split; [rewrite Hrs; now left | exact Hd0]. }
  pose proof (date_buckets_of_counts vt dateField (countName name)
                rs counts Hnodup Hkeys Hfield) as Hbuckets.
  destruct (sortStrings (keysOf counts)) as [|d ds] eqn:Hdates; [destruct Hin|].
  unfold nameOf in Hname. rewrite Hname. cbn [includesLog bind toStr].
  rewrite thenTry_some.
  eexists. split; [|exact Hbuckets].
  unfold countName. destruct (Str.includes "log" name); reflexivity.
Qed.




(** ** The specification's scenarios, evaluated *)

(** Scenario B: counts by region and product; the combination of region
    B with product Y, for which there is no record, counts 0. *)
Example scenario_stacked_counts :
  getChartData browser stackedReport =
    Ok (Chart (NewArray [VStr "A"; VStr "B"])
          [ {| label := VStr "X";
               points := NewArray [num 2; num 1];
               backgroundColor := OneColor "rgba(75, 192, 192, 0.8)";
               borderColor := "rgba(75, 192, 192, 1)";
               borderWidth := 1; fill := None; tension := None |};
            {| label := VStr "Y";
               points := NewArray [num 1; VNum zero];
               backgroundColor := OneColor "rgba(255, 99, 132, 0.8)";
               borderColor := "rgba(255, 99, 132, 1)";
               borderWidth := 1; fill := None; tension := None |} ]).
Proof. vm_compute. reflexivity. Qed.

(** Scenario C: three log entries on two days, in ascending order of the
    days, whatever the time of day and its separator. *)
Example scenario_login_counts :
  getChartData browser loginReport =
    Ok (singleDataset (VStr "line") [VStr "2025-03-15"; VStr "2025-03-16"]
          (VStr "User Login Count") [num 1; num 2]).
Proof. vm_compute. reflexivity. Qed.

(** Scenario D: the payload [{foo: "bar"}] gets the sample data. *)
Example scenario_shapeless :
  getChartData browser shapeless =
    Ok (Chart (NewArray (map VStr ["Sample A"; "Sample B"; "Sample C";
                                   "Sample D"; "Sample E"]))
          [ {| label := VStr "Sample Dataset";
               points := NewArray [num 30; num 20; num 25; num 15; num 10];
               backgroundColor := OneColor "rgba(75, 192, 192, 0.2)";
               borderColor := "rgba(75, 192, 192, 1)";
               borderWidth := 1; fill := None; tension := None |} ]).
Proof. vm_compute. reflexivity. Qed.

End VisualizationProperties.

(** * Properties of the chart builder beyond the stated claims *)

Module BuilderProperties.

Import ReportVisualization Spec Notions Examples Cases JSFacts.
Import VisualizationProperties.

(** ** The coercion of field values *)

Lemma orZero_not_nan (x : Num.number) : is_nan (orZero x) = false.
Proof.
  unfold orZero. destruct (is_zero x), (is_nan x) eqn:E; cbn; auto.
Qed.

Lemma numericValue_nan (v : value) :
  is_nan (numericValue v) = true -> exists x, v = VNum x /\ is_nan x = true.
Proof.
  destruct v as [| | | x | | l [|first rest] | | |]; cbn [numericValue];
    try (rewrite orZero_not_nan; discriminate).
  eauto.
Qed.

Lemma filter_all {A : Type} (p : A -> bool) (l : list A) :
  Forall (fun x => p x = true) l -> filter p l = l.
Proof.
  induction 1 as [|x l Hx _ IH]; cbn; [reflexivity|]. now rewrite Hx, IH.
Qed.

Lemma coerced_kept (field : string) (rs : list value) :
  noNaN field rs ->
  filter (fun v => negb (isNaN v)) (coerced field rs) = coerced field rs.
Proof.
  intros H. apply filter_all. unfold coerced. apply Forall_map.
  eapply Forall_impl; [|exact H]. cbn beta. intros r Hr.
  apply negb_true_iff. unfold isNaN.
  destruct (is_nan (numericValue (read r field))) eqn:E; [|reflexivity].
  apply numericValue_nan in E. destruct E as (x & Hx & Hnan).
  now rewrite (Hr x Hx) in Hnan.
Qed.



(** ** Grouping by the dimension *)

Lemma keysOf_keys {A B : Type} (ps : list (string * A)) (qs : list (string * B)) :
  map fst ps = map fst qs -> keysOf ps = keysOf qs.
Proof. intros H. unfold keysOf. now rewrite H. Qed.

Lemma member_inherited (k : string) : truthy (inherited k) = memberName k.
Proof.
  unfold inherited, memberName. cbn [existsb].
  destruct (String.eqb k "__proto__"); [reflexivity|]. cbn [orb].
  unfold objectMembers. cbn [position existsb].
  repeat match goal with
         | |- context [String.eqb k ?s] => destruct (String.eqb k s); [reflexivity|]
         end.
  reflexivity.
Qed.

Lemma groupRecords_from (dimensionField : value) (rs : list value)
    (acc : list (string * list value)) :
  readable rs ->
  memberLabelled (toStr dimensionField) rs = false ->
  exists groups,
    foldM (fun groupedRecords record =>
             let* dimensionValue := getAt record dimensionField in
             let key := displayLabel dimensionValue in
             match lookup key groupedRecords with
             | Some group => Ok (setProp key (group ++ [record]) groupedRecords)
             | None =>
                 if truthy (inherited key) then Throw TypeError
                 else Ok (setProp key [record] groupedRecords)
             end)
          rs acc = Ok groups /\
    map fst groups =
      fold_left addKey (map (labelOf (toStr dimensionField)) rs) (map fst acc) /\
    (forall lab, field [] lab groups =
                 field [] lab acc ++ labelled (toStr dimensionField) lab rs).
Proof.
  intros Hrs. revert acc.
  induction Hrs as [|r rs Hr _ IH]; intros acc Hplain; cbn [foldM].
  - exists acc. split; [reflexivity|]. split; [reflexivity|].
    intros lab. cbn. now rewrite app_nil_r.
  - unfold memberLabelled in Hplain. cbn [existsb] in Hplain.
    apply orb_false_iff in Hplain. destruct Hplain as [Hkey Hrest].
    unfold getAt at 1. rewrite (get_ok _ _ Hr). cbn [bind].
    rewrite displayLabel_shown. fold (labelOf (toStr dimensionField) r).
    set (key := labelOf (toStr dimensionField) r) in *.
    cbv zeta. rewrite member_inherited, Hkey.
    assert (Hstep :
      match lookup key acc with
      | Some group => Ok (setProp key (group ++ [r]) acc)
      | None => Ok (setProp key [r] acc)
      end = Ok (setProp key (field [] key acc ++ [r]) acc)).
    { unfold field. now destruct (lookup key acc). }
    rewrite Hstep. cbn [bind].
    destruct (IH (setProp key (field [] key acc ++ [r]) acc) Hrest)
      as (groups & Hfold & Hkeys & Hfield).
    exists groups. split; [exact Hfold|]. split.
    + rewrite Hkeys, keys_setProp. reflexivity.
    + intros lab. rewrite Hfield. unfold labelled. cbn [filter]. fold key.
      unfold field at 1.
      destruct (String.eqb_spec key lab) as [->|N].
      * rewrite lookup_setProp_same. now rewrite <- app_assoc.
      * rewrite lookup_setProp_other by congruence. reflexivity.
Qed.

Lemma groupRecords_spec (dimensionField : value) (rs : list value) :
  readable rs ->
  memberLabelled (toStr dimensionField) rs = false ->
  exists groups,
    groupRecords dimensionField rs = Ok groups /\
    map fst groups = firstOccurrences (map (labelOf (toStr dimensionField)) rs) /\
    (forall lab, field [] lab groups = labelled (toStr dimensionField) lab rs).
Proof.
  intros Hrs Hplain.
  destruct (groupRecords_from dimensionField rs [] Hrs Hplain)
    as (groups & H1 & H2 & H3).
  exists groups. split; [exact H1|]. split; [exact H2|]. exact H3.
Qed.

Lemma groupRecords_raises_from (dimensionField : value) (rs : list value)
    (acc : list (string * list value)) :
  readable rs ->
  memberLabelled (toStr dimensionField) rs = true ->
  Forall (fun k => memberName k = false) (map fst acc) ->
  foldM (fun groupedRecords record =>
           let* dimensionValue := getAt record dimensionField in
           let key := displayLabel dimensionValue in
           match lookup key groupedRecords with
           | Some group => Ok (setProp key (group ++ [record]) groupedRecords)
           | None =>
               if truthy (inherited key) then Throw TypeError
               else Ok (setProp key [record] groupedRecords)
           end)
        rs acc = Throw TypeError.
Proof.
  intros Hrs. revert acc.
  induction Hrs as [|r rs Hr _ IH]; intros acc Hsome Hacc; [discriminate|].
  cbn [foldM]. unfold memberLabelled in Hsome. cbn [existsb] in Hsome.
  unfold getAt at 1. rewrite (get_ok _ _ Hr). cbn [bind].
  rewrite displayLabel_shown. fold (labelOf (toStr dimensionField) r).
  set (key := labelOf (toStr dimensionField) r) in *.
  cbv zeta. rewrite member_inherited.
  destruct (memberName key) eqn:Hkey.
  - destruct (lookup key acc) as [group|] eqn:Hl; [|reflexivity].
    rewrite Forall_forall in Hacc.
    rewrite (Hacc key) in Hkey; [discriminate|].
    apply lookup_In. congruence.
  - cbn [orb] in Hsome.
    assert (Hstep :
      match lookup key acc with
      | Some group => Ok (setProp key (group ++ [r]) acc)
      | None => Ok (setProp key [r] acc)
      end = Ok (setProp key (field [] key acc ++ [r]) acc)).
    { unfold field. now destruct (lookup key acc). }
    rewrite Hstep. cbn [bind]. apply IH; [exact Hsome|].
    rewrite keys_setProp. unfold addKey.
    destruct (existsb (String.eqb key) (map fst acc)); [exact Hacc|].
    apply Forall_app. split; [exact Hacc|]. now constructor.
Qed.

Lemma groupRecords_raises (dimensionField : value) (rs : list value) :
  readable rs ->
  memberLabelled (toStr dimensionField) rs = true ->
  groupRecords dimensionField rs = Throw TypeError.
Proof.
  intros Hrs Hmember. apply groupRecords_raises_from; [assumption..|constructor].
Qed.

Lemma isStacked_value (vt cfg series : value) :
  isNullish cfg = false ->
  isStacked vt cfg series =
    Ok (strictEq vt (VStr "bar") && truthy (read cfg "stacked") && truthy series).
Proof.
  intros Hcfg. unfold isStacked. rewrite (get_ok _ _ Hcfg).
  now destruct (strictEq vt (VStr "bar")).
Qed.

Lemma grouped_rule (vt cfg sr : value) (lc lr : loc) (cd : list (string * value))
    (rs : list value) (m : string) :
  isNullish cfg = false ->
  strictEq vt (VStr "bar") && truthy (read cfg "stacked") &&
    truthy (field VUndefined "seriesField" cd) = false ->
  truthy (field VUndefined "dimensionField" cd) = true ->
  field VUndefined "measureField" cd = VStr m ->
  locateRecords sr = Ok (VArr lr rs) ->
  rs <> [] ->
  readable rs ->
  memberLabelled (toStr (field VUndefined "dimensionField" cd)) rs = false ->
  exists chart,
    chartDefinitionRule vt cfg sr (VObj lc cd) = Ok (Some chart) /\
    Grouped rs (toStr (field VUndefined "dimensionField" cd)) m
      (or (field VUndefined "aggregationType" cd) (VStr "count")) (Ok chart).
Proof.
  intros Hcfg Hstacked Hdim Hmeasure Hloc Hsome Hread Hplain.
  unfold chartDefinitionRule. (cbn [get isNullish read bind]; fixed).
  rewrite Hloc. cbn [bind]. rewrite (hasElements_array lr rs Hsome). cbn [bind].
  rewrite Hdim. cbn [andb]. rewrite (isStacked_value _ _ _ Hcfg), Hstacked.
  cbn [bind arrayFor].
  destruct (groupRecords_spec (field VUndefined "dimensionField" cd) rs Hread Hplain)
    as (groups & Hgroups & Hkeys & Hfield).
  rewrite Hgroups. cbn [bind]. rewrite Hmeasure.
  set (dimension := toStr (field VUndefined "dimensionField" cd)) in *.
  set (kind := or (field VUndefined "aggregationType" cd) (VStr "count")).
  rewrite (mapM_ok _ (fun lab => aggregation kind
                                   (map (fun r => read r m)
                                        (labelled dimension lab rs)))).
  2:{ apply Forall_forall. intros lab _. rewrite Hfield.
      apply (aggregate_as_specified _ (VStr m)). now apply readable_filter. }
  cbn [bind fieldLabel stringFor].
  assert (Hlabels : keysOf groups =
                    enumerated (firstOccurrences (map (labelOf dimension) rs))).
  { unfold enumerated. apply keysOf_keys. rewrite map_map. cbn [fst].
    now rewrite map_id. }
  rewrite Hlabels.
  eexists. split; [reflexivity|]. unfold singleDataset, Grouped.
  eexists. split; [reflexivity|]. split; [reflexivity|].
  cbn [points]. now rewrite map_map.
Qed.

Lemma grouped_rule_raises (vt cfg sr : value) (lc lr : loc)
    (cd : list (string * value)) (rs : list value) :
  isNullish cfg = false ->
  strictEq vt (VStr "bar") && truthy (read cfg "stacked") &&
    truthy (field VUndefined "seriesField" cd) = false ->
  truthy (field VUndefined "dimensionField" cd) = true ->
  locateRecords sr = Ok (VArr lr rs) ->
  rs <> [] ->
  readable rs ->
  memberLabelled (toStr (field VUndefined "dimensionField" cd)) rs = true ->
  chartDefinitionRule vt cfg sr (VObj lc cd) = Throw TypeError.
Proof.
  intros Hcfg Hstacked Hdim Hloc Hsome Hread Hmember.
  unfold chartDefinitionRule. (cbn [get isNullish read bind]; fixed).
  rewrite Hloc. cbn [bind]. rewrite (hasElements_array lr rs Hsome). cbn [bind].
  rewrite Hdim. cbn [andb]. rewrite (isStacked_value _ _ _ Hcfg), Hstacked.
  cbn [bind arrayFor].
  now rewrite (groupRecords_raises _ rs Hread Hmember).
Qed.



(** ** Graph data that is already there *)

(** X3: when the report data, or its [graphData], or else its nested
    [data], holds truthy [labels] and [datasets], the builder returns that
    very object, whatever the chart definition, the records, the config and
    the visualization type are. *)
Theorem graph_data_passes_through (env : Env) (report : Report) (l : loc)
    (props : list (string * value)) (g : value) :
  readData env report = VObj l props ->
  or (or (field VUndefined "graphData" props) (field VUndefined "data" props))
     (VObj l props) = g ->
  truthy (read g "labels") = true ->
  truthy (read g "datasets") = true ->
  getChartData env report = Ok (PassThrough g).
Proof.
  intros Hdata Hg Hlabels Hdatasets. unfold getChartData.
  rewrite Hdata. (cbn [truthy get isNullish read bind]; fixed). rewrite Hg.
  unfold chartDataFrom.
  rewrite !(get_ok _ _ (truthy_read_not_nullish _ _ Hlabels)). cbn [bind].
  now rewrite Hlabels, Hdatasets.
Qed.

(** ** An aggregation result *)

Lemma falsy_read (v : value) (k : string) :
  truthy v = false -> truthy (read v k) = false.
Proof.
  destruct v as [| | b | x | s | | | |]; cbn [truthy read]; try reflexivity;
    try discriminate.
  intros H. apply negb_false_iff, String.eqb_eq in H. subst s.
  destruct (String.eqb k "length"); [reflexivity|].
  destruct (indexOf k); reflexivity.
Qed.

Lemma aggregation_rule_records (vt : value) (l lr : loc)
    (props : list (string * value)) (rs : list value) :
  field VUndefined "aggregation" props = VBool true ->
  truthy (field VUndefined "dimension" props) = true ->
  truthy (field VUndefined "measure" props) = true ->
  field VUndefined "records" props = VArr lr rs ->
  rs <> [] ->
  readable rs ->
  aggregationRule vt (VObj l props) =
    Ok (Some (singleDataset vt
                (map (fun r => VStr (plainLabel
                                       (read r (toStr (field VUndefined "dimension" props)))))
                     rs)
                (or (read (field VUndefined "field_descriptions" props)
                          (toStr (field VUndefined "dimension" props)))
                    (field VUndefined "measure" props))
                (map (fun r => or (read r (toStr (field VUndefined "measure" props)))
                                  (VNum zero))
                     rs))).
Proof.
  intros Hflag Hdim Hmeasure Hrecords Hsome Hread.
  unfold aggregationRule. (cbn [get isNullish read bind]; fixed).
  rewrite Hflag. cbn [strictEq Bool.eqb]. rewrite Hdim, Hmeasure, Hrecords.
  destruct rs as [|r rs']; [congruence|].
  cbn [truthy lengthPositive andb arrayFor bind].
  rewrite (per_record_values (fun v => VStr (plainLabel v)) _ _ Hread). cbn [bind].
  rewrite (per_record_values (fun v => or v (VNum zero)) _ _ Hread). cbn [bind].
  destruct (truthy (field VUndefined "field_descriptions" props)) eqn:Hdesc.
  - unfold getAt. rewrite get_ok; [reflexivity|].
    destruct (field VUndefined "field_descriptions" props); try discriminate;
      reflexivity.
  - cbn [bind truthy]. unfold or. now rewrite (falsy_read _ _ Hdesc).
Qed.


(** ** Multi-model results *)

Lemma aggregation_rule_not_flagged (vt : value) (l : loc)
    (props : list (string * value)) :
  strictEq (field VUndefined "aggregation" props) (VBool true) = false ->
  aggregationRule vt (VObj l props) = Ok None.
Proof.
  intros H. unfold aggregationRule. (cbn [get isNullish read bind]; fixed). now rewrite H.
Qed.

Lemma getChartData_inferred (env : Env) (report : Report) (l : loc)
    (props : list (string * value)) :
  Inferred env report l props ->
  getChartData env report =
    orElse (multiModelRule env (visualization_type report) (VObj l props))
   (orElse (plainRecordsRule (visualization_type report) (VObj l props))
           (Ok (getSampleData env (visualization_type report)))).
Proof.
  intros [Hdata Hown Hcd Hcfg Hlegacy Hflag].
  pose proof Hown as (Hg & Hn & _).
  rewrite (getChartData_object env report l props) by assumption.
  rewrite (chartDataFrom_legacy env _ _ l props) by assumption.
  rewrite legacy_rule_not_selected by assumption.
  rewrite orElse_none, aggregation_rule_not_flagged by assumption.
  now rewrite orElse_none.
Qed.

Lemma findM_first (f : value -> result bool) (pre post : list value) (x : value) :
  Forall (fun y => f y = Ok false) pre -> f x = Ok true ->
  findM f (pre ++ x :: post) = Ok x.
Proof.
  induction 1 as [|y pre Hy _ IH]; intros Hx; cbn.
  - now rewrite Hx.
  - rewrite Hy. cbn. now apply IH.
Qed.

Lemma find_precomputed (models : list value) (p : value) :
  Forall (fun m => isNullish m = false) models ->
  FirstWith (fun m => truthy (read m "_dateAggregation") = true) models p ->
  findM (fun model => let* a := get model "_dateAggregation" in Ok (truthy a))
        models = Ok p.
Proof.
  intros Hmodels (pre & post & -> & Hp & Hpre).
  apply Forall_app in Hmodels. destruct Hmodels as [Hnpre Hnrest].
  apply findM_first.
  - apply Forall_forall. intros m Hm.
    rewrite Forall_forall in Hnpre, Hpre.
    rewrite (get_ok _ _ (Hnpre m Hm)). cbn [bind].
    specialize (Hpre m Hm). now destruct (truthy (read m "_dateAggregation")).
  - rewrite (get_ok _ _ (truthy_read_not_nullish _ _ Hp)). cbn [bind].
    now rewrite Hp.
Qed.

Lemma precomputed_rule (env : Env) (vt : value) (l lm ld : loc)
    (props : list (string * value)) (models dates : list value) (p : value) :
  field VUndefined "multi_model" props = VBool true ->
  field VUndefined "results" props = VArr lm models ->
  Forall (fun m => isNullish m = false) models ->
  FirstWith (fun m => truthy (read m "_dateAggregation") = true) models p ->
  read (read p "_dateAggregation") "dates" = VArr ld dates ->
  dates <> [] ->
  multiModelRule env vt (VObj l props) =
    Ok (Some (Chart (Existing (VArr ld dates))
                [ {| label := VStr (toStr (read p "model_label") ++ " by Date");
                     points := Existing (read (read p "_dateAggregation") "counts");
                     backgroundColor := background vt (List.length dates);
                     borderColor := "rgba(75, 192, 192, 1)";
                     borderWidth := 1;
                     fill := None;
                     tension := None |} ])).
Proof.
  intros Hflag Hresults Hmodels Hfirst Hdates Hsome.
  pose proof Hfirst as (pre & post & Hsplit & Hp & _).
  unfold multiModelRule. (cbn [get isNullish read bind]; fixed).
  rewrite Hflag, Hresults. cbn [strictEq Bool.eqb truthy andb].
  destruct models as [|m0 ms]; [now destruct pre|].
  rewrite (find_precomputed _ p Hmodels Hfirst). cbn [bind].
  pose proof (truthy_read_not_nullish _ _ Hp) as Hnp.
  assert (Htp : truthy p = true) by (destruct p; try discriminate; try reflexivity;
                                    cbn in Hp; discriminate).
  rewrite Htp, (get_ok _ _ Hnp). cbn [bind]. rewrite Hp.
  assert (Hna : isNullish (read p "_dateAggregation") = false).
  { destruct (read p "_dateAggregation"); try discriminate; reflexivity. }
  rewrite !(get_ok _ _ Hna). cbn [bind]. rewrite Hdates.
  rewrite (hasElements_array ld dates Hsome). cbn [bind].
  rewrite (get_ok _ _ Hnp). cbn [bind arrayFor].
  unfold background. destruct (strictEq vt (VStr "pie")); reflexivity.
Qed.

Lemma precomputed_rule_without_dates (env : Env) (vt : value) (l lm : loc)
    (props : list (string * value)) (models : list value) (p : value) :
  field VUndefined "multi_model" props = VBool true ->
  field VUndefined "results" props = VArr lm models ->
  Forall (fun m => isNullish m = false) models ->
  FirstWith (fun m => truthy (read m "_dateAggregation") = true) models p ->
  isNullish (read (read p "_dateAggregation") "dates") = true ->
  multiModelRule env vt (VObj l props) = Throw TypeError.
Proof.
  intros Hflag Hresults Hmodels Hfirst Hdates.
  pose proof Hfirst as (pre & post & Hsplit & Hp & _).
  unfold multiModelRule. (cbn [get isNullish read bind]; fixed).
  rewrite Hflag, Hresults. cbn [strictEq Bool.eqb truthy andb].
  destruct models as [|m0 ms]; [now destruct pre|].
  rewrite (find_precomputed _ p Hmodels Hfirst). cbn [bind].
  pose proof (truthy_read_not_nullish _ _ Hp) as Hnp.
  assert (Htp : truthy p = true) by (destruct p; try discriminate; try reflexivity;
                                    cbn in Hp; discriminate).
  rewrite Htp, (get_ok _ _ Hnp). cbn [bind]. rewrite Hp.
  assert (Hna : isNullish (read p "_dateAggregation") = false).
  { destruct (read p "_dateAggregation"); try discriminate; reflexivity. }
  rewrite !(get_ok _ _ Hna). cbn [bind].
  unfold hasElements. now rewrite Hdates.
Qed.


(** X6: a date aggregation that holds no [dates] makes the builder raise
    a [TypeError]: the length of the missing list is asked for. *)
Theorem precomputed_without_dates_raises (env : Env) (report : Report)
    (l lm : loc) (props : list (string * value)) (models : list value)
    (p : value) :
  Inferred env report l props ->
  field VUndefined "multi_model" props = VBool true ->
  field VUndefined "results" props = VArr lm models ->
  Forall (fun m => isNullish m = false) models ->
  FirstWith (fun m => truthy (read m "_dateAggregation") = true) models p ->
  isNullish (read (read p "_dateAggregation") "dates") = true ->
  getChartData env report = Throw TypeError.
Proof.
  intros Hinf Hflag Hresults Hmodels Hfirst Hdates.
  rewrite (getChartData_inferred env report l props Hinf).
  now rewrite (precomputed_rule_without_dates env _ l lm props models p).
Qed.

Lemma sorted_head_member {A : Type} (leq : A -> A -> bool) (l : list A) (x d : A) :
  In (nth 0 (sortBy leq (x :: l)) d) (x :: l).
Proof.
  pose proof (sortBy_perm leq (x :: l)) as Hperm.
  destruct (sortBy leq (x :: l)) as [|y ys] eqn:E.
  - apply Permutation_nil in Hperm. discriminate.
  - cbn [nth]. eapply Permutation_in; [exact Hperm | now left].
Qed.

Lemma unusable_models_rule (env : Env) (vt : value) (l : loc)
    (props : list (string * value)) :
  field VUndefined "multi_model" props = VBool true ->
  truthy (field VUndefined "results" props) = true ->
  match field VUndefined "results" props with
  | VArr _ models =>
      Forall (fun m => isNullish m = false /\
                       truthy (read m "_dateAggregation") = false /\
                       truthy (read m "records") &&
                         lengthTruthy (read m "records") = false) models
  | _ => True
  end ->
  multiModelRule env vt (VObj l props) = Ok (Some (getSampleData env vt)).
Proof.
  intros Hflag Hresults Hmodels.
  unfold multiModelRule. (cbn [get isNullish read bind]; fixed).
  rewrite Hflag, Hresults. cbn [strictEq Bool.eqb andb].
  destruct (field VUndefined "results" props) as [| | | | | lm [|m0 ms] | | |];
    try reflexivity.
  set (models := m0 :: ms) in *.
  rewrite findM_none.
  2:{ eapply Forall_impl; [|exact Hmodels]. cbn beta. intros m (Hm & Ha & _).
      rewrite (get_ok _ _ Hm). cbn [bind]. now rewrite Ha. }
  cbn [bind truthy]. rewrite thenTry_none.
  destruct (mapM_Forall2
              (fun m => let* lab := get m "model_label" in
                        if truthy lab then Ok lab else get m "model")
              (fun _ _ => True) models) as (names & Hnames & _).
  { eapply Forall_impl; [|exact Hmodels]. cbn. intros m (Hm & _).
    rewrite !(get_ok _ _ Hm). cbn [bind].
    destruct (truthy (read m "model_label")); eauto. }
  rewrite Hnames. cbn [bind].
  pose proof (sorted_head_member
                (fun a b => (recordCount b <=? recordCount a)%nat) ms m0 VUndefined)
    as Hin.
  fold models in Hin.
  set (primary := nth 0 (sortBy _ models) VUndefined) in *.
  rewrite Forall_forall in Hmodels.
  destruct (Hmodels primary Hin) as (Hp & _ & Hrecords).
  rewrite (get_ok _ _ Hp).
  destruct (truthy primary); cbn [bind negb orb]; [|reflexivity].
  destruct (truthy (read primary "records")); cbn [negb orb andb] in *;
    [|reflexivity].
  now rewrite Hrecords.
Qed.


(** ** Plain records *)

Lemma fold_left_ext {A B : Type} (f g : B -> A -> B) (l : list A) (b : B) :
  (forall b x, f b x = g b x) -> fold_left f l b = fold_left g l b.
Proof.
  intros H. revert b. induction l as [|x l IH]; intros b; [reflexivity|].
  cbn. now rewrite H, IH.
Qed.

Lemma pickFields_fold (first_record : value) :
  pickFields first_record = fold_left pick (forInEntries first_record) (None, None).
Proof.
  unfold pickFields. apply fold_left_ext. intros [lf vf] [k v]. reflexivity.
Qed.

Lemma pick_both (es : list (string * value)) (lf vf : string) :
  fold_left pick es (Some lf, Some vf) = (Some lf, Some vf).
Proof.
  induction es as [|[k v] es IH]; [reflexivity|]. cbn [fold_left pick].
  destruct (isTechnical k); exact IH.
Qed.

Lemma pick_value (es : list (string * value)) (lf : string) :
  fold_left pick es (Some lf, None) =
    (Some lf, option_map fst (find (valueEntry None) es)).
Proof.
  induction es as [|[k v] es IH]; [reflexivity|]. cbn [fold_left pick find].
  unfold valueEntry at 1. cbn [fst snd].
  destruct (isTechnical k); cbn [negb andb]; [exact IH|].
  destruct (valueCapable v); cbn [andb]; [apply pick_both | exact IH].
Qed.

Lemma pick_label (es : list (string * value)) (vf : string) :
  fold_left pick es (None, Some vf) =
    (option_map fst (find labelEntry es), Some vf).
Proof.
  induction es as [|[k v] es IH]; [reflexivity|]. cbn [fold_left pick find].
  unfold labelEntry at 1. cbn [fst snd].
  destruct (isTechnical k); cbn [negb andb]; [exact IH|].
  destruct (labelCapable v); [apply pick_both | exact IH].
Qed.

Lemma find_ext_in {A : Type} (p q : A -> bool) (l : list A) :
  (forall x, In x l -> p x = q x) -> find p l = find q l.
Proof.
  induction l as [|x l IH]; intros H; [reflexivity|]. cbn.
  rewrite (H x) by now left. destruct (q x); [reflexivity|].
  apply IH. intros y Hy. apply H. now right.
Qed.

Lemma find_key {A : Type} (p : string * A -> bool) (es : list (string * A))
    (k : string) :
  option_map fst (find p es) = Some k -> In k (map fst es).
Proof.
  destruct (find p es) as [[k' v]|] eqn:E; [|discriminate].
  cbn. intros [= <-]. apply find_some in E. destruct E as [E _].
  apply in_map_iff. exists (k', v). auto.
Qed.

Lemma pickFields_entries (es : list (string * value)) :
  NoDup (map fst es) ->
  fold_left pick es (None, None) =
    (option_map fst (find labelEntry es),
     option_map fst (find (valueEntry (option_map fst (find labelEntry es))) es)).
Proof.
  induction es as [|[k v] es IH]; intros Hnd; [reflexivity|].
  inversion Hnd as [|? ? Hk Hnd']; subst.
  cbn [fold_left pick find].
  assert (Hle : labelEntry (k, v) = negb (isTechnical k) && labelCapable v)
    by reflexivity.
  assert (Hve : forall L, valueEntry L (k, v) =
                          negb (isTechnical k) && valueCapable v &&
                          match L with
                          | Some k' => negb (String.eqb k k')
                          | None => true
                          end) by reflexivity.
  rewrite Hle, Hve.
  destruct (isTechnical k); cbn [negb andb]; [now apply IH|].
  destruct (labelCapable v) eqn:Hl.
  - rewrite pick_value. cbn [option_map fst]. rewrite String.eqb_refl.
    rewrite andb_false_r. f_equal. f_equal. apply find_ext_in.
    intros [k' v'] Hin. unfold valueEntry. cbn [fst snd].
    destruct (String.eqb_spec k' k) as [->|_].
    + exfalso. apply Hk. apply in_map_iff. exists (k, v'). auto.
    + reflexivity.
  - destruct (valueCapable v) eqn:Hv; cbn [andb].
    + rewrite pick_label. f_equal.
      destruct (option_map fst (find labelEntry es)) as [lf|] eqn:E;
        [|reflexivity].
      destruct (String.eqb_spec k lf) as [->|_]; [|reflexivity].
      exfalso. apply Hk. now apply (find_key labelEntry).
    + now apply IH.
Qed.

Lemma entries_keys (l : loc) (fields : list (string * value)) :
  NoDup (map fst fields) -> NoDup (map fst (forInEntries (VObj l fields))).
Proof.
  intros H. cbn. rewrite map_map. cbn [fst]. rewrite map_id.
  eapply Permutation_NoDup; [symmetry; apply keysOf_perm | exact H].
Qed.

Lemma pickFields_spec (l : loc) (fields : list (string * value)) :
  NoDup (map fst fields) ->
  pickFields (VObj l fields) =
    (option_map fst (find labelEntry (forInEntries (VObj l fields))),
     option_map fst
       (find (valueEntry (option_map fst
                            (find labelEntry (forInEntries (VObj l fields)))))
             (forInEntries (VObj l fields)))).
Proof.
  intros H. rewrite pickFields_fold. apply pickFields_entries.
  now apply entries_keys.
Qed.

Lemma per_record_fields {B : Type} (f : value -> B) (k : string) (rs : list value) :
  readable rs ->
  mapM (fun record => let* val := get record k in Ok (f val)) rs =
    Ok (map (fun r => f (read r k)) rs).
Proof. intros H. exact (per_record_values f (VStr k) rs H). Qed.

Lemma getChartData_plain (env : Env) (report : Report) (l : loc)
    (props : list (string * value)) :
  Inferred env report l props ->
  strictEq (field VUndefined "multi_model" props) (VBool true) = false ->
  getChartData env report =
    orElse (plainRecordsRule (visualization_type report) (VObj l props))
           (Ok (getSampleData env (visualization_type report))).
Proof.
  intros Hinf Hmulti.
  rewrite (getChartData_inferred env report l props Hinf).
  now rewrite multi_model_rule_not_multi, orElse_none by assumption.
Qed.


Lemma find_nowhere {A : Type} (p : A -> bool) (l : list A) :
  (forall x, In x l -> p x = false) -> find p l = None.
Proof.
  induction l as [|x l IH]; intros H; [reflexivity|]. cbn.
  rewrite (H x) by now left. apply IH. intros y Hy. apply H. now right.
Qed.

Lemma no_value_field (es : list (string * value)) :
  (forall e, In e es -> valueEntry None e = true ->
             FirstWith (fun e' => labelEntry e' = true) es e) ->
  find (valueEntry (option_map fst (find labelEntry es))) es = None.
Proof.
  intros H. apply find_nowhere. intros [k v] Hin.
  destruct (valueEntry None (k, v)) eqn:E.
  - rewrite (FirstWith_find _ _ _ (H _ Hin E)). cbn [option_map fst].
    unfold valueEntry. cbn [fst snd]. rewrite String.eqb_refl.
    apply andb_false_r.
  - unfold valueEntry in *. cbn [fst snd] in *.
    rewrite andb_true_r in E. now rewrite E.
Qed.

Lemma not_null_iff (v : value) : strictEq v VNull = false <-> v <> VNull.
Proof. destruct v; cbn; split; congruence. Qed.

Lemma labelCapable_iff (v : value) : labelCapable v = true <-> CanLabel v.
Proof.
  unfold labelCapable, CanLabel.
  rewrite orb_true_iff, !andb_true_iff, !orb_true_iff, negb_true_iff,
    !String.eqb_eq, not_null_iff, answersYear_iff.
  tauto.
Qed.

Lemma valueCapable_iff (v : value) : valueCapable v = true <-> CanValue v.
Proof.
  unfold valueCapable, CanValue, isNaN.
  rewrite !orb_true_iff, negb_true_iff, String.eqb_eq.
  split.
  - intros [[H|H]|H]; [auto | auto |].
    destruct v as [| | | | | l [|first rest] | | |]; try discriminate.
    right. right. exists l, first, rest. split; [reflexivity|].
    apply orb_true_iff in H. rewrite negb_true_iff, String.eqb_eq in H. exact H.
  - intros [H|[H|(l & first & rest & -> & H)]]; [auto | auto |].
    right. rewrite orb_true_iff, negb_true_iff, String.eqb_eq. exact H.
Qed.

Lemma labelEntry_iff (e : string * value) :
  labelEntry e = true <-> ~ Technical (fst e) /\ CanLabel (snd e).
Proof.
  unfold labelEntry.
  rewrite andb_true_iff, negb_true_iff, labelCapable_iff, <- technical_iff.
  destruct (ReportVisualization.isTechnical (fst e)); intuition congruence.
Qed.

Lemma valueEntry_iff (e : string * value) :
  valueEntry None e = true <-> ~ Technical (fst e) /\ CanValue (snd e).
Proof.
  unfold valueEntry.
  rewrite andb_true_r, andb_true_iff, negb_true_iff, valueCapable_iff,
    <- technical_iff.
  destruct (ReportVisualization.isTechnical (fst e)); intuition congruence.
Qed.


(** ** Instances *)

Lemma inferred_without_selection (report : Report) (l lc : loc)
    (props : list (string * value)) :
  data report = VObj l props ->
  config report = VObj lc [] ->
  OwnResults props ->
  truthy (field VUndefined "chartDefinition" props) = false ->
  strictEq (field VUndefined "aggregation" props) (VBool true) = false ->
  Inferred browser report l props.
Proof.
  intros Hdata Hconfig Hown Hcd Hflag.
  constructor; try assumption; unfold readConfig; rewrite Hconfig; reflexivity.
Qed.

Lemma graph_data_passes_through_witness :
  getChartData browser finishedReport = Ok (PassThrough finishedGraph).
Proof.
  apply (graph_data_passes_through browser finishedReport 107 finishedPayload);
    reflexivity.
Defined.



Lemma precomputed_without_dates_raises_witness :
  getChartData browser brokenReport = Throw TypeError.
Proof.
  apply (precomputed_without_dates_raises browser brokenReport 132 130
           brokenPayload [brokenModel] brokenModel).
  - apply (inferred_without_selection _ _ 131); try reflexivity. repeat split.
  - reflexivity.
  - reflexivity.
  - repeat constructor.
  - exists [], []. split; [reflexivity|]. split; [reflexivity | constructor].
  - reflexivity.
Defined.




End BuilderProperties.

(** * The terminal fallback of the chart builder *)

Module FallbackProperties.

Import ReportVisualization Spec Notions Examples Cases JSFacts.
Import VisualizationProperties BuilderProperties.

(** ** The data of a report *)

Lemma payload_read (env : Env) (report : Report) (l : loc)
    (props : list (string * value)) :
  Payload env report l props -> readData env report = VObj l props.
Proof.
  unfold readData. intros [-> | (s & -> & Hs & Hparse)]; [reflexivity|].
  apply String.eqb_neq in Hs. now rewrite Hs, Hparse.
Qed.

Lemma getChartData_payload (env : Env) (report : Report) (l : loc)
    (props : list (string * value)) :
  Payload env report l props ->
  OwnResults props ->
  getChartData env report =
    chartDataFrom env (visualization_type report) (readConfig env report)
                  (VObj l props).
Proof.
  intros Hdata (Hg & Hn & _). unfold getChartData.
  rewrite (payload_read env report l props Hdata).
  (cbn [truthy get isNullish read bind]; fixed). unfold or. now rewrite Hg, Hn.
Qed.

Lemma without_data (env : Env) (report : Report) :
  truthy (readData env report) = false ->
  getChartData env report = Ok (getSampleData env (visualization_type report)).
Proof. intros H. unfold getChartData. now rewrite H. Qed.

(** ** Rules that find nothing *)

Lemma strictly_true (v : value) : strictEq v (VBool true) = true -> truthy v = true.
Proof. destruct v as [| | [|] | | | | | |]; cbn; congruence. Qed.

Lemma without_elements (records : value) :
  truthy records && lengthPositive records = false ->
  hasElements (if truthy records then records else emptyArray) = Ok false.
Proof.
  intros H. unfold hasElements.
  destruct (truthy records) eqn:Ht; [|reflexivity].
  cbn [andb] in H. rewrite H.
  now destruct records.
Qed.

Lemma locateRecords_own (l : loc) (props : list (string * value)) :
  truthy (field VUndefined "multi_model" props) &&
    truthy (field VUndefined "results" props) = false ->
  locateRecords (VObj l props) =
    Ok (if truthy (field VUndefined "records" props)
        then field VUndefined "records" props else emptyArray).
Proof.
  intros Hm. unfold locateRecords. (cbn [get isNullish read bind]; fixed).
  destruct (truthy (field VUndefined "multi_model" props)); cbn [bind andb] in *;
    [now rewrite Hm | reflexivity].
Qed.

Lemma definition_rule_without_records (vt cfg cd : value) (l : loc)
    (props : list (string * value)) :
  truthy cd = true ->
  truthy (field VUndefined "multi_model" props) &&
    truthy (field VUndefined "results" props) = false ->
  truthy (field VUndefined "records" props) &&
    lengthPositive (field VUndefined "records" props) = false ->
  chartDefinitionRule vt cfg (VObj l props) cd = Ok None.
Proof.
  intros Hcd Hm Hr. unfold chartDefinitionRule.
  assert (Hn : isNullish cd = false) by now destruct cd.
  rewrite !(get_ok _ _ Hn). cbn [bind].
  rewrite (locateRecords_own l props Hm). cbn [bind].
  now rewrite (without_elements _ Hr).
Qed.

Lemma legacy_rule_nothing (vt cfg cd : value) (l : loc)
    (props : list (string * value)) :
  (truthy cd = false -> isNullish cfg = false) ->
  truthy (field VUndefined "multi_model" props) &&
    truthy (field VUndefined "results" props) = false ->
  truthy (field VUndefined "records" props) &&
    lengthPositive (field VUndefined "records" props) = false ->
  legacyConfigRule vt cfg (VObj l props) cd = Ok None.
Proof.
  intros Hcfg Hm Hr. unfold legacyConfigRule.
  destruct (truthy cd); [reflexivity|].
  rewrite !(get_ok _ _ (Hcfg eq_refl)). cbn [bind].
  destruct (truthy (read cfg "dimensionField")); cbn [bind andb]; [|reflexivity].
  destruct (truthy (read cfg "measureField")); [|reflexivity].
  rewrite (locateRecords_own l props Hm). cbn [bind].
  now rewrite (without_elements _ Hr).
Qed.

Lemma aggregation_rule_nothing (vt : value) (l : loc)
    (props : list (string * value)) :
  truthy (field VUndefined "records" props) &&
    lengthPositive (field VUndefined "records" props) = false ->
  aggregationRule vt (VObj l props) = Ok None.
Proof.
  intros Hr. unfold aggregationRule. (cbn [get isNullish read bind]; fixed).
  rewrite <- !andb_assoc, Hr, !andb_false_r.
  now destruct (strictEq (field VUndefined "aggregation" props) (VBool true)).
Qed.

Lemma multi_model_rule_nothing (env : Env) (vt : value) (l : loc)
    (props : list (string * value)) :
  strictEq (field VUndefined "multi_model" props) (VBool true) &&
    truthy (field VUndefined "results" props) = false ->
  multiModelRule env vt (VObj l props) = Ok None.
Proof.
  intros Hm. unfold multiModelRule. (cbn [get isNullish read bind]; fixed).
  now rewrite Hm.
Qed.

Lemma plain_rule_nothing (vt : value) (l : loc) (props : list (string * value)) :
  truthy (field VUndefined "records" props) &&
    lengthPositive (field VUndefined "records" props) = false ->
  plainRecordsRule vt (VObj l props) = Ok None.
Proof.
  intros Hr. unfold plainRecordsRule. (cbn [get isNullish read bind]; fixed).
  now rewrite Hr.
Qed.

Lemma nothing_selected (env : Env) (vt cfg : value) (l : loc)
    (props : list (string * value)) :
  OwnResults props ->
  NothingSelected cfg props ->
  chartDataFrom env vt cfg (VObj l props) =
    orElse (multiModelRule env vt (VObj l props))
   (orElse (plainRecordsRule vt (VObj l props))
           (Ok (getSampleData env vt))).
Proof.
  intros (_ & _ & Hp) (Hcd & Hcfg & Hsel & Hagg). unfold chartDataFrom.
  (cbn [get isNullish read bind]; fixed). rewrite Hp, Hcd. rewrite orElse_none.
  unfold legacyConfigRule. rewrite Hcd, !(get_ok _ _ Hcfg). cbn [bind].
  destruct (truthy (read cfg "dimensionField")); cbn [bind andb] in *.
  - rewrite Hsel, orElse_none. unfold aggregationRule.
    (cbn [get isNullish read bind]; fixed). now rewrite Hagg.
  - rewrite orElse_none. unfold aggregationRule.
    (cbn [get isNullish read bind]; fixed). now rewrite Hagg.
Qed.

(** ** A first record without fields to draw *)

Lemma pick_nothing (es : list (string * value))
    (state : option string * option string) :
  (Forall (fun e => Technical (fst e) \/ ~ CanLabel (snd e)) es ->
   fst state = None -> fst (fold_left pick es state) = None) /\
  (Forall (fun e => Technical (fst e) \/ ~ CanValue (snd e)) es ->
   snd state = None -> snd (fold_left pick es state) = None).
Proof.
  revert state. induction es as [|[k v] es IH]; intros [lf vf];
    cbn [fold_left]; [tauto|].
  split; intros Hall Hstate; inversion Hall as [|? ? He Hes]; subst;
    cbn [fst snd] in *; subst.
  - apply (proj1 (IH _) Hes). unfold pick.
    destruct (ReportVisualization.isTechnical k) eqn:Et; [reflexivity|].
    assert (Hl : labelCapable v = false).
    { destruct He as [Ht|Hl].
      - apply technical_iff in Ht. congruence.
      - destruct (labelCapable v) eqn:E; [|reflexivity].
        exfalso. now apply Hl, labelCapable_iff. }
    rewrite Hl. now destruct vf, (valueCapable v).
  - apply (proj2 (IH _) Hes). unfold pick.
    destruct (ReportVisualization.isTechnical k) eqn:Et; [reflexivity|].
    assert (Hv : valueCapable v = false).
    { destruct He as [Ht|Hv].
      - apply technical_iff in Ht. congruence.
      - destruct (valueCapable v) eqn:E; [|reflexivity].
        exfalso. now apply Hv, valueCapable_iff. }
    rewrite Hv. now destruct lf, (labelCapable v).
Qed.

Lemma plain_rule_without_fields (vt : value) (l lr : loc)
    (props : list (string * value)) (first : value) (rest : list value) :
  field VUndefined "records" props = VArr lr (first :: rest) ->
  Forall (fun e => ~ DateShaped (snd e)) (fieldsOf first) ->
  Forall (fun e => Technical (fst e) \/ ~ CanLabel (snd e)) (fieldsOf first) \/
  Forall (fun e => Technical (fst e) \/ ~ CanValue (snd e)) (fieldsOf first) ->
  plainRecordsRule vt (VObj l props) = Ok None.
Proof.
  intros Hrecords Hdates Hfields.
  unfold plainRecordsRule. (cbn [get isNullish read bind]; fixed).
  rewrite Hrecords. cbn [truthy lengthPositive andb get isNullish bind].
  rewrite read_first, pickFields_fold.
  change (forInEntries first) with (fieldsOf first).
  destruct (pick_nothing (fieldsOf first) (None, None)) as [Hlabel Hvalue].
  destruct (fold_left pick (fieldsOf first) (None, None)) as [lf vf].
  cbn [fst snd] in *.
  assert (Hnone : find (fun '(field, value) => looksLikeDate value)
                       (fieldsOf first) = None).
  { apply find_nowhere. intros [k v] Hin.
    rewrite Forall_forall in Hdates. specialize (Hdates _ Hin). cbn [snd] in Hdates.
    destruct (looksLikeDate v) eqn:E; [|reflexivity].
    exfalso. now apply Hdates, looksLikeDate_iff. }
  rewrite Hnone. cbn [option_map chosen].
  assert (Hboth : chosen lf && chosen vf = false).
  { destruct Hfields as [H|H].
    - now rewrite (Hlabel H eq_refl).
    - rewrite (Hvalue H eq_refl). apply andb_false_r. }
  rewrite Hboth, thenTry_none. now destruct (negb (chosen vf)).
Qed.



End FallbackProperties.

(** * Properties of the report dialog beyond the stated claims *)

Module SelectionProperties.

Import ReportDialog Spec Notions Examples Cases JSFacts.
Import DialogProperties.
Import VisualizationProperties.

(** ** Default selections *)

Lemma find_name {A : Type} (p : A -> bool) (l : list A) (x : A) :
  find p l = Some x -> In x l.
Proof. intros H. now apply find_some in H. Qed.

Lemma default_dimension_member (fields : list Field) :
  (_getDefaultDimensionField fields = None <-> fields = []) /\
  (forall n, _getDefaultDimensionField fields = Some n -> In n (map name fields)).
Proof.
  unfold _getDefaultDimensionField.
  destruct (find (fun f => isDate (type f)) fields) as [d|] eqn:Ed.
  - split.
    + split; [discriminate|]. intros ->. discriminate.
    + intros n [= <-]. apply in_map. now apply find_name in Ed.
  - destruct (find (fun f => isString (type f)) fields) as [s|] eqn:Es.
    + split.
      * split; [discriminate|]. intros ->. discriminate.
      * intros n [= <-]. apply in_map. now apply find_name in Es.
    + destruct fields as [|first rest].
      * split; [tauto | discriminate].
      * split; [split; discriminate|]. intros n [= <-]. now left.
Qed.

Lemma default_measure_member (fields : list Field) :
  (_getDefaultMeasureField fields = None <-> fields = []) /\
  (forall n, _getDefaultMeasureField fields = Some n -> In n (map name fields)).
Proof.
  unfold _getDefaultMeasureField.
  destruct (find (fun f => isNumber (type f)) fields) as [d|] eqn:Ed.
  - split.
    + split; [discriminate|]. intros ->. discriminate.
    + intros n [= <-]. apply in_map. now apply find_name in Ed.
  - cbn zeta.
    destruct (find (fun f => differs (name f) (_getDefaultDimensionField fields))
                   fields) as [s|] eqn:Es.
    + split.
      * split; [discriminate|]. intros ->. discriminate.
      * intros n [= <-]. apply in_map. now apply find_name in Es.
    + destruct fields as [|first rest].
      * split; [tauto | discriminate].
      * split; [split; discriminate|]. intros n [= <-]. now left.
Qed.

Lemma series_fallback_member (fields : list Field) (p : Field -> bool) :
  let fallback := match find p fields with
                  | Some alternateField => Some (name alternateField)
                  | None => match fields with
                            | first :: _ => Some (name first)
                            | [] => None
                            end
                  end in
  (fallback = None <-> fields = []) /\
  (forall n, fallback = Some n -> In n (map name fields)).
Proof.
  cbn zeta. destruct (find p fields) as [s|] eqn:Es.
  - split.
    + split; [discriminate|]. intros ->. discriminate.
    + intros n [= <-]. apply in_map. now apply find_name in Es.
  - destruct fields as [|first rest].
    + split; [tauto | discriminate].
    + split; [split; discriminate|]. intros n [= <-]. now left.
Qed.

Lemma filter_member {A : Type} (p : A -> bool) (l : list A) (x : A) :
  In x (filter p l) -> In x l.
Proof. intros H. now apply filter_In in H. Qed.

Lemma default_series_member (fields : list Field) :
  (_getDefaultSeriesField fields = None <-> fields = []) /\
  (forall n, _getDefaultSeriesField fields = Some n -> In n (map name fields)).
Proof.
  unfold _getDefaultSeriesField.
  set (p := fun f => differs (name f) (_getDefaultDimensionField fields) &&
                     differs (name f) (_getDefaultMeasureField fields)).
  pose proof (series_fallback_member fields p) as Hfb. cbn zeta in Hfb.
  set (fallback := match find p fields with
                   | Some alternateField => Some (name alternateField)
                   | None => match fields with
                             | first :: _ => Some (name first)
                             | [] => None
                             end
                   end) in *.
  destruct (filter (fun f => isString (type f)) fields) as [|s1 [|s2 ss]] eqn:Ef.
  - exact Hfb.
  - destruct (differs (name s1) (_getDefaultDimensionField fields)); [|exact Hfb].
    assert (Hin : In s1 fields).
    { apply (filter_member (fun f => isString (type f))). rewrite Ef. now left. }
    split.
    + split; [discriminate|]. intros ->. destruct Hin.
    + intros n [= <-]. now apply in_map.
  - destruct (find _ (s1 :: s2 :: ss)) as [a|] eqn:Ea; [|exact Hfb].
    assert (Hin : In a fields).
    { apply (filter_member (fun f => isString (type f))). rewrite Ef.
      now apply find_name in Ea. }
    split.
    + split; [discriminate|]. intros ->. destruct Hin.
    + intros n [= <-]. now apply in_map.
Qed.

(** X10: each of the three default selections (dimension, measure,
    series) is [null] exactly when there is no field at all, and otherwise
    names one of the available fields. *)
Theorem defaults_name_available_fields (fields : list Field) :
  Forall (fun selection =>
            (selection = None <-> fields = []) /\
            (forall n, selection = Some n -> In n (map name fields)))
         [ _getDefaultDimensionField fields;
           _getDefaultMeasureField fields;
           _getDefaultSeriesField fields ].
Proof.
  repeat constructor;
    first [ apply default_dimension_member | apply default_measure_member
          | apply default_series_member ].
Qed.

Lemma same_name_same_field (fields : list Field) (a b : Field) :
  NoDup (map name fields) -> In a fields -> In b fields -> name a = name b ->
  a = b.
Proof.
  induction fields as [|f fields IH]; intros Hnd Ha Hb Hn; [destruct Ha|].
  inversion Hnd as [|? ? Hf Hnd']; subst.
  destruct Ha as [<-|Ha], Hb as [<-|Hb]; auto.
  - exfalso. apply Hf. rewrite Hn. now apply in_map.
  - exfalso. apply Hf. rewrite <- Hn. now apply in_map.
Qed.

Lemma default_measure_differs (fields : list Field) :
  NoDup (map name fields) ->
  2 <= List.length fields ->
  (exists f, In f fields /\ type f <> TNumber) ->
  _getDefaultMeasureField fields <> _getDefaultDimensionField fields.
Proof.
  intros Hnd Hlen (f0 & Hf0 & Ht0).
  unfold _getDefaultMeasureField.
  destruct (find (fun f => isNumber (type f)) fields) as [nf|] eqn:En.
  - apply find_some in En. destruct En as [Hnf Hnum].
    apply isNumber_iff in Hnum.
    unfold _getDefaultDimensionField.
    destruct (find (fun f => isDate (type f)) fields) as [d|] eqn:Ed.
    + apply find_some in Ed. destruct Ed as [Hd Hdate].
      intros [= Hname].
      assert (nf = d) by (eapply same_name_same_field; eauto).
      subst d. rewrite Hnum in Hdate. discriminate.
    + destruct (find (fun f => isString (type f)) fields) as [s|] eqn:Es.
      * apply find_some in Es. destruct Es as [Hs Hstring].
        intros [= Hname].
        assert (nf = s) by (eapply same_name_same_field; eauto).
        subst s. rewrite Hnum in Hstring. discriminate.
      * exfalso.
        pose proof (find_none _ _ Ed f0 Hf0) as H1.
        pose proof (find_none _ _ Es f0 Hf0) as H2. cbn beta in H1, H2.
        destruct (type f0); [discriminate | congruence | discriminate].
  - cbn zeta.
    destruct (find (fun f => differs (name f) (_getDefaultDimensionField fields))
                   fields) as [a|] eqn:Ea.
    + apply find_some in Ea. destruct Ea as [_ Ha].
      apply differs_iff in Ha. exact Ha.
    + exfalso. destruct fields as [|a [|b rest]]; cbn in Hlen; try lia.
      pose proof (find_none _ _ Ea a (or_introl eq_refl)) as H1.
      pose proof (find_none _ _ Ea b (or_intror (or_introl eq_refl))) as H2.
      cbn beta in H1, H2. apply differs_false in H1, H2.
      inversion Hnd as [|? ? Hin _]; subst. apply Hin. left. congruence.
Qed.

Lemma third_name (fields : list Field) (d m : option string) :
  NoDup (map name fields) ->
  3 <= List.length fields ->
  exists f, In f fields /\ Some (name f) <> d /\ Some (name f) <> m.
Proof.
  intros Hnd Hlen.
  destruct fields as [|a [|b [|c rest]]]; cbn in Hlen; try lia.
  inversion Hnd as [|? ? Ha Hnd1]; subst.
  inversion Hnd1 as [|? ? Hb _]; subst. cbn in Ha, Hb.
  destruct (differs (name a) d && differs (name a) m) eqn:Ea.
  { apply andb_true_iff in Ea. destruct Ea as [E1 E2].
    apply differs_iff in E1, E2. exists a. cbn. auto. }
  destruct (differs (name b) d && differs (name b) m) eqn:Eb.
  { apply andb_true_iff in Eb. destruct Eb as [E1 E2].
    apply differs_iff in E1, E2. exists b. cbn. auto. }
  destruct (differs (name c) d && differs (name c) m) eqn:Ec.
  { apply andb_true_iff in Ec. destruct Ec as [E1 E2].
    apply differs_iff in E1, E2. exists c. cbn. auto. }
  exfalso.
  apply andb_false_iff in Ea, Eb, Ec.
  destruct Ea as [Ea|Ea], Eb as [Eb|Eb], Ec as [Ec|Ec];
    apply differs_false in Ea, Eb, Ec;
    first [ apply Ha; left; congruence
          | apply Ha; right; left; congruence
          | apply Hb; left; congruence ].
Qed.

Lemma default_series_differs (fields : list Field) :
  NoDup (map name fields) ->
  3 <= List.length fields ->
  _getDefaultSeriesField fields <> _getDefaultDimensionField fields.
Proof.
  intros Hnd Hlen. unfold _getDefaultSeriesField.
  set (d := _getDefaultDimensionField fields).
  set (m := _getDefaultMeasureField fields).
  assert (Hfallback :
    match find (fun f => differs (name f) d && differs (name f) m) fields with
    | Some alternateField => Some (name alternateField)
    | None => match fields with
              | first :: _ => Some (name first)
              | [] => None
              end
    end <> d).
  { destruct (find _ fields) as [a|] eqn:Ea.
    - apply find_some in Ea. destruct Ea as [_ Ha].
      apply andb_true_iff in Ha. destruct Ha as [Ha _].
      now apply differs_iff in Ha.
    - exfalso. destruct (third_name fields d m Hnd Hlen) as (f & Hf & H1 & H2).
      pose proof (find_none _ _ Ea f Hf) as H. cbn beta in H.
      apply differs_iff in H1, H2. now rewrite H1, H2 in H. }
  destruct (filter (fun f => isString (type f)) fields) as [|s1 [|s2 ss]].
  - exact Hfallback.
  - destruct (differs (name s1) d) eqn:E; [|exact Hfallback].
    now apply differs_iff in E.
  - destruct (find _ (s1 :: s2 :: ss)) as [a|] eqn:Ea; [|exact Hfallback].
    apply find_some in Ea. destruct Ea as [_ Ha]. now apply differs_iff in Ha.
Qed.

(** X11: over fields with distinct names, the default measure differs
    from the default dimension as soon as there are two fields, one of them
    not numeric, and the default series differs from the default dimension
    as soon as there are three fields. *)
Theorem default_selections_differ (fields : list Field) :
  NoDup (map name fields) ->
  (2 <= List.length fields ->
   (exists f, In f fields /\ type f <> TNumber) ->
   _getDefaultMeasureField fields <> _getDefaultDimensionField fields) /\
  (3 <= List.length fields ->
   _getDefaultSeriesField fields <> _getDefaultDimensionField fields).
Proof.
  intros Hnd. split.
  - now apply default_measure_differs.
  - now apply default_series_differs.
Qed.

Lemma default_selections_differ_witness :
  _getDefaultMeasureField salesFields <> _getDefaultDimensionField salesFields /\
  _getDefaultSeriesField salesFields <> _getDefaultDimensionField salesFields.
Proof.
  destruct (default_selections_differ salesFields) as [Hmeasure Hseries].
  - repeat constructor; cbn; intuition discriminate.
  - split.
    + apply Hmeasure; [cbn; lia|].
      exists {| name := "region"; type := TString; label := "Region" |}.
      split; [now left | discriminate].
    + apply Hseries. cbn. lia.
Defined.

(** ** The aggregation type stays one the measure supports *)

Lemma offered_cases (st : State) :
  offered st = ["none"; "count"; "sum"; "average"; "min"; "max"] \/
  offered st = ["none"; "count"].
Proof.
  unfold offered, _getApplicableAggregationTypes.
  destruct (match measureField st with
            | Some m => find (fun f => String.eqb (name f) m) (availableFields st)
            | None => None
            end) as [f|]; [destruct (isNumber (type f))|]; cbn; auto.
Qed.

Lemma offered_same (st st' : State) :
  measureField st' = measureField st ->
  availableFields st' = availableFields st ->
  offered st' = offered st.
Proof.
  intros Hm Hf. unfold offered, _getApplicableAggregationTypes.
  now rewrite Hm, Hf.
Qed.

Lemma measure_change_offered (value : string) (st : State) :
  In (aggregationType st) ["none"; "count"; "sum"; "average"; "min"; "max"] ->
  In (aggregationType (onMeasureFieldChanged value st))
     (offered (onMeasureFieldChanged value st)).
Proof.
  intros Hin.
  assert (Hoffered : offered (onMeasureFieldChanged value st) =
    if match find (fun f => String.eqb (name f) value) (availableFields st) with
       | Some f => isNumber (type f)
       | None => false
       end
    then ["none"; "count"; "sum"; "average"; "min"; "max"]
    else ["none"; "count"]).
  { transitivity (offered
      {| reportName := reportName st; visualizationType := visualizationType st;
         validationError := validationError st;
         availableFields := availableFields st;
         dimensionField := dimensionField st; measureField := Some value;
         aggregationType := aggregationType st; seriesField := seriesField st;
         config := config st |}).
    - apply offered_same; unfold onMeasureFieldChanged;
        repeat match goal with
               | |- context [match ?x with _ => _ end] => destruct x
               end; reflexivity.
    - unfold offered, _getApplicableAggregationTypes. cbn.
      destruct (find _ (availableFields st)) as [f|];
        [destruct (isNumber (type f))|]; reflexivity. }
  rewrite Hoffered. unfold onMeasureFieldChanged. cbn.
  destruct (match find (fun f => String.eqb (name f) value) (availableFields st) with
            | Some f => isNumber (type f)
            | None => false
            end);
    destruct Hin as [H|[H|[H|[H|[H|[H|[]]]]]]]; rewrite <- H; cbn; auto 10.
Qed.

(** X12: in every state of the dialog that the handlers reach from
    [setup], the aggregation type is one of those
    [_getApplicableAggregationTypes] offers for the current measure,
    provided an aggregation type is only ever picked among those offered:
    a change of the measure to a field that is not numeric takes a
    numeric-only aggregation back to [count]. *)
Theorem aggregation_stays_offered (queryText : string) (fields : list Field)
    (st : State) :
  Reachable queryText fields st -> In (aggregationType st) (offered st).
Proof.
  induction 1 as [|st e _ IH Hpossible].
  - destruct (offered_cases (initialState queryText fields)) as [-> | ->];
      cbn; auto.
  - destruct e as [v|v|v|v|v]; cbn [handle].
    + rewrite (offered_same st) by (unfold onVisualizationTypeChanged;
        repeat match goal with |- context [if ?c then _ else _] => destruct c end;
        reflexivity).
      replace (aggregationType (onVisualizationTypeChanged v st))
        with (aggregationType st); [exact IH|].
      unfold onVisualizationTypeChanged;
        repeat match goal with |- context [if ?c then _ else _] => destruct c end;
        reflexivity.
    + exact IH.
    + apply measure_change_offered.
      destruct (offered_cases st) as [E|E]; rewrite E in IH; cbn in *; intuition.
    + exact Hpossible.
    + exact IH.
Qed.

Lemma aggregation_stays_offered_witness :
  In (aggregationType
        (handle (MeasureChanged "region")
           (handle (AggregationChanged "sum")
              (handle (MeasureChanged "qty")
                 (initialState "sales by region" salesFields)))))
     ["none"; "count"].
Proof.
  apply (aggregation_stays_offered "sales by region" salesFields
           (handle (MeasureChanged "region")
              (handle (AggregationChanged "sum")
                 (handle (MeasureChanged "qty")
                    (initialState "sales by region" salesFields))))).
  repeat (apply ReachStep; [|cbn; auto 10]). apply ReachInitial.
Defined.

(** ** Validation *)

Lemma selected_iff (s : option string) : selected s = true <-> Chosen s.
Proof.
  unfold selected, Chosen. destruct s as [n|]; cbn.
  - rewrite negb_true_iff, String.eqb_neq. split.
    + intros H. exists n. auto.
    + intros (n' & [= <-] & H). exact H.
  - split; [discriminate | intros (n & H & _); discriminate].
Qed.

Lemma blank_name (n : string) :
  String.eqb n "" || String.eqb (Str.trim n) "" = false <-> Str.trim n <> "".
Proof.
  rewrite orb_false_iff, !String.eqb_neq. split; [tauto|].
  intros H. split; [|exact H]. intros ->. now apply H.
Qed.

Lemma validation_complete (queryText : string) (st : State) :
  (snd (validateInputs queryText st) = true <-> Complete queryText st) /\
  sameButError st (fst (validateInputs queryText st)).
Proof.
  unfold validateInputs, Complete.
  change (reportName (withValidationError st None)) with (reportName st).
  change (dimensionField (withValidationError st None)) with (dimensionField st).
  change (measureField (withValidationError st None)) with (measureField st).
  change (seriesField (withValidationError st None)) with (seriesField st).
  change (stackedBar (withValidationError st None)) with (stackedBar st).
  rewrite <- !selected_iff.
  assert (Hrefuse : forall e,
    ~ (Str.trim (reportName st) <> "" /\ queryText <> "" /\
       selected (dimensionField st) = true /\ selected (measureField st) = true /\
       (stackedBar st = true -> selected (seriesField st) = true)) ->
    (false = true <->
     Str.trim (reportName st) <> "" /\ queryText <> "" /\
     selected (dimensionField st) = true /\ selected (measureField st) = true /\
     (stackedBar st = true -> selected (seriesField st) = true)) /\
    sameButError st (withValidationError (withValidationError st None) (Some e))).
  { intros e Hno. split; [split; [discriminate | intros H; now apply Hno in H]|].
    repeat split. }
  destruct (String.eqb (reportName st) "" || String.eqb (Str.trim (reportName st)) "")
    eqn:Ename.
  { apply Hrefuse. intros (H & _). apply blank_name in H. congruence. }
  apply blank_name in Ename.
  destruct (String.eqb_spec queryText "") as [->|Hq].
  { apply Hrefuse. tauto. }
  destruct (selected (dimensionField st)) eqn:Hd; cbn [negb].
  2:{ apply Hrefuse. intros (_ & _ & H & _). discriminate. }
  destruct (selected (measureField st)) eqn:Hm; cbn [negb].
  2:{ apply Hrefuse. intros (_ & _ & _ & H & _). discriminate. }
  destruct (stackedBar st) eqn:Hs; cbn [andb].
  - destruct (selected (seriesField st)) eqn:Hse; cbn [negb].
    + cbn. repeat split; auto.
    + apply Hrefuse. intros (_ & _ & _ & _ & H). specialize (H eq_refl).
      discriminate.
  - cbn. repeat split; auto; discriminate.
Qed.

Lemma error_iff_refused (queryText : string) (st : State) :
  validationError (fst (validateInputs queryText st)) = None <->
  snd (validateInputs queryText st) = true.
Proof.
  unfold validateInputs.
  repeat match goal with
         | |- context [if ?c then _ else _] => destruct c; [cbn; split; discriminate|]
         end.
  cbn. tauto.
Qed.

(** X13: [validateInputs] accepts exactly the complete inputs (a name
    that is not blank, a query, a dimension and a measure, and a series for
    a stacked bar chart); it leaves an error message exactly when it
    refuses, and changes nothing else in the state. *)
Theorem validation_verdict (queryText : string) (st : State) :
  (snd (validateInputs queryText st) = true <-> Complete queryText st) /\
  (validationError (fst (validateInputs queryText st)) = None <->
   snd (validateInputs queryText st) = true) /\
  sameButError st (fst (validateInputs queryText st)).
Proof.
  destruct (validation_complete queryText st) as [Hverdict Hsame].
  split; [exact Hverdict|]. split; [apply error_iff_refused | exact Hsame].
Qed.

(** ** Confirmation *)

Lemma valid_state (queryText : string) (st : State) :
  snd (validateInputs queryText st) = true ->
  validateInputs queryText st = (withValidationError st None, true).
Proof.
  unfold validateInputs.
  repeat match goal with
         | |- snd (if ?c then _ else _) = _ -> _ =>
             destruct c; [cbn; discriminate|]
         end.
  reflexivity.
Qed.

Lemma trim_empty : Str.trim "" = "".
Proof. reflexivity. Qed.

Lemma query_text_blank (q : string) :
  String.eqb (if String.eqb q "" then "" else Str.trim q) "" = true <->
  Str.trim q = "".
Proof.
  destruct (String.eqb_spec q "") as [->|_].
  - split; reflexivity.
  - apply String.eqb_eq.
Qed.

(** The state in which a confirmation that passes validation leaves the
    dialog before it looks at the name and the query text again. *)
Lemma confirmed_config (st : State) :
  let st0 := withValidationError st None in
  let st1 := withConfig st0
               (setProp "measureField" (selection (measureField st0))
                  (setProp "dimensionField" (selection (dimensionField st0))
                           (config st0))) in
  let st2 := if stackedBar st1
             then withConfig st1 (setProp "seriesField" (selection (seriesField st1))
                                          (config st1))
             else st1 in
  lookup "dimensionField" (config st2) = Some (selection (dimensionField st)) /\
  lookup "measureField" (config st2) = Some (selection (measureField st)) /\
  reportName st2 = reportName st /\
  visualizationType st2 = visualizationType st /\
  dimensionField st2 = dimensionField st /\
  measureField st2 = measureField st /\
  aggregationType st2 = aggregationType st.
Proof.
  cbn zeta.
  set (c1 := setProp "measureField" _ _).
  assert (Hd : lookup "dimensionField" c1 = Some (selection (dimensionField st))).
  { unfold c1. rewrite lookup_setProp_other by discriminate.
    apply lookup_setProp_same. }
  assert (Hm : lookup "measureField" c1 = Some (selection (measureField st))).
  { unfold c1. apply lookup_setProp_same. }
  destruct (stackedBar _); cbn [config withConfig];
    rewrite ?lookup_setProp_other by discriminate; repeat split; assumption.
Qed.

(** X14: [onConfirm] hands a bundle to the caller exactly when the
    inputs are complete, a callback was given and the query is not blank,
    and it closes the dialog exactly when it hands the bundle over.  The
    bundle carries the trimmed name and query, the visualization type, and
    a config that holds the selected dimension and measure. *)
Theorem bundle_sent_exactly_when_complete (props : Props) (st : State) (s : Store) :
  (sent (onConfirm props st s) <> None <->
   Complete (queryText props) st /\ hasOnConfirm props = true /\
   Str.trim (queryText props) <> "") /\
  (closed (onConfirm props st s) = true <-> sent (onConfirm props st s) <> None) /\
  (forall rd, sent (onConfirm props st s) = Some rd ->
     rd_name rd = Str.trim (reportName st) /\
     rd_query_text rd = Str.trim (queryText props) /\
     rd_visualization_type rd = visualizationType st /\
     jsonField "dimensionField" (rd_config rd) =
       jsonCopy (selection (dimensionField st)) /\
     jsonField "measureField" (rd_config rd) =
       jsonCopy (selection (measureField st))).
Proof.
  destruct (validation_complete (queryText props) st) as [Hverdict _].
  unfold onConfirm.
  destruct (snd (validateInputs (queryText props) st)) eqn:Hvalid.
  2:{ destruct (validateInputs (queryText props) st) as [st0 valid].
      cbn in Hvalid. subst valid. cbn.
      split; [split; [congruence | intros (H & _)]|].
      - apply Hverdict in H. discriminate.
      - split; [split; [discriminate | congruence] | discriminate]. }
  rewrite (valid_state _ _ Hvalid). cbn [negb].
  destruct (hasOnConfirm props) eqn:Hcb; cbn [negb].
  2:{ cbn. split; [split; [congruence | intros (_ & H & _); discriminate]|].
      split; [split; [discriminate | congruence] | discriminate]. }
  pose proof (confirmed_config st) as Hcfg. cbn zeta in Hcfg.
  set (st2 := if stackedBar _ then _ else _) in *.
  destruct Hcfg as (Hd & Hm & Hname & Htype & _).
  assert (Hcomplete : Complete (queryText props) st) by now apply Hverdict.
  assert (Hn : String.eqb (Str.trim (reportName st)) "" = false).
  { apply String.eqb_neq. apply Hcomplete. }
  change (reportName (withValidationError st None)) with (reportName st).
  rewrite Hn. cbn [orb].
  destruct (searchResults props) as [l|];
    destruct (String.eqb (if String.eqb (queryText props) "" then ""
                          else Str.trim (queryText props)) "") eqn:Hq;
    cbn [sent closed].
  all: try (apply query_text_blank in Hq;
            split; [split; [congruence | intros (_ & _ & H); congruence]|];
            split; [split; [discriminate | congruence] | discriminate]).
  all: assert (Hq' : Str.trim (queryText props) <> "")
         by (intros H; apply query_text_blank in H; congruence);
       (split; [split; [auto | discriminate]|]);
       (split; [split; [discriminate | reflexivity]|]);
       intros rd [= <-]; cbn [rd_name rd_query_text rd_visualization_type rd_config];
       (split; [reflexivity|]);
       (split; [destruct (String.eqb_spec (queryText props) "") as [E|_];
                [rewrite E in Hq'; now rewrite trim_empty in Hq' | reflexivity]|]);
       (split; [exact Htype|]);
       split.
  all: match goal with
       | |- _ = jsonCopy (selection ?x) =>
           let j := fresh "j" in
           let Hj := fresh "Hj" in
           assert (exists j, jsonCopy (selection x) = Some j) as (j & Hj)
             by (destruct x; cbn; eauto);
           rewrite Hj;
           first [ exact (jsonCopy_object_field fresh _ _ _ _ Hd Hj)
                 | exact (jsonCopy_object_field fresh _ _ _ _ Hm Hj) ]
       end.
Qed.

(** X15: a confirmation with complete inputs on a query that consists
    of white space sends nothing and leaves the dialog open with the error
    [Query text is required], but has already written the chart definition
    into the caller's search-result object. *)
Theorem blank_query_marks_payload_unsent (props : Props) (st : State)
    (s : Store) (l : loc) :
  searchResults props = Some l ->
  hasOnConfirm props = true ->
  Complete (queryText props) st ->
  Str.trim (queryText props) = "" ->
  sent (onConfirm props st s) = None /\
  closed (onConfirm props st s) = false /\
  validationError (state (onConfirm props st s)) = Some "Query text is required" /\
  ChartDefinitionAttached st s (store (onConfirm props st s)) l.
Proof.
  intros Hl Hcb Hcomplete Hblank.
  destruct (validation_complete (queryText props) st) as [Hverdict _].
  apply Hverdict in Hcomplete as Hvalid.
  unfold onConfirm. rewrite (valid_state _ _ Hvalid), Hcb, Hl. cbn [negb].
  pose proof (confirmed_config st) as Hcfg. cbn zeta in Hcfg.
  set (st2 := if stackedBar _ then _ else _) in *.
  destruct Hcfg as (_ & _ & _ & _ & Hd & Hm & Ha).
  assert (Hn : String.eqb (Str.trim (reportName st)) "" = false).
  { apply String.eqb_neq. apply Hcomplete. }
  change (reportName (withValidationError st None)) with (reportName st).
  rewrite Hn. cbn [orb app].
  assert (Hq : String.eqb (if String.eqb (queryText props) "" then ""
                           else Str.trim (queryText props)) "" = true)
    by now apply query_text_blank.
  rewrite Hq. cbn [sent closed state store validationError withValidationError].
  split; [reflexivity|]. split; [reflexivity|]. split; [reflexivity|].
  unfold ChartDefinitionAttached, write. rewrite Nat.eqb_refl.
  split; [|split].
  - exists (chartDefinitionOf st2). split; [apply lookup_setProp_same|].
    cbn. unfold field. cbn. rewrite Hd, Hm, Ha. auto.
  - intros k Hk. now apply lookup_setProp_other.
  - intros l' Hl'. apply Nat.eqb_neq in Hl'. now rewrite Hl'.
Qed.

Lemma blank_query_marks_payload_unsent_witness :
  sent (onConfirm blankQueryProps namedDialog pageStore) = None /\
  closed (onConfirm blankQueryProps namedDialog pageStore) = false /\
  validationError (state (onConfirm blankQueryProps namedDialog pageStore)) =
    Some "Query text is required" /\
  ChartDefinitionAttached namedDialog pageStore
    (store (onConfirm blankQueryProps namedDialog pageStore)) 10.
Proof.
  apply (blank_query_marks_payload_unsent blankQueryProps namedDialog pageStore 10).
  - reflexivity.
  - reflexivity.
  - repeat split; try discriminate.
    + exists "region". split; [reflexivity | discriminate].
    + exists "qty". split; [reflexivity | discriminate].
  - reflexivity.
Defined.

(** ** The records the dialog inspects *)

Lemma falsy_locate (sr : value) (lr : loc) (first : value) (rest : list value) :
  truthy sr = false ->
  ReportVisualization.locateRecords sr <> Ok (VArr lr (first :: rest)).
Proof.
  intros Hsr. unfold ReportVisualization.locateRecords, get.
  destruct (isNullish sr) eqn:Hn; [discriminate|]. cbn [bind].
  rewrite (BuilderProperties.falsy_read _ "multi_model" Hsr). cbn [bind andb].
  rewrite (BuilderProperties.falsy_read _ "records" Hsr). discriminate.
Qed.

(** X16: the dialog offers the fields of the records the builder
    charts: whenever the builder's search for the records of a payload
    finds a list whose first record is truthy, [_extractAvailableFields]
    yields the fields of that first record. *)
Theorem dialog_inspects_the_charted_records (searchResults : value) (lr : loc)
    (first : value) (rest : list value) :
  ReportVisualization.locateRecords searchResults = Ok (VArr lr (first :: rest)) ->
  truthy first = true ->
  _extractAvailableFields searchResults = _addFieldsFromRecord first [].
Proof.
  intros Hloc Hfirst.
  destruct (truthy searchResults) eqn:Hsr;
    [|now apply falsy_locate in Hloc].
  unfold _extractAvailableFields, or. rewrite Hsr.
  unfold ReportVisualization.locateRecords in Hloc.
  destruct (get searchResults "multi_model") as [multi|] eqn:Hmulti;
    [|discriminate].
  cbn [bind] in *.
  destruct (truthy multi) eqn:Htm.
  - destruct (get searchResults "results") as [results|]; [|discriminate].
    cbn [bind andb] in *.
    destruct (truthy results).
    + destruct (arrayFor "find" results) as [models|]; [|discriminate].
      cbn [bind] in *.
      change ReportVisualization.hasRecords with hasRecords in Hloc.
      destruct (findM hasRecords models) as [m|]; [|discriminate].
      cbn [bind] in *.
      destruct (truthy m); [|discriminate].
      destruct (get m "records") as [records|]; [|discriminate].
      cbn [bind] in *.
      destruct (truthy records); [|discriminate].
      injection Hloc as ->. cbn [get isNullish bind]. rewrite read_first.
      now rewrite Hfirst.
    + destruct (get searchResults "records") as [records|]; [|discriminate].
      cbn [bind] in *.
      destruct (truthy records) eqn:Hr; [|discriminate].
      injection Hloc as ->. cbn [lengthPositive andb get isNullish bind].
      now rewrite read_first.
  - cbn [bind andb] in *.
    destruct (get searchResults "records") as [records|]; [|discriminate].
    cbn [bind] in *.
    destruct (truthy records) eqn:Hr; [|discriminate].
    injection Hloc as ->. cbn [lengthPositive andb get isNullish bind].
    now rewrite read_first.
Qed.

Lemma dialog_inspects_the_charted_records_witness :
  _extractAvailableFields (VObj 10 searchPayload) =
    _addFieldsFromRecord
      (VObj 12 [("region", VStr "A"); ("product", VStr "X"); ("qty", VNum (Num.ofZ 5))])
      [].
Proof.
  apply (dialog_inspects_the_charted_records (VObj 10 searchPayload) 11
           (VObj 12 [("region", VStr "A"); ("product", VStr "X");
                     ("qty", VNum (Num.ofZ 5))]) []);
    reflexivity.
Defined.

End SelectionProperties.

(** * The chart on the canvas *)

Module RenderingProperties.

Import ReportVisualization Rendering Spec Notions Examples Cases JSFacts.

(** ** One chart at most *)

Lemma destroy_clean (c : Component) :
  instances c = (match chart c with Some _ => 1 | None => 0 end) ->
  chart (destroy c) = None /\ instances (destroy c) = 0 /\
  loading (destroy c) = loading c /\ error (destroy c) = error c /\
  library (destroy c) = library c.
Proof.
  unfold destroy. destruct (chart c) eqn:E; cbn; intros ->; rewrite ?E; auto.
Qed.

Lemma render_sound (env : Env) (describe : exn -> string) (f : Frame)
    (c : Component) :
  Sound c -> Sound (renderChart env describe f c).
Proof.
  intros (Hinst & Hchart & Herror). unfold renderChart.
  destruct (loading c || failed c) eqn:Hgate; [split; [|split]; assumption|].
  apply orb_false_iff in Hgate. destruct Hgate as [Hloading Hfailed].
  assert (Hnone : error c = None).
  { unfold failed in Hfailed. destruct (error c) as [m|] eqn:E; [|reflexivity].
    apply negb_false_iff, String.eqb_eq in Hfailed. subst m.
    now destruct (Herror "" eq_refl). }
  destruct (destroy_clean c Hinst) as (Hc & Hi & Hl & He & Hlib).
  set (d := destroy c) in *.
  assert (Hfail : forall message, message <> "" -> Sound (withError d message)).
  { intros message Hm. unfold Sound, withError. cbn. rewrite Hc, Hi.
    repeat split; try congruence; intros m [= <-]; exact Hm. }
  destruct (canvas f); cbn [negb]; [|now apply Hfail].
  destruct (context f); [now apply Hfail|].
  destruct (getChartConfig env (report f) (name f)) as [config|e];
    [|now apply Hfail].
  destruct (library d) eqn:Hd; cbn [negb]; [|now apply Hfail].
  destruct (construct f config); [now apply Hfail|].
  unfold Sound. cbn. rewrite Hi, Hl, He, Hloading, Hnone.
  repeat split; try congruence; discriminate.
Qed.

Lemma life_sound (env : Env) (describe : exn -> string) (frames : list Frame)
    (c : Component) :
  Sound c ->
  Sound (fold_left (fun c f => renderChart env describe f c) frames c).
Proof.
  revert c. induction frames as [|f frames IH]; intros c Hc; [exact Hc|].
  cbn. apply IH. now apply render_sound.
Qed.

(** X17: at every moment after the library was loaded and the chart
    rendered any number of times, the library holds one chart instance of
    the component if the component holds a chart and none otherwise; the
    component holds a chart only when loading is over, no error is recorded
    and the library is there; and the clean-up on unmounting leaves no
    instance behind. *)
Theorem one_chart_at_most (env : Env) (describe : exn -> string)
    (library : bool) (outcome : Loading) (frames : list Frame) :
  let c := life env describe library outcome frames in
  instances c = (match chart c with Some _ => 1 | None => 0 end) /\
  (chart c <> None ->
   loading c = false /\ error c = None /\ Rendering.library c = true) /\
  instances (destroy c) = 0.
Proof.
  cbn zeta.
  assert (Hsound : Sound (life env describe library outcome frames)).
  { apply life_sound. destruct outcome; unfold Sound; cbn.
    - repeat split; try congruence; intros m [= <-]; discriminate.
    - repeat split; congruence. }
  destruct Hsound as (Hinst & Hchart & _).
  split; [exact Hinst|]. split; [exact Hchart|].
  now destruct (destroy_clean _ Hinst) as (_ & Hi & _).
Qed.

(** ** Errors *)

Lemma failed_stays (env : Env) (describe : exn -> string) (frames : list Frame)
    (c : Component) :
  failed c = true ->
  fold_left (fun c f => renderChart env describe f c) frames c = c.
Proof.
  intros Hc. induction frames as [|f frames IH]; [reflexivity|].
  cbn [fold_left]. unfold renderChart at 2. rewrite Hc, orb_true_r. exact IH.
Qed.

Lemma life_is_sound (env : Env) (describe : exn -> string) (library : bool)
    (outcome : Loading) (frames : list Frame) :
  Sound (life env describe library outcome frames).
Proof.
  apply life_sound. destruct outcome; unfold Sound; cbn.
  - repeat split; try congruence; intros m [= <-]; discriminate.
  - repeat split; congruence.
Qed.

(** X18: once an error is recorded, by the loading of the library or by
    a rendering, no later rendering changes the component, whatever report
    it is given: the error stays and no chart is drawn. *)
Theorem recorded_error_is_final (env : Env) (describe : exn -> string)
    (library : bool) (outcome : Loading) (before after : list Frame) :
  error (life env describe library outcome before) <> None ->
  life env describe library outcome (before ++ after) =
    life env describe library outcome before /\
  chart (life env describe library outcome before) = None.
Proof.
  intros Herror.
  destruct (life_is_sound env describe library outcome before)
    as (_ & Hchart & Hmessage).
  split.
  - unfold life. rewrite fold_left_app. apply failed_stays.
    fold (life env describe library outcome before). unfold failed.
    destruct (error (life env describe library outcome before)) as [m|] eqn:E;
      [|congruence].
    apply negb_true_iff, String.eqb_neq. now apply Hmessage.
  - destruct (chart (life env describe library outcome before)) eqn:E;
      [|reflexivity].
    destruct Hchart as (_ & H & _); congruence.
Qed.

Lemma recorded_error_is_final_witness :
  life browser wording false (Loaded true)
       ([showing holedRecords] ++ [showing legacyReport]) =
    life browser wording false (Loaded true) [showing holedRecords] /\
  chart (life browser wording false (Loaded true) [showing holedRecords]) = None.
Proof.
  apply (recorded_error_is_final browser wording false (Loaded true)
           [showing holedRecords] [showing legacyReport]).
  vm_compute. discriminate.
Defined.

Lemma config_raises (env : Env) (report : Report) (name : value) (e : exn) :
  getChartData env report = Throw e ->
  getChartConfig env report name = Throw e.
Proof. intros H. unfold getChartConfig. now rewrite H. Qed.

(** X19: an exception that the chart builder raises does not escape
    [renderChart]: the rendering records the text [Error rendering chart: ]
    followed by the message of the exception, and leaves the component
    without a chart. *)
Theorem builder_exception_becomes_error (env : Env) (describe : exn -> string)
    (f : Frame) (c : Component) (e : exn) :
  loading c = false ->
  error c = None ->
  canvas f = true ->
  context f = None ->
  getChartData env (report f) = Throw e ->
  error (renderChart env describe f c) =
    Some ("Error rendering chart: " ++ describe e)%string /\
  chart (renderChart env describe f c) = None.
Proof.
  intros Hloading Herror Hcanvas Hcontext Hdata.
  unfold renderChart, failed. rewrite Hloading, Herror, Hcanvas, Hcontext.
  cbn [orb negb]. rewrite (config_raises _ _ _ _ Hdata).
  split; [reflexivity|]. unfold withError, destroy.
  destruct (chart c) eqn:E; cbn; [reflexivity | exact E].
Qed.

Lemma builder_exception_becomes_error_witness :
  error (renderChart browser wording (showing holedRecords)
           (onWillStart (Loaded true) (initial false))) =
    Some "Error rendering chart: Cannot read properties of null" /\
  chart (renderChart browser wording (showing holedRecords)
           (onWillStart (Loaded true) (initial false))) = None.
Proof.
  apply (builder_exception_becomes_error browser wording (showing holedRecords)
           (onWillStart (Loaded true) (initial false)) TypeError);
    reflexivity.
Defined.

(** ** Cumulated lines *)

Lemma cumulate_numbers (xs : list Num.number) (a : Num.number) :
  cumulate (VNum a) (map VNum xs) =
    map VNum (map (fun i => fold_left (fun acc x => (acc + x)%float)
                                      (firstn (S i) xs) a)
                  (seq 0 (List.length xs))).
Proof.
  revert a. induction xs as [|x xs IH]; intros a; [reflexivity|].
  cbn [map cumulate List.length seq firstn fold_left].
  change (plus (VNum a) (VNum x)) with (VNum (a + x)%float).
  rewrite IH. f_equal. rewrite <- seq_shift, !map_map. reflexivity.
Qed.

Lemma cumulateDataset_numbers (ds : Dataset) (xs : list Num.number) :
  points ds = NewArray (map VNum xs) ->
  exists ds', cumulateDataset ds = Ok ds' /\ Cumulated ds ds'.
Proof.
  intros Hpoints. unfold cumulateDataset. rewrite Hpoints. cbn [bind].
  eexists. split; [reflexivity|]. exists xs. cbn.
  split; [exact Hpoints|]. split; [|auto].
  now rewrite cumulate_numbers.
Qed.

(** X20: for a line chart with the [cumulated] option, [getChartConfig]
    replaces the numbers of every dataset the builder made by their running
    sums, added up from the left, and leaves the labels, the names and the
    colours as they are. *)
Theorem cumulated_line_shows_running_sums (env : Env) (report : Report)
    (name : value) (labels : jsarray) (datasets : list Dataset) :
  visualization_type report = VStr "line" ->
  truthy (read (readConfig env report) "cumulated") = true ->
  getChartData env report = Ok (Chart labels datasets) ->
  Forall (fun ds => exists xs, points ds = NewArray (map VNum xs)) datasets ->
  exists config datasets',
    getChartConfig env report name = Ok config /\
    data config = Chart labels datasets' /\
    Forall2 Cumulated datasets datasets'.
Proof.
  intros Htype Hcumulated Hdata Hnumbers.
  unfold getChartConfig. rewrite Hdata, Htype. cbn [bind].
  change (strictEq (VStr "line") (VStr "bar")) with false.
  change (strictEq (VStr "line") (VStr "line")) with true. cbn iota.
  rewrite (get_ok _ _ (truthy_read_not_nullish _ _ Hcumulated)). cbn [bind].
  rewrite Hcumulated. cbn [cumulateData].
  destruct (mapM_Forall2 cumulateDataset Cumulated datasets)
    as (datasets' & Hmap & Hall).
  { eapply Forall_impl; [|exact Hnumbers]. cbn beta. intros ds (xs & Hxs).
    now apply (cumulateDataset_numbers ds xs). }
  rewrite Hmap. cbn [bind]. eexists. exists datasets'.
  split; [reflexivity|]. split; [reflexivity | exact Hall].
Qed.

Lemma cumulated_line_shows_running_sums_witness :
  exists config datasets',
    getChartConfig browser cumulatedReport (VStr "Totals") = Ok config /\
    data config =
      Chart (NewArray [VStr "2024-01-01"; VStr "2024-01-02"]) datasets' /\
    Forall2 Cumulated
      [ {| label := VStr "Amount";
           points := NewArray [num 8; num 2];
           backgroundColor := OneColor "rgba(75, 192, 192, 0.2)";
           borderColor := "rgba(75, 192, 192, 1)";
           borderWidth := 1; fill := None; tension := None |} ]
      datasets'.
Proof.
  apply (cumulated_line_shows_running_sums browser cumulatedReport (VStr "Totals")).
  - reflexivity.
  - reflexivity.
  - reflexivity.
  - repeat constructor. exists [Num.ofZ 8; Num.ofZ 2]. reflexivity.
Defined.

(** The sums of the two dates, 8 and 2, are drawn as 8 and 10. *)
Example cumulated_sums_of_the_dated_records :
  option_map data
    (match getChartConfig browser cumulatedReport (VStr "Totals") with
     | Ok config => Some config
     | Throw _ => None
     end) =
  Some (singleDataset (VStr "line") [VStr "2024-01-01"; VStr "2024-01-02"]
          (VStr "Amount") [num 8; num 10]).
Proof. vm_compute. reflexivity. Qed.

End RenderingProperties.

(** * The search page *)

Module PageProperties.

Import ReportDialog SearchPage PageRuns JSFacts.

Ltac cases :=
  repeat match goal with
         | |- context [match ?x with _ => _ end] => destruct x eqn:?
         end.

Lemma loadFavorites_quiet (st : State) :
  untouched st (fst (loadFavorites st)) /\ quiet (snd (loadFavorites st)).
Proof. repeat split. Qed.

Lemma loadReports_quiet (st : State) :
  untouched st (fst (loadReports st)) /\ quiet (snd (loadReports st)).
Proof. repeat split. Qed.

Lemma setActiveTab_quiet (tab : string) (st : State) :
  untouched st (fst (setActiveTab tab st)) /\ quiet (snd (setActiveTab tab st)).
Proof.
  unfold setActiveTab, loadFavorites, loadReports.
  destruct (String.eqb tab "saved"), (String.eqb tab "reports"); repeat split.
Qed.

Lemma onSearch_step (st : State) :
  match onSearch st with
  | Throw _ => True
  | Ok (st', effects) =>
      (untouched st st' /\ quiet effects) \/
      (loading st = false /\ loading st' = true /\
       results st' = VNull /\ error st' = VNull /\
       savingFavorite st' = savingFavorite st /\
       filter (String.eqb searchRoute) (requests effects) = [searchRoute] /\
       filter (String.eqb saveRoute) (requests effects) = [])
  end.
Proof.
  unfold onSearch. destruct (stringFor "trim" (query st)) as [text|]; [|exact I].
  cbn [bind].
  destruct (String.eqb (Str.trim text) ""); cbn [orb].
  - left. repeat split.
  - destruct (loading st) eqn:E.
    + left. repeat split.
    + right. repeat split.
Qed.

Lemma call_step (m : Method) (st : State) :
  (untouched st (fst (call m st)) /\ quiet (snd (call m st))) \/
  (loading st = false /\ loading (fst (call m st)) = true /\
   results (fst (call m st)) = VNull /\ error (fst (call m st)) = VNull /\
   savingFavorite (fst (call m st)) = savingFavorite st /\
   filter (String.eqb searchRoute) (requests (snd (call m st))) = [searchRoute] /\
   filter (String.eqb saveRoute) (requests (snd (call m st))) = []) \/
  (savingFavorite st = false /\ savingFavorite (fst (call m st)) = true /\
   loading (fst (call m st)) = loading st /\
   results (fst (call m st)) = results st /\
   error (fst (call m st)) = error st /\
   filter (String.eqb saveRoute) (requests (snd (call m st))) = [saveRoute] /\
   filter (String.eqb searchRoute) (requests (snd (call m st))) = []).
Proof.
  destruct m as [text|key| | | |q|fid|tab| |rd| |rid|report]; cbn [call].
  - left. repeat split.
  - unfold onKeyup. destruct (strictEq key (VStr "Enter")).
    + pose proof (onSearch_step st) as H.
      destruct (onSearch st) as [[st' effects]|]; [|left; repeat split].
      destruct H as [H|H]; [left | right; left]; exact H.
    + left. repeat split.
  - pose proof (onSearch_step st) as H.
    destruct (onSearch st) as [[st' effects]|]; [|left; repeat split].
    destruct H as [H|H]; [left | right; left]; exact H.
  - unfold saveCurrentSearch.
    destruct (truthy (query st)); cbn [negb orb]; [|left; repeat split].
    destruct (savingFavorite st) eqn:E; [left | right; right]; repeat split.
  - left. apply loadFavorites_quiet.
  - unfold executeFavorite.
    pose proof (onSearch_step (setQuery q st)) as H.
    destruct (onSearch (setQuery q st)) as [[st' effects]|];
      cbn [bind]; [|left; repeat split].
    destruct (setActiveTab_quiet "search" st') as ((T1 & T2 & T3 & T4) & Q1 & Q2).
    destruct (setActiveTab "search" st') as [st'' switched].
    cbn [fst snd] in *.
    assert (Hreq : forall r, filter (String.eqb r) (requests (effects ++ switched)) =
                             filter (String.eqb r) (requests effects) ++
                             filter (String.eqb r) (requests switched)).
    { intros r. clear. induction effects as [|[route params| |] effects IH];
        cbn; rewrite ?IH; try reflexivity.
      now destruct (String.eqb r route). }
    unfold quiet in *. rewrite !Hreq, Q1, Q2, !app_nil_r.
    destruct H as [((U1 & U2 & U3 & U4) & Q)|(H1 & H2 & H3 & H4 & H5 & H6)].
    + left. split; [|exact Q]. cbn in *. repeat split; congruence.
    + right. left. cbn in *. repeat split; try congruence; tauto.
  - left. repeat split.
  - left. apply setActiveTab_quiet.
  - left. unfold createReport. destruct (negb (truthy (results st))); repeat split.
  - left. unfold saveReport.
    destruct (String.eqb (rd_name rd) "" || String.eqb (rd_query_text rd) "");
      repeat split.
  - left. apply loadReports_quiet.
  - left. repeat split.
  - left. repeat split.
Qed.

Lemma displayed_error (message : value) (st : State) :
  results (_displayError message st) = results st /\
  loading (_displayError message st) = loading st /\
  savingFavorite (_displayError message st) = savingFavorite st.
Proof. repeat split. Qed.

Lemma searchAnswer_step (data : value) (st st' : State) :
  searchAnswer data st = Ok st' ->
  loading st' = loading st /\ savingFavorite st' = savingFavorite st /\
  (results st = VNull -> error st = VNull ->
   truthy (results st') && truthy (error st') = false).
Proof.
  unfold searchAnswer.
  destruct (get data "error") as [err|]; [|discriminate]. cbn [bind].
  destruct (truthy err).
  - destruct (get err "data") as [detail|]; [|discriminate]. cbn [bind].
    destruct (if isNullish detail then Ok VUndefined else get detail "message")
      as [detailed|]; [|discriminate]. cbn [bind].
    destruct (if truthy detailed then Ok detailed else get err "message")
      as [message|]; [|discriminate]. cbn [bind].
    intros [= <-]. repeat split. intros Hr _. cbn. now rewrite Hr.
  - destruct (get data "result") as [result|]; [|discriminate]. cbn [bind].
    destruct (truthy result); cbn [negb].
    + destruct (get result "status") as [status|]; [|discriminate]. cbn [bind].
      destruct (if strictEq status (VStr "success") then get result "result"
                else Ok VUndefined) as [inner|]; [|discriminate]. cbn [bind].
      intros [= <-]. repeat split. intros _ He. cbn. rewrite He.
      apply andb_false_r.
    + intros [= <-]. repeat split. intros Hr _. cbn. now rewrite Hr.
Qed.

Lemma search_settled (describe : exn -> string) (o : Outcome) (st : State) :
  loading (onSearchSettled describe o st) = false /\
  savingFavorite (onSearchSettled describe o st) = savingFavorite st /\
  (results st = VNull -> error st = VNull ->
   truthy (results (onSearchSettled describe o st)) &&
     truthy (error (onSearchSettled describe o st)) = false).
Proof.
  unfold onSearchSettled. destruct o as [data|text].
  - destruct (searchAnswer data st) as [st'|e] eqn:E.
    + destruct (searchAnswer_step _ _ _ E) as (_ & H2 & H3).
      repeat split; assumption.
    + repeat split. intros Hr _. cbn. now rewrite Hr.
  - repeat split. intros Hr _. cbn. now rewrite Hr.
Qed.

Lemma favoriteSaved_step (o : Outcome) (st : State) :
  savingFavorite (fst (onFavoriteSaved o st)) = false /\
  loading (fst (onFavoriteSaved o st)) = loading st /\
  results (fst (onFavoriteSaved o st)) = results st /\
  error (fst (onFavoriteSaved o st)) = error st /\
  quiet (snd (onFavoriteSaved o st)).
Proof.
  unfold onFavoriteSaved. destruct o as [data|text]; [|repeat split].
  destruct (get data "error") as [err|]; [|repeat split].
  destruct (truthy err); repeat split.
Qed.

Lemma favoriteDeleted_step (o : Outcome) (st : State) :
  untouched st (fst (onFavoriteDeleted o st)) /\ quiet (snd (onFavoriteDeleted o st)).
Proof.
  unfold onFavoriteDeleted. destruct o as [data|text]; [|repeat split].
  destruct (get data "error") as [err|]; [|repeat split].
  destruct (truthy err); repeat split.
Qed.

Lemma listLoaded_step (o : Outcome) (st : State) :
  untouched st (onFavoritesLoaded o st) /\ untouched st (onReportsLoaded o st).
Proof.
  unfold onFavoritesLoaded, onReportsLoaded. destruct o as [data|text];
    [|repeat split].
  destruct (listOf data) as [[list|]|]; repeat split.
Qed.

Lemma reportSaved_step (o : Outcome) (st : State) :
  untouched st (fst (onReportSaved o st)) /\ quiet (snd (onReportSaved o st)).
Proof.
  unfold onReportSaved. destruct o as [data|text]; [|repeat split].
  destruct (get data "error") as [err|]; cbn [bind]; [|repeat split].
  destruct (truthy err); [repeat split|].
  destruct (get data "result") as [result|]; cbn [bind]; [|repeat split].
  destruct (if truthy result then get result "status" else Ok VUndefined)
    as [status|]; cbn [bind]; [|repeat split].
  destruct (truthy result && strictEq status (VStr "error")).
  - destruct (get result "error") as [message|]; repeat split.
  - unfold isReportsTabActive.
    destruct (String.eqb (activeTab st) "reports"); repeat split.
Qed.

Lemma reportDeleted_step (reportId : value) (o : Outcome) (st : State) :
  untouched st (fst (onReportDeleted reportId o st)) /\
  quiet (snd (onReportDeleted reportId o st)).
Proof.
  unfold onReportDeleted. destruct o as [data|text]; [|repeat split].
  destruct (get data "error") as [err|]; [|repeat split].
  destruct (truthy err); [repeat split|]. cbn.
  destruct (truthy (selectedReport st) &&
            strictEq (read (selectedReport st) "id") reportId); repeat split.
Qed.

(** ** Counting the requests under way *)

Lemma count_app (r : string) (l l' : list string) :
  List.length (filter (String.eqb r) (l ++ l')) =
    List.length (filter (String.eqb r) l) + List.length (filter (String.eqb r) l').
Proof. now rewrite filter_app, length_app. Qed.

Lemma count_ended (r route : string) (l : list string) :
  In route l ->
  List.length (filter (String.eqb r) (ended route l)) =
    List.length (filter (String.eqb r) l) - (if String.eqb r route then 1 else 0).
Proof.
  induction l as [|x l IH]; intros Hin; [destruct Hin|].
  cbn [ended filter]. destruct (String.eqb_spec x route) as [->|Hx].
  - destruct (String.eqb r route); cbn; lia.
  - destruct Hin as [E|Hin]; [congruence|]. specialize (IH Hin).
    cbn [filter]. destruct (String.eqb_spec r x) as [->|Hr]; cbn [List.length].
    + rewrite IH. destruct (String.eqb_spec x route); [congruence | lia].
    + exact IH.
Qed.

Lemma count_present (route : string) (l : list string) :
  In route l -> 1 <= List.length (filter (String.eqb route) l).
Proof.
  induction l as [|x l IH]; intros Hin; [destruct Hin|]. cbn.
  destruct (String.eqb_spec route x) as [->|N]; cbn; [lia|].
  destruct Hin as [E|Hin]; [congruence | auto].
Qed.

Ltac four := split; [|split; [|split]].

Lemma page_stays_orderly (describe : exn -> string) (w : World) :
  Reachable describe w -> Orderly w.
Proof.
  induction 1 as [|w m _ IH|w e _ IH Hin].
  - repeat split; try reflexivity; discriminate.
  - destruct IH as (Hs & Hf & Hl & Hb). unfold Orderly, underWay, after in *.
    cbn [page pending].
    rewrite !count_app, Hs, Hf.
    destruct (call_step m (page w))
      as [((U1 & U2 & U3 & U4) & Q1 & Q2)
         |[(H1 & H2 & H3 & H4 & H5 & H6 & H7)|(H1 & H2 & H3 & H4 & H5 & H6 & H7)]].
    + rewrite Q1, Q2, U1, U2, U3, U4. cbn. rewrite !Nat.add_0_r. four; auto.
    + rewrite H6, H7, H1, H2, H3, H4, H5. cbn. four; auto.
    + rewrite H6, H7, H1, H2, H3, H4, H5. cbn [List.length flagged].
      rewrite Nat.add_0_r. four; auto.
  - destruct IH as (Hs & Hf & Hl & Hb). unfold Orderly, underWay, afterEnd in *.
    cbn [page pending].
    rewrite !count_app, !(count_ended _ _ _ Hin), Hs, Hf.
    pose proof (count_present _ _ Hin) as Hpresent.
    destruct e as [o|o|o|o|o|o|rid o]; cbn [routeOf settle fst snd requests] in *.
    + destruct (search_settled describe o (page w)) as (S1 & S2 & S3).
      change (String.eqb searchRoute "/ai_universal_search/search") with true.
      change (String.eqb saveRoute "/ai_universal_search/search") with false.
      fold searchRoute in Hpresent. rewrite Hs in Hpresent.
      destruct (loading (page w)) eqn:El; cbn in Hpresent; [|lia].
      destruct (Hl eq_refl) as (Hr & He).
      rewrite S1, S2. cbn. four; try lia; try discriminate; auto.
    + destruct (favoriteSaved_step o (page w)) as (F1 & F2 & F3 & F4 & Q1 & Q2).
      change (String.eqb searchRoute "/ai_universal_search/save_favorite") with false.
      change (String.eqb saveRoute "/ai_universal_search/save_favorite") with true.
      fold saveRoute in Hpresent. rewrite Hf in Hpresent.
      destruct (savingFavorite (page w)) eqn:El; cbn in Hpresent; [|lia].
      rewrite Q1, Q2, F1, F2, F3, F4. cbn. four; auto; lia.
    + destruct (listLoaded_step o (page w)) as ((U1 & U2 & U3 & U4) & _).
      rewrite U1, U2, U3, U4. cbn. four; auto; lia.
    + destruct (favoriteDeleted_step o (page w)) as ((U1 & U2 & U3 & U4) & Q1 & Q2).
      rewrite Q1, Q2, U1, U2, U3, U4. cbn. four; auto; lia.
    + destruct (reportSaved_step o (page w)) as ((U1 & U2 & U3 & U4) & Q1 & Q2).
      rewrite Q1, Q2, U1, U2, U3, U4. cbn. four; auto; lia.
    + destruct (listLoaded_step o (page w)) as (_ & (U1 & U2 & U3 & U4)).
      rewrite U1, U2, U3, U4. cbn. four; auto; lia.
    + destruct (reportDeleted_step rid o (page w)) as ((U1 & U2 & U3 & U4) & Q1 & Q2).
      rewrite Q1, Q2, U1, U2, U3, U4. cbn. four; auto; lia.
Qed.

(** X21: in every state the page can reach from its opening, by calls
    of its methods and by requests that end in any order, exactly one
    search request is under way while [loading] is set and none while it
    is not, and likewise one request to save a favorite while
    [savingFavorite] is set and none while it is not. *)
Theorem one_request_per_flag (describe : exn -> string) (w : World) :
  Reachable describe w ->
  underWay searchRoute w = flagged (loading (page w)) /\
  underWay saveRoute w = flagged (savingFavorite (page w)).
Proof.
  intros H. destruct (page_stays_orderly describe w H) as (Hs & Hf & _).
  auto.
Qed.

Lemma one_request_per_flag_witness :
  underWay searchRoute
    (after OnSearch (after OnSearch (after (TypeQuery "list users") opened))) = 1 /\
  underWay saveRoute
    (after OnSearch (after OnSearch (after (TypeQuery "list users") opened))) = 0.
Proof.
  apply (one_request_per_flag Cases.wording
           (after OnSearch (after OnSearch (after (TypeQuery "list users") opened)))).
  repeat apply Called. apply Start.
Defined.

(** ** Results or an error *)

Lemma truthy_or (v d : value) : truthy d = true -> truthy (or v d) = true.
Proof. intros H. unfold or. now destruct (truthy v) eqn:E. Qed.

Lemma displayed_truthy (message : value) (st : State) :
  truthy message = true -> truthy (error (_displayError message st)) = true.
Proof.
  intros H. cbn. now destruct (String.eqb (typeOf message) "string").
Qed.

Lemma text_truthy (text : string) : text <> "" -> truthy (VStr text) = true.
Proof. intros H. cbn. now apply negb_true_iff, String.eqb_neq. Qed.

Lemma searchAnswer_decides (data : value) (st st' : State) :
  results st = VNull -> error st = VNull ->
  searchAnswer data st = Ok st' ->
  xorb (truthy (results st')) (truthy (error st')) = true.
Proof.
  intros Hr He. unfold searchAnswer.
  destruct (get data "error") as [err|]; [|discriminate]. cbn [bind].
  destruct (truthy err).
  - destruct (get err "data") as [detail|]; [|discriminate]. cbn [bind].
    destruct (if isNullish detail then Ok VUndefined else get detail "message")
      as [detailed|]; [|discriminate]. cbn [bind].
    destruct (if truthy detailed then Ok detailed else get err "message")
      as [message|]; [|discriminate]. cbn [bind].
    intros [= <-]. rewrite displayed_truthy by now apply truthy_or.
    cbn. now rewrite Hr.
  - destruct (get data "result") as [result|]; [|discriminate]. cbn [bind].
    destruct (truthy result) eqn:Hresult; cbn [negb].
    + destruct (get result "status") as [status|]; [|discriminate]. cbn [bind].
      destruct (if strictEq status (VStr "success") then get result "result"
                else Ok VUndefined) as [inner|]; [|discriminate]. cbn [bind].
      intros [= <-]. cbn. rewrite He. cbn.
      destruct (strictEq status (VStr "success") && truthy inner) eqn:E.
      * apply andb_true_iff in E. destruct E as [_ E]. now rewrite E.
      * now rewrite Hresult.
    + intros [= <-]. rewrite displayed_truthy by reflexivity. cbn. now rewrite Hr.
Qed.

(** X22: when a search request ends, in an answer or in a failure,
    [loading] is cleared and the page holds either results or an error,
    never both and never neither; a failure is worded by a text that is
    not empty, as is an exception that the handling of the answer
    raises. *)
Theorem search_ends_with_results_or_error (describe : exn -> string)
    (w : World) (o : Outcome) :
  Reachable describe w ->
  In searchRoute (pending w) ->
  (forall e, describe e <> "") ->
  (forall text, o = Failed text -> text <> "") ->
  loading (page (afterEnd describe (SearchEnds o) w)) = false /\
  xorb (truthy (results (page (afterEnd describe (SearchEnds o) w))))
       (truthy (error (page (afterEnd describe (SearchEnds o) w)))) = true.
Proof.
  intros Hw Hin Hdescribe Htext.
  destruct (page_stays_orderly describe w Hw) as (Hs & _ & Hl & _).
  pose proof (count_present _ _ Hin) as Hpresent.
  unfold underWay in Hs. rewrite Hs in Hpresent.
  destruct (loading (page w)) eqn:El; cbn in Hpresent; [|lia].
  destruct (Hl eq_refl) as (Hr & He).
  cbn [afterEnd page settle fst]. split; [reflexivity|].
  unfold onSearchSettled. destruct o as [data|text].
  - destruct (searchAnswer data (page w)) as [st'|e] eqn:E.
    + exact (searchAnswer_decides _ _ _ Hr He E).
    + cbn. rewrite Hr. cbn. apply negb_true_iff, String.eqb_neq, Hdescribe.
  - cbn. rewrite Hr. cbn. apply negb_true_iff, String.eqb_neq.
    now apply (Htext text).
Qed.

Lemma search_ends_with_results_or_error_witness :
  loading (page (afterEnd Cases.wording (SearchEnds (Answered Cases.usersAnswer))
                   (after OnSearch (after (TypeQuery "list users") opened))))
    = false /\
  xorb (truthy (results (page (afterEnd Cases.wording
                                 (SearchEnds (Answered Cases.usersAnswer))
                                 (after OnSearch
                                    (after (TypeQuery "list users") opened))))))
       (truthy (error (page (afterEnd Cases.wording
                               (SearchEnds (Answered Cases.usersAnswer))
                               (after OnSearch
                                  (after (TypeQuery "list users") opened))))))
    = true.
Proof.
  apply (search_ends_with_results_or_error Cases.wording
           (after OnSearch (after (TypeQuery "list users") opened))
           (Answered Cases.usersAnswer)).
  - repeat apply Called. apply Start.
  - vm_compute. auto.
  - intros []; discriminate.
  - discriminate.
Defined.

(** The search of the test suite: the page shows the two users found. *)
Example users_are_listed :
  let st := page (afterEnd Cases.wording (SearchEnds (Answered Cases.usersAnswer))
                    (after OnSearch (after (TypeQuery "list users") opened))) in
  read (results st) "model" = VStr "res.users" /\
  read (read (results st) "records") "length" = VNum (Num.ofZ 2) /\
  error st = VNull /\ loading st = false.
Proof. vm_compute. auto. Qed.

End PageProperties.

(** * From the dialog to the stored report and its chart *)

Module BundleProperties.

Import ReportDialog SearchPage Spec Notions JSFacts.

(** ** Induction on values *)

Lemma value_nested_ind (P : value -> Prop) :
  P VUndefined -> P VNull -> (forall b, P (VBool b)) -> (forall x, P (VNum x)) ->
  (forall s, P (VStr s)) ->
  (forall l xs, Forall P xs -> P (VArr l xs)) ->
  (forall l props, Forall (fun p => P (snd p)) props -> P (VObj l props)) ->
  (forall l time text iso, P (VDate l time text iso)) ->
  (forall l text, P (VFun l text)) ->
  forall v, P v.
Proof.
  intros Hu Hn Hb Hx Hs Ha Ho Hd Hf.
  fix IH 1. intros [| | b | x | s | l xs | l props | l time text iso | l text].
  - exact Hu.
  - exact Hn.
  - apply Hb.
  - apply Hx.
  - apply Hs.
  - apply Ha. induction xs as [|x xs IHxs]; constructor; [apply IH | exact IHxs].
  - apply Ho. induction props as [|[k x] props IHps]; constructor;
      [apply IH | exact IHps].
  - apply Hd.
  - apply Hf.
Qed.

(** ** The enumeration order is stable *)

Lemma keysOf_indices {A : Type} (ps : list (string * A)) :
  keysOf ps = map Str.ofNat (indices (map fst ps)) ++
              filter (fun k => negb (isIndexKey k)) (map fst ps).
Proof. reflexivity. Qed.

Lemma insertIndex_sorted (i : nat) (l : list nat) :
  Sorted le l -> Sorted le (insertIndex i l).
Proof.
  induction 1 as [|j l Hl IH Hj]; cbn; [repeat constructor|].
  destruct (Nat.leb_spec i j).
  - repeat constructor; auto.
  - constructor; [exact IH|].
    destruct l as [|k l]; cbn.
    + constructor. lia.
    + destruct (Nat.leb_spec i k); constructor; try lia.
      now inversion Hj.
Qed.

Lemma indices_sorted (ks : list string) : Sorted le (indices ks).
Proof.
  induction ks as [|k ks IH]; cbn; [constructor|].
  destruct (indexOf k); [now apply insertIndex_sorted | exact IH].
Qed.

Lemma indices_canonical (ks : list string) :
  Forall (fun i => indexOf (Str.ofNat i) = Some i) (indices ks).
Proof.
  induction ks as [|k ks IH]; cbn; [constructor|].
  destruct (indexOf k) as [i|] eqn:E; [|exact IH].
  eapply Permutation_Forall; [symmetry; apply insertIndex_perm|].
  constructor; [|exact IH]. now rewrite (indexOf_canonical k i E).
Qed.

Lemma sorted_stays (l : list nat) :
  Sorted le l -> fold_right insertIndex [] l = l.
Proof.
  induction 1 as [|i l Hl IH Hi]; [reflexivity|]. cbn. rewrite IH.
  destruct Hi as [|j l Hij]; [reflexivity|]. cbn.
  now apply Nat.leb_le in Hij as ->.
Qed.

Lemma indices_of_numerals (ns : list nat) (rest : list string) :
  Forall (fun i => indexOf (Str.ofNat i) = Some i) ns ->
  Forall (fun k => isIndexKey k = false) rest ->
  indices (map Str.ofNat ns ++ rest) = fold_right insertIndex [] ns.
Proof.
  intros His Hrest. unfold indices. rewrite fold_right_app.
  assert (Hr : fold_right (fun k acc => match indexOf k with
                                        | Some i => insertIndex i acc
                                        | None => acc
                                        end) [] rest = []).
  { induction Hrest as [|k rest Hk _ IH]; [reflexivity|]. cbn.
    unfold isIndexKey in Hk. destruct (indexOf k); [discriminate | exact IH]. }
  rewrite Hr. induction His as [|i ns Hi _ IH]; [reflexivity|].
  cbn. now rewrite Hi, IH.
Qed.

Lemma filter_none {A : Type} (p : A -> bool) (l : list A) :
  Forall (fun x => p x = false) l -> filter p l = [].
Proof.
  induction 1 as [|x l Hx _ IH]; [reflexivity|]. cbn. now rewrite Hx.
Qed.

Lemma filter_every {A : Type} (p : A -> bool) (l : list A) :
  Forall (fun x => p x = true) l -> filter p l = l.
Proof.
  induction 1 as [|x l Hx _ IH]; [reflexivity|]. cbn. now rewrite Hx, IH.
Qed.

Lemma enumeration_stable {A B : Type} (ps : list (string * A))
    (qs : list (string * B)) :
  map fst qs = keysOf ps -> keysOf qs = keysOf ps.
Proof.
  intros Hqs. rewrite (keysOf_indices qs), Hqs, (keysOf_indices ps).
  set (ns := indices (map fst ps)).
  set (rest := filter (fun k => negb (isIndexKey k)) (map fst ps)).
  assert (His : Forall (fun i => indexOf (Str.ofNat i) = Some i) ns)
    by apply indices_canonical.
  assert (Hrest : Forall (fun k => isIndexKey k = false) rest).
  { apply Forall_forall. intros k Hk. apply filter_In in Hk.
    destruct Hk as [_ Hk]. now apply negb_true_iff in Hk. }
  rewrite (indices_of_numerals ns rest His Hrest).
  rewrite (sorted_stays ns (indices_sorted _)).
  f_equal. rewrite filter_app.
  rewrite filter_none, filter_every; [reflexivity | |].
  - eapply Forall_impl; [|exact Hrest]. cbn beta. intros k Hk. now rewrite Hk.
  - apply Forall_map. eapply Forall_impl; [|exact His]. cbn beta.
    intros i Hi. unfold isIndexKey. now rewrite Hi.
Qed.

(** ** Copies of copies *)

Lemma jsonCopy_object (l : loc) (props : list (string * value)) :
  jsonCopy (VObj l props) =
  Some (JObj (map (fun k => (k, field JNull k (copied props)))
                  (keysOf (copied props)))).
Proof. reflexivity. Qed.

Lemma ofJson_object (ps : list (string * json)) :
  ofJson (JObj ps) = VObj 0 (map (fun p => (fst p, ofJson (snd p))) ps).
Proof.
  cbn [ofJson]. f_equal.
  induction ps as [|[k x] ps IH]; [reflexivity|]. cbn [map fst snd]. now rewrite <- IH.
Qed.

Lemma copied_In (ps : list (string * value)) (k : string) (j : json) :
  In (k, j) (copied ps) -> exists x, In (k, x) ps /\ jsonCopy x = Some j.
Proof.
  induction ps as [|[k' y] ps IH]; cbn; [tauto|].
  destruct (jsonCopy y) as [j'|] eqn:E.
  - intros [H|H].
    + injection H as -> ->. exists y. auto.
    + destruct (IH H) as (x & Hx & Hj). exists x. auto.
  - intros H. destruct (IH H) as (x & Hx & Hj). exists x. auto.
Qed.

Lemma copied_numerals (ks : list string) (f : string -> json) :
  (forall k, In k ks -> jsonCopy (ofJson (f k)) = Some (f k)) ->
  copied (map (fun k => (k, ofJson (f k))) ks) = map (fun k => (k, f k)) ks.
Proof.
  induction ks as [|k ks IH]; intros H; [reflexivity|].
  cbn [map copied]. rewrite (H k (or_introl eq_refl)).
  f_equal. apply IH. intros k' Hk'. apply H. now right.
Qed.

Lemma field_In {A : Type} (d : A) (k : string) (ps : list (string * A)) :
  In k (map fst ps) -> In (k, field d k ps) ps.
Proof.
  unfold field. induction ps as [|[k' y] ps IH]; cbn; [tauto|].
  destruct (String.eqb_spec k k') as [->|N].
  - auto.
  - intros [E|H]; [congruence | right; auto].
Qed.

Lemma field_tabulated {A : Type} (d : A) (f : string -> A) (ks : list string)
    (k : string) :
  In k ks -> field d k (map (fun k => (k, f k)) ks) = f k.
Proof.
  unfold field. induction ks as [|k' ks IH]; cbn; [tauto|].
  destruct (String.eqb_spec k k') as [->|N]; [reflexivity|].
  intros [E|H]; [congruence | auto].
Qed.

Lemma jsonCopy_again (v : value) :
  forall j, jsonCopy v = Some j -> jsonCopy (ofJson j) = Some j.
Proof.
  induction v as [| | b | x | s | l xs IH | l props IH | l time text iso | l text]
    using value_nested_ind; intros j; cbn [jsonCopy]; try discriminate;
    try (intros [= <-]; reflexivity).
  - intros [= <-]. destruct (is_finite x) eqn:F; [|reflexivity].
    destruct (is_zero x) eqn:Z; cbn [ofJson jsonCopy].
    + reflexivity.
    + now rewrite F, Z.
  - intros [= <-]. cbn [ofJson jsonCopy]. do 2 f_equal.
    rewrite !map_map. apply map_ext_in. intros x Hx.
    rewrite Forall_forall in IH. specialize (IH x Hx).
    destruct (jsonCopy x) as [j|]; [now rewrite (IH j eq_refl) | reflexivity].
  - fold (copied props). intros [= <-].
    set (C := copied props).
    assert (HC : forall k, In k (keysOf C) ->
              jsonCopy (ofJson (field JNull k C)) = Some (field JNull k C)).
    { intros k Hk. apply keysOf_In in Hk.
      apply (field_In JNull) in Hk. apply copied_In in Hk.
      destruct Hk as (x & Hx & Hj). rewrite Forall_forall in IH.
      exact (IH (k, x) Hx _ Hj). }
    rewrite ofJson_object, map_map. cbn [fst snd].
    rewrite jsonCopy_object, (copied_numerals _ (fun k => field JNull k C) HC).
    rewrite (enumeration_stable C (map (fun k => (k, field JNull k C)) (keysOf C)))
      by (rewrite map_map; apply map_id).
    do 2 f_equal. apply map_ext_in. intros k Hk.
    now rewrite (field_tabulated JNull (fun k => field JNull k C) _ k Hk).
  - intros [= <-]. now destruct iso.
Qed.

(** ** From the dialog to the request *)

Lemma sent_bundle (props : Props) (st : ReportDialog.State) (s : Store)
    (rd : ReportData) :
  sent (onConfirm props st s) = Some rd ->
  rd_name rd <> "" /\ rd_query_text rd <> "" /\
  (exists l ps, rd_config rd = copyOf (VObj l ps)) /\
  (exists l ps, rd_data rd = copyOf (VObj l ps)).
Proof.
  unfold onConfirm. destruct (validateInputs (queryText props) st) as [st' valid].
  destruct valid; [|discriminate]. cbn [negb].
  destruct (hasOnConfirm props); [|discriminate]. cbn [negb].
  destruct (searchResults props) as [l|];
    (destruct (String.eqb_spec (Str.trim (reportName st')) "") as [|Hn];
       [discriminate|];
     destruct (String.eqb_spec
                 (if String.eqb (queryText props) "" then ""
                  else Str.trim (queryText props)) "") as [|Hq];
       [discriminate|];
     cbn [orb sent]; intros [= <-]; cbn [rd_name rd_query_text rd_config rd_data];
     repeat split; try assumption; eauto).
Qed.

Lemma cloned_copy (l : loc) (ps : list (string * value)) :
  jsonCopy (clone (ofJson (copyOf (VObj l ps)))) = Some (copyOf (VObj l ps)).
Proof.
  assert (exists m, jsonCopy (VObj l ps) = Some (JObj m)) as [m Hm]
    by (eexists; apply jsonCopy_object).
  pose proof (jsonCopy_again _ _ Hm) as H.
  replace (copyOf (VObj l ps)) with (JObj m) by (unfold copyOf; now rewrite Hm).
  unfold clone.
  replace (or (ofJson (JObj m)) (VObj 0 [])) with (ofJson (JObj m)) by reflexivity.
  unfold copyOf. rewrite H. exact H.
Qed.

(** X23: every bundle the dialog hands over is accepted by
    [saveReport]: no field is found missing, and the one request it makes
    goes to [create_report] with the name and the query of the bundle and
    with its config and data unchanged by the second copy. *)
Theorem dialog_bundle_is_posted (props : Props) (st : ReportDialog.State)
    (s : Store) (rd : ReportData) (page : SearchPage.State) :
  sent (onConfirm props st s) = Some rd ->
  exists params,
    saveReport rd page =
      (setCreatingReport true page,
       [Fetch "/ai_universal_search/create_report" params]) /\
    jsonField "name" params = Some (JStr (rd_name rd)) /\
    jsonField "query_text" params = Some (JStr (rd_query_text rd)) /\
    jsonField "config" params = Some (rd_config rd) /\
    jsonField "data" params = Some (rd_data rd).
Proof.
  intros Hsent. apply sent_bundle in Hsent.
  destruct Hsent as (Hn & Hq & (lc & pc & Hc) & (ld & pd & Hd)).
  unfold saveReport.
  apply String.eqb_neq in Hn, Hq. rewrite Hn, Hq. cbn [orb].
  eexists. split; [reflexivity|]. unfold paramsOf.
  repeat split;
    (eapply DialogProperties.jsonCopy_object_field; [reflexivity|]); try reflexivity.
  - rewrite Hc. apply cloned_copy.
  - rewrite Hd. apply cloned_copy.
Qed.

Lemma dialog_bundle_is_posted_witness :
  exists rd,
    sent (onConfirm Examples.dialogProps Examples.stackedDialog Examples.pageStore)
      = Some rd /\
    exists params,
      saveReport rd initialState =
        (setCreatingReport true initialState,
         [Fetch "/ai_universal_search/create_report" params]) /\
      jsonField "name" params = Some (JStr (rd_name rd)) /\
      jsonField "query_text" params = Some (JStr (rd_query_text rd)) /\
      jsonField "config" params = Some (rd_config rd) /\
      jsonField "data" params = Some (rd_data rd).
Proof.
  eexists. split; [vm_compute; reflexivity|].
  apply (dialog_bundle_is_posted Examples.dialogProps Examples.stackedDialog
           Examples.pageStore).
  vm_compute. reflexivity.
Defined.

(** ** What a stored payload keeps *)

Lemma copied_cons (k : string) (y : value) (ps : list (string * value)) :
  copied ((k, y) :: ps) =
  match jsonCopy y with
  | Some j => (k, j) :: copied ps
  | None => copied ps
  end.
Proof. reflexivity. Qed.

Lemma copied_keys (ps : list (string * value)) (k : string) :
  In k (map fst (copied ps)) -> In k (map fst ps).
Proof.
  induction ps as [|[k' y] ps IH]; cbn; [tauto|].
  destruct (jsonCopy y); cbn; intuition.
Qed.

Lemma copied_lookup (ps : list (string * value)) (k : string) :
  NoDup (map fst ps) ->
  lookup k (copied ps) = match lookup k ps with
                         | Some x => jsonCopy x
                         | None => None
                         end.
Proof.
  induction ps as [|[k' y] ps IH]; [reflexivity|].
  cbn [map fst]. intros Hnd. apply NoDup_cons_iff in Hnd as [Hk' Hnd].
  rewrite copied_cons. cbn [lookup]. destruct (String.eqb_spec k k') as [->|N].
  - destruct (jsonCopy y) as [j|]; cbn [lookup]; [now rewrite String.eqb_refl|].
    destruct (lookup k' (copied ps)) eqn:E; [|reflexivity].
    exfalso. apply Hk', copied_keys, lookup_In. congruence.
  - destruct (jsonCopy y) as [j|]; cbn [lookup].
    + apply String.eqb_neq in N. rewrite N. now apply IH.
    + now apply IH.
Qed.

Lemma revived_object (l : loc) (ps : list (string * value)) :
  NoDup (map fst ps) ->
  exists ps',
    ofJson (copyOf (VObj l ps)) = VObj 0 ps' /\
    forall k, field VUndefined k ps' =
              match lookup k ps with
              | Some x => revived x
              | None => VUndefined
              end.
Proof.
  intros Hnd. unfold copyOf. rewrite jsonCopy_object, ofJson_object, map_map.
  cbn [fst snd]. eexists. split; [reflexivity|]. intros k.
  set (C := copied ps).
  assert (Hk : match lookup k ps with
               | Some x => revived x
               | None => VUndefined
               end = match lookup k C with
                     | Some j => ofJson j
                     | None => VUndefined
                     end).
  { unfold C. rewrite (copied_lookup ps k Hnd).
    destruct (lookup k ps); reflexivity. }
  rewrite Hk. clear Hk.
  destruct (lookup k C) as [j|] eqn:E.
  - rewrite (field_tabulated VUndefined (fun k => ofJson (field JNull k C))).
    + unfold field. now rewrite E.
    + apply keysOf_In, lookup_In. congruence.
  - unfold field at 1.
    destruct (lookup k (map _ (keysOf C))) eqn:E'; [|reflexivity].
    exfalso. assert (Hin : In k (keysOf C)).
    { assert (H : lookup k (map (fun k0 => (k0, ofJson (field JNull k0 C)))
                               (keysOf C)) <> None) by congruence.
      apply lookup_In in H. now rewrite map_map, map_id in H. }
    apply keysOf_In, lookup_In in Hin. congruence.
Qed.

Lemma revived_falsy (x : value) : truthy x = false -> truthy (revived x) = false.
Proof.
  unfold revived.
  destruct x as [| |b|x|s| | | |]; cbn [jsonCopy ofJson truthy];
    try discriminate; auto.
  intros H. destruct (is_finite x) eqn:F; [|reflexivity].
  destruct (is_zero x) eqn:Z; cbn [ofJson truthy]; [reflexivity|].
  rewrite Z in *. exact H.
Qed.

Lemma revived_field_falsy (ps ps' : list (string * value)) (k : string) :
  (forall k, field VUndefined k ps' =
             match lookup k ps with
             | Some x => revived x
             | None => VUndefined
             end) ->
  truthy (field VUndefined k ps) = false ->
  truthy (field VUndefined k ps') = false.
Proof.
  intros H. rewrite H. unfold field.
  destruct (lookup k ps); [apply revived_falsy | reflexivity].
Qed.

Lemma setProp_distinct {A : Type} (k : string) (x : A) (ps : list (string * A)) :
  NoDup (map fst ps) -> NoDup (map fst (setProp k x ps)).
Proof.
  intros Hnd. rewrite keys_setProp.
  destruct (existsb (String.eqb k) (map fst ps)) eqn:E; [exact Hnd|].
  apply NoDup_app; [exact Hnd | repeat constructor; intros [] |].
  intros k' Hin [Hk|[]]. subst k'.
  assert (existsb (String.eqb k) (map fst ps) = true); [|congruence].
  apply existsb_exists. exists k. split; [exact Hin | apply String.eqb_refl].
Qed.

(** ** From the dialog to the chart *)

Lemma sent_shape (props : Props) (st : ReportDialog.State) (s : Store)
    (rd : ReportData) (l : loc) :
  sent (onConfirm props st s) = Some rd ->
  searchResults props = Some l ->
  stackedBar st = false ->
  rd_visualization_type rd = visualizationType st /\
  (exists cfg, rd_config rd = copyOf (VObj fresh cfg)) /\
  rd_data rd =
    copyOf (VObj l (setProp "chartDefinition"
                      (VObj fresh
                         [ ("dimensionField", selection (dimensionField st));
                           ("measureField", selection (measureField st));
                           ("aggregationType", VStr (aggregationType st));
                           ("seriesField", VNull);
                           ("fieldTypes",
                            VObj fresh (fieldTypes (availableFields st))) ])
                      (s l))) /\
  selected (dimensionField st) = true /\ selected (measureField st) = true.
Proof.
  intros Hsent Hl Hstacked.
  destruct (SelectionProperties.validation_complete (queryText props) st)
    as [Hverdict _].
  unfold onConfirm in Hsent.
  destruct (snd (validateInputs (queryText props) st)) eqn:Hvalid.
  2:{ destruct (validateInputs (queryText props) st) as [st0 valid].
      cbn in Hvalid. subst valid. discriminate. }
  rewrite (SelectionProperties.valid_state _ _ Hvalid) in Hsent.
  cbn [negb] in Hsent.
  destruct (hasOnConfirm props); [|discriminate]. cbn [negb] in Hsent.
  assert (Hc : Notions.Complete (queryText props) st) by now apply Hverdict.
  destruct Hc as (_ & _ & Hd & Hm & _).
  apply SelectionProperties.selected_iff in Hd, Hm.
  rewrite Hl in Hsent.
  set (st0 := withValidationError st None) in *.
  set (st1 := withConfig st0 _) in *.
  assert (H1 : stackedBar st1 = false).
  { rewrite <- Hstacked. unfold stackedBar, configGet, field, st1, st0.
    cbn [visualizationType config withConfig withValidationError].
    now rewrite !lookup_setProp_other by discriminate. }
  rewrite H1 in Hsent. cbv beta iota zeta in Hsent.
  match type of Hsent with
  | sent (if ?c then _ else _) = _ => destruct c; [discriminate|]
  end.
  cbn [sent] in Hsent. injection Hsent as <-.
  cbn [rd_visualization_type rd_config rd_data].
  split; [reflexivity|]. split; [eauto|]. split; [|auto].
  unfold chartDefinitionOf. rewrite H1. unfold write. now rewrite Nat.eqb_refl.
Qed.

Lemma revived_object_value (l : loc) (ps : list (string * value)) :
  revived (VObj l ps) = ofJson (copyOf (VObj l ps)).
Proof. reflexivity. Qed.

Lemma revived_array (l : loc) (xs : list value) :
  revived (VArr l xs) = VArr 0 (map (fun x => ofJson (copyOf x)) xs).
Proof.
  unfold revived. cbn [jsonCopy ofJson]. now rewrite map_map.
Qed.



End BundleProperties.
